(** * The framebuffer backend of minuitwrp (graphics_fbdev.cpp)

    A shallow embedding of the fbdev display backend: the probe of
    /dev/graphics/fb0, the choice of a pixel format, the choice between one
    and two front buffers, the page flip and the teardown.

    The C++ file keeps its state in file-scope variables and talks to the
    kernel through open/ioctl/mmap/malloc.  Here the variables, the process
    resources (descriptors, mappings, heap objects), the error stream and the
    display controller are the fields of one [state] record that every
    function threads through; what the kernel answers to a call that can fail
    is an argument of the function that makes the call.

    Integers are [Z] with the wrap-around of their C type written out:
    [u32] for [__u32] and [unsigned], [s32] for [int], [usize] for [size_t]
    (64 bits).  A conversion to [int] and an [int] product are taken modulo
    2^32 in two's complement, which is what the ARM targets of the recovery
    compute; C++ leaves the overflowing product undefined.

    Memory is a finite map from blocks to objects and a pointer is a block
    and an offset.  An access outside a live object has no defined behaviour
    in C++: the model stops there with [Undefined], so a run that ends in
    [Ok] has stayed inside its objects.

    Informational [printf]s are left out, the [perror] reports are kept. *)

From stdpp Require Import gmap strings list fin_maps numbers pretty.
From Stdlib Require Import ZArith Lia Init.Byte.

Open Scope Z_scope.

(** ** Machine integers *)

Definition u32 (z : Z) : Z := z mod 2 ^ 32.
Definition s32 (z : Z) : Z := (z + 2 ^ 31) mod 2 ^ 32 - 2 ^ 31.
Definition usize (z : Z) : Z := z mod 2 ^ 64.

(** ** Build configuration: the preprocessor symbols the file tests *)

Record build := Build {
  RECOVERY_RGB_565 : bool;
  RECOVERY_BGRA : bool;
  TW_NO_SCREEN_BLANK : bool;
  (* TW_BRIGHTNESS_PATH and TW_MAX_BRIGHTNESS, when both are defined *)
  TW_BRIGHTNESS : option (string * Z)
}.

(** ** Kernel and pixelflinger types *)

(* pixelflinger/format.h; GGL_PIXEL_FORMAT_NONE is the value of a
   zero-initialised [format] field. *)
Inductive GGLPixelFormat :=
  | GGL_PIXEL_FORMAT_NONE
  | GGL_PIXEL_FORMAT_RGBA_8888
  | GGL_PIXEL_FORMAT_RGBX_8888
  | GGL_PIXEL_FORMAT_RGB_565
  | GGL_PIXEL_FORMAT_BGRA_8888.

(* linux/fb.h, the fields this file reads or writes; all are __u32. *)
Record fb_bitfield := Bitfield {
  bf_offset : Z;
  bf_length : Z;
  bf_msb_right : Z
}.

Record fb_var_screeninfo := VarInfo {
  xres : Z;
  yres : Z;
  xres_virtual : Z;
  yres_virtual : Z;
  yoffset : Z;
  bits_per_pixel : Z;
  red : fb_bitfield;
  green : fb_bitfield;
  blue : fb_bitfield;
  transp : fb_bitfield
}.

Record fb_fix_screeninfo := FixInfo {
  fi_smem_len : Z;
  fi_line_length : Z
}.

Definition is_u32 (z : Z) : Prop := 0 <= z < 2 ^ 32.

(** ** Memory *)

Definition block := nat.

Inductive ptr :=
  | NULL
  | Ptr (b : block) (off : Z).

Definition ptr_add (p : ptr) (n : Z) : ptr :=
  match p with
  | NULL => NULL
  | Ptr b off => Ptr b (off + n)
  end.

Definition is_null (p : ptr) : bool :=
  match p with NULL => true | Ptr _ _ => false end.

(* minui.h: int width, height, row_bytes, pixel_bytes; the pixel memory and
   the format tag. *)
Record GRSurface := Surface {
  width : Z;
  height : Z;
  row_bytes : Z;
  pixel_bytes : Z;
  data : ptr;
  format : GGLPixelFormat
}.

(* A live object: a shared mapping of device memory, a heap array of bytes,
   or a heap GRSurface (None while its fields are still indeterminate). *)
Inductive object :=
  | Mapping (bytes : list byte)
  | Bytes (bytes : list byte)
  | Struct (s : option GRSurface).

Definition bytes_of (o : object) : option (list byte) :=
  match o with
  | Mapping l | Bytes l => Some l
  | Struct _ => None
  end.

Definition with_bytes (o : object) (l : list byte) : object :=
  match o with
  | Mapping _ => Mapping l
  | Bytes _ => Bytes l
  | Struct s => Struct s
  end.

(** ** The state: file-scope variables, process resources, the device *)

Record state := State {
  (* static variables of graphics_fbdev.cpp *)
  gr_framebuffer : GRSurface * GRSurface;
  double_buffered : bool;
  gr_draw : ptr;
  displayed_buffer : Z;
  vi : fb_var_screeninfo;
  fb_fd : Z;
  smem_len : Z;
  (* the process *)
  fds : gset nat;
  mem : gmap block object;
  stderr : list string;
  (* the display controller: the last variable info it accepted, the last
     blank level it accepted, the last text written to the backlight *)
  scanout : option fb_var_screeninfo;
  blanked : option bool;
  backlight : option string
}.

Definition zero_bitfield : fb_bitfield := Bitfield 0 0 0.
Definition zero_var : fb_var_screeninfo :=
  VarInfo 0 0 0 0 0 0 zero_bitfield zero_bitfield zero_bitfield zero_bitfield.
Definition zero_surface : GRSurface :=
  Surface 0 0 0 0 NULL GGL_PIXEL_FORMAT_NONE.

(* The variables as the loader leaves them, in a process that holds the
   three standard descriptors and nothing else. *)
Definition startup : state :=
  State (zero_surface, zero_surface) false NULL 0 zero_var (-1) 0
        {[0%nat; 1%nat; 2%nat]} ∅ [] None None None.

(* Field updates. *)
Definition set_gr_framebuffer (x : GRSurface * GRSurface) (s : state) : state :=
  State x (double_buffered s) (gr_draw s) (displayed_buffer s) (vi s) (fb_fd s)
        (smem_len s) (fds s) (mem s) (stderr s) (scanout s) (blanked s) (backlight s).
Definition set_double_buffered (x : bool) (s : state) : state :=
  State (gr_framebuffer s) x (gr_draw s) (displayed_buffer s) (vi s) (fb_fd s)
        (smem_len s) (fds s) (mem s) (stderr s) (scanout s) (blanked s) (backlight s).
Definition set_gr_draw (x : ptr) (s : state) : state :=
  State (gr_framebuffer s) (double_buffered s) x (displayed_buffer s) (vi s) (fb_fd s)
        (smem_len s) (fds s) (mem s) (stderr s) (scanout s) (blanked s) (backlight s).
Definition set_displayed_buffer (x : Z) (s : state) : state :=
  State (gr_framebuffer s) (double_buffered s) (gr_draw s) x (vi s) (fb_fd s)
        (smem_len s) (fds s) (mem s) (stderr s) (scanout s) (blanked s) (backlight s).
Definition set_vi (x : fb_var_screeninfo) (s : state) : state :=
  State (gr_framebuffer s) (double_buffered s) (gr_draw s) (displayed_buffer s) x (fb_fd s)
        (smem_len s) (fds s) (mem s) (stderr s) (scanout s) (blanked s) (backlight s).
Definition set_fb_fd (x : Z) (s : state) : state :=
  State (gr_framebuffer s) (double_buffered s) (gr_draw s) (displayed_buffer s) (vi s) x
        (smem_len s) (fds s) (mem s) (stderr s) (scanout s) (blanked s) (backlight s).
Definition set_smem_len (x : Z) (s : state) : state :=
  State (gr_framebuffer s) (double_buffered s) (gr_draw s) (displayed_buffer s) (vi s) (fb_fd s)
        x (fds s) (mem s) (stderr s) (scanout s) (blanked s) (backlight s).
Definition set_fds (x : gset nat) (s : state) : state :=
  State (gr_framebuffer s) (double_buffered s) (gr_draw s) (displayed_buffer s) (vi s) (fb_fd s)
        (smem_len s) x (mem s) (stderr s) (scanout s) (blanked s) (backlight s).
Definition set_mem (x : gmap block object) (s : state) : state :=
  State (gr_framebuffer s) (double_buffered s) (gr_draw s) (displayed_buffer s) (vi s) (fb_fd s)
        (smem_len s) (fds s) x (stderr s) (scanout s) (blanked s) (backlight s).
Definition set_stderr (x : list string) (s : state) : state :=
  State (gr_framebuffer s) (double_buffered s) (gr_draw s) (displayed_buffer s) (vi s) (fb_fd s)
        (smem_len s) (fds s) (mem s) x (scanout s) (blanked s) (backlight s).
Definition set_scanout (x : option fb_var_screeninfo) (s : state) : state :=
  State (gr_framebuffer s) (double_buffered s) (gr_draw s) (displayed_buffer s) (vi s) (fb_fd s)
        (smem_len s) (fds s) (mem s) (stderr s) x (blanked s) (backlight s).
Definition set_blanked (x : option bool) (s : state) : state :=
  State (gr_framebuffer s) (double_buffered s) (gr_draw s) (displayed_buffer s) (vi s) (fb_fd s)
        (smem_len s) (fds s) (mem s) (stderr s) (scanout s) x (backlight s).
Definition set_backlight (x : option string) (s : state) : state :=
  State (gr_framebuffer s) (double_buffered s) (gr_draw s) (displayed_buffer s) (vi s) (fb_fd s)
        (smem_len s) (fds s) (mem s) (stderr s) (scanout s) (blanked s) x.

(** ** Computations: a state monad whose runs may be undefined *)

Inductive fault :=
  | OutOfBounds   (* an access outside the object, or outside the array *)
  | BadPointer    (* null, dangling, or of the wrong kind *)
  | Overlap       (* memcpy between overlapping ranges *)
  | Diverges.     (* the loop does not terminate *)

Inductive result (A : Type) :=
  | Ok (a : A) (s : state)
  | Undefined (f : fault).
Arguments Ok {A} a s.
Arguments Undefined {A} f.

Definition prog (A : Type) : Type := state → result A.

#[global] Instance prog_ret : MRet prog := λ A a s, Ok a s.
#[global] Instance prog_bind : MBind prog := λ A B k m s,
  match m s with
  | Ok a s' => k a s'
  | Undefined f => Undefined f
  end.

Definition gets {A} (f : state → A) : prog A := λ s, Ok (f s) s.
Definition modify (f : state → state) : prog unit := λ s, Ok tt (f s).
Definition undefined {A} (f : fault) : prog A := λ _, Undefined f.

(** ** The C library and the system calls *)

Definition perror (msg : string) : prog unit :=
  modify (λ s, set_stderr (stderr s ++ [msg]) s).

(* open: a descriptor that is not in use, or -1. *)
Definition sys_open (ok : bool) : prog Z := λ s,
  if ok then
    let fd := fresh (fds s) in
    Ok (Z.of_nat fd) (set_fds ({[fd]} ∪ fds s) s)
  else Ok (-1) s.

Definition sys_close (fd : Z) : prog unit :=
  modify (λ s, if bool_decide (0 ≤ fd) then set_fds (fds s ∖ {[Z.to_nat fd]}) s else s).

Definition alloc (o : object) : prog ptr := λ s,
  let b := fresh (dom (mem s)) in
  Ok (Ptr b 0) (set_mem (<[b := o]> (mem s)) s).

(* mmap(0, len, PROT_READ | PROT_WRITE, MAP_SHARED, fd, 0): [vram] is the
   device memory as found, None stands for MAP_FAILED. *)
Definition sys_mmap (len : Z) (vram : option (list byte)) : prog (option ptr) :=
  match vram with
  | None => mret None
  | Some l => p ← alloc (Mapping (resize (Z.to_nat len) x00 l)); mret (Some p)
  end.

(* munmap removes a mapping given by its start and its length; any other
   argument leaves the address space as it is. *)
Definition sys_munmap (p : ptr) (len : Z) : prog unit :=
  modify (λ s,
    match p with
    | Ptr b off =>
      match mem s !! b with
      | Some (Mapping l) =>
        if bool_decide (off = 0 ∧ Z.of_nat (length l) = len)
        then set_mem (delete b (mem s)) s else s
      | _ => s
      end
    | NULL => s
    end).

(* malloc(n): [junk] is what the fresh memory happens to hold, None stands
   for a failed allocation. *)
Definition malloc (n : Z) (junk : option (list byte)) : prog ptr :=
  match junk with
  | None => mret NULL
  | Some l => alloc (Bytes (resize (Z.to_nat n) x00 l))
  end.

(* malloc(sizeof(GRSurface)) *)
Definition malloc_surface (ok : bool) : prog ptr :=
  if ok then alloc (Struct None) else mret NULL.

Definition free (p : ptr) : prog unit := λ s,
  match p with
  | NULL => Ok tt s
  | Ptr b off =>
    match mem s !! b with
    | Some (Bytes _) | Some (Struct _) =>
      if bool_decide (off = 0) then Ok tt (set_mem (delete b (mem s)) s)
      else Undefined BadPointer
    | _ => Undefined BadPointer
    end
  end.

(** ** Byte accesses *)

Definition in_bounds (off n : Z) (l : list byte) : bool :=
  bool_decide (0 ≤ off ∧ 0 ≤ n ∧ off + n ≤ Z.of_nat (length l)).

(* The byte object [p] points into, once [n] bytes from [p] are known to lie
   inside it: its block, the offset of [p], the object and its bytes. *)
Definition span (p : ptr) (n : Z) : prog (block * Z * object * list byte) := λ s,
  match p with
  | NULL => Undefined BadPointer
  | Ptr b off =>
    match mem s !! b with
    | Some o =>
      match bytes_of o with
      | Some l => if in_bounds off n l then Ok (b, off, o, l) s else Undefined OutOfBounds
      | None => Undefined BadPointer
      end
    | None => Undefined BadPointer
    end
  end.

Definition put_bytes (b : block) (o : object) (l : list byte) : prog unit :=
  modify (λ s, set_mem (<[b := with_bytes o l]> (mem s)) s).

(* [l] with the bytes from offset [off] on replaced by [new]. *)
Definition splice (off : Z) (new l : list byte) : list byte :=
  take (Z.to_nat off) l ++ new ++ drop (Z.to_nat off + length new) l.

Definition slice (off n : Z) (l : list byte) : list byte :=
  take (Z.to_nat n) (drop (Z.to_nat off) l).

Definition load (p : ptr) : prog byte :=
  '(b, off, o, l) ← span p 1;
  match l !! Z.to_nat off with
  | Some x => mret x
  | None => undefined OutOfBounds
  end.

Definition store (p : ptr) (x : byte) : prog unit :=
  '(b, off, o, l) ← span p 1;
  put_bytes b o (<[Z.to_nat off := x]> l).

Definition memset (p : ptr) (c : byte) (n : Z) : prog unit :=
  '(b, off, o, l) ← span p n;
  put_bytes b o (splice off (replicate (Z.to_nat n) c) l).

Definition memcpy (dst src : ptr) (n : Z) : prog unit :=
  '(bs, offs, _, ls) ← span src n;
  '(bd, offd, od, ld) ← span dst n;
  if bool_decide (bs = bd ∧ offs < offd + n ∧ offd < offs + n)
  then undefined Overlap
  else put_bytes bd od (splice offd (slice offs n ls) ld).

(* Reading and writing a heap GRSurface through a pointer to it. *)
Definition read_surface (p : ptr) : prog GRSurface := λ s,
  match p with
  | Ptr b off =>
    match mem s !! b with
    | Some (Struct (Some g)) =>
      if bool_decide (off = 0) then Ok g s else Undefined BadPointer
    | _ => Undefined BadPointer
    end
  | NULL => Undefined BadPointer
  end.

Definition write_surface (p : ptr) (g : GRSurface) : prog unit := λ s,
  match p with
  | Ptr b off =>
    match mem s !! b with
    | Some (Struct _) =>
      if bool_decide (off = 0)
      then Ok tt (set_mem (<[b := Struct (Some g)]> (mem s)) s)
      else Undefined BadPointer
    | _ => Undefined BadPointer
    end
  | NULL => Undefined BadPointer
  end.

(* gr_framebuffer[i] *)
Definition framebuffer (i : Z) : prog GRSurface := λ s,
  if bool_decide (i = 0) then Ok (gr_framebuffer s).1 s
  else if bool_decide (i = 1) then Ok (gr_framebuffer s).2 s
  else Undefined OutOfBounds.

(** ** What the kernel answers during one fbdev_init *)

Record probe := Probe {
  open_ok : bool;                              (* open("/dev/graphics/fb0") *)
  fscreeninfo : option fb_fix_screeninfo;      (* FBIOGET_FSCREENINFO *)
  vscreeninfo : option fb_var_screeninfo;      (* FBIOGET_VSCREENINFO *)
  vram : option (list byte);                   (* mmap *)
  surface_ok : bool;                           (* malloc(sizeof(GRSurface)) *)
  pixels : option (list byte);                 (* malloc(height * row_bytes) *)
  pan_ok : bool;                               (* FBIOPUT_VSCREENINFO *)
  blank_ok : bool;                             (* fbdev_blank(true) *)
  unblank_ok : bool                            (* fbdev_blank(false) *)
}.

Definition probe_wf (k : probe) : Prop :=
  (∀ fi, fscreeninfo k = Some fi → is_u32 (fi_smem_len fi) ∧ is_u32 (fi_line_length fi)) ∧
  (∀ v, vscreeninfo k = Some v → is_u32 (xres v) ∧ is_u32 (yres v) ∧ is_u32 (bits_per_pixel v)).

(** ** fbdev_blank *)

(* snprintf(brightness, 4, "%03d", v): the first three characters of the
   zero-padded decimal. *)
Definition pad0 (w : nat) (s : string) : string :=
  String.concat "" (replicate (w - String.length s) "0"%string) +:+ s.

Definition snprintf4_03d (v : Z) : string :=
  let full := if bool_decide (v < 0) then "-" +:+ pad0 2 (pretty (- v))
              else pad0 3 (pretty v) in
  String.substring 0 3 full.

Definition fbdev_blank (cfg : build) (ok : bool) (blank : bool) : prog unit :=
  match TW_NO_SCREEN_BLANK cfg, TW_BRIGHTNESS cfg with
  | true, Some (TW_BRIGHTNESS_PATH, TW_MAX_BRIGHTNESS) =>
    let brightness := snprintf4_03d (s32 (Z.quot TW_MAX_BRIGHTNESS 2)) in
    fd ← sys_open ok;
    if bool_decide (fd < 0) then perror "cannot open LCD backlight"
    else
      modify (set_backlight (Some (if blank then "000"%string else brightness)));;
      sys_close fd
  | true, None => mret tt
  | false, _ =>
    if ok then modify (set_blanked (Some blank))
    else perror "ioctl(): blank"
  end.

(** ** Pixel format *)

(* fbdev_init, lines 172-192: the format tag chosen for the variable info. *)
Definition pixel_format_of (v : fb_var_screeninfo) : GGLPixelFormat :=
  if bool_decide (bits_per_pixel v = 16) then GGL_PIXEL_FORMAT_RGB_565
  else if bool_decide (bf_offset (red v) = 8) then GGL_PIXEL_FORMAT_BGRA_8888
  else if bool_decide (bf_offset (red v) = 0) then GGL_PIXEL_FORMAT_RGBA_8888
  else if bool_decide (bf_offset (red v) = 24) then GGL_PIXEL_FORMAT_RGBX_8888
  else if bool_decide (bf_length (red v) = 8) then GGL_PIXEL_FORMAT_RGBX_8888
  else GGL_PIXEL_FORMAT_RGB_565.

(* fbdev_init, lines 152-164: the rewrite done under RECOVERY_RGB_565. *)
Definition force_rgb_565 (fi : fb_fix_screeninfo) (v : fb_var_screeninfo)
  : fb_var_screeninfo :=
  VarInfo (xres v) (yres v) (fi_line_length fi / 2) (yres_virtual v) (yoffset v)
          16
          (Bitfield 11 5 0) (Bitfield 5 6 0) (Bitfield 0 5 0)
          (Bitfield 0 0 (bf_msb_right (transp v))).

Definition set_yres_virtual (x : Z) (v : fb_var_screeninfo) : fb_var_screeninfo :=
  VarInfo (xres v) (yres v) (xres_virtual v) x (yoffset v) (bits_per_pixel v)
          (red v) (green v) (blue v) (transp v).
Definition set_yoffset (x : Z) (v : fb_var_screeninfo) : fb_var_screeninfo :=
  VarInfo (xres v) (yres v) (xres_virtual v) (yres_virtual v) x (bits_per_pixel v)
          (red v) (green v) (blue v) (transp v).
Definition set_bits_per_pixel (x : Z) (v : fb_var_screeninfo) : fb_var_screeninfo :=
  VarInfo (xres v) (yres v) (xres_virtual v) (yres_virtual v) (yoffset v) x
          (red v) (green v) (blue v) (transp v).
Definition set_data (p : ptr) (g : GRSurface) : GRSurface :=
  Surface (width g) (height g) (row_bytes g) (pixel_bytes g) p (format g).

(* height * row_bytes, an int product, as the size_t the library receives *)
Definition frame_size (g : GRSurface) : Z := usize (s32 (height g * row_bytes g)).

(** ** set_displayed_framebuffer *)

Definition set_displayed_framebuffer (ok : bool) (n : Z) : prog unit :=
  db ← gets double_buffered;
  if bool_decide (n > 1) || negb db then mret tt
  else
    fb0 ← framebuffer 0;
    modify (λ s, set_vi (set_yres_virtual (u32 (s32 (height fb0 * 2))) (vi s)) s);;
    modify (λ s, set_vi (set_yoffset (u32 (n * u32 (height fb0))) (vi s)) s);;
    modify (λ s, set_vi (set_bits_per_pixel (u32 (s32 (pixel_bytes fb0 * 8))) (vi s)) s);;
    (if ok then modify (λ s, set_scanout (Some (vi s)) s)
     else perror "active fb swap failed");;
    modify (set_displayed_buffer (s32 n)).

(** ** fbdev_init *)

Definition fbdev_init (cfg : build) (k : probe) : prog ptr :=
  fd ← sys_open (open_ok k);                                        (* 101 *)
  if bool_decide (fd = -1) then
    perror "cannot open fb0";; mret NULL
  else
  match fscreeninfo k with                                          (* 108 *)
  | None => perror "failed to get fb0 info";; sys_close fd;; mret NULL
  | Some fi =>
  match vscreeninfo k with                                          (* 114 *)
  | None => perror "failed to get fb0 info";; sys_close fd;; mret NULL
  | Some reported =>
  modify (set_vi reported);;
  mapped ← sys_mmap (usize (fi_smem_len fi)) (vram k);              (* 141 *)
  match mapped with
  | None => perror "failed to mmap framebuffer";; sys_close fd;; mret NULL
  | Some bits =>
  memset bits x00 (usize (fi_smem_len fi));;                        (* 148 *)
  (if RECOVERY_RGB_565 cfg                                          (* 150 *)
   then modify (λ s, set_vi (force_rgb_565 fi (vi s)) s) else mret tt);;
  v ← gets vi;
  let fb0 := Surface (s32 (xres v)) (s32 (yres v)) (s32 (fi_line_length fi))
                     (s32 (bits_per_pixel v / 8)) bits (pixel_format_of v) in
  modify (λ s, set_gr_framebuffer (fb0, (gr_framebuffer s).2) s);;  (* 167-192 *)
  memset (data fb0) x00 (frame_size fb0);;                          (* 193 *)
  draw ← malloc_surface (surface_ok k);                             (* 198 *)
  modify (set_gr_draw draw);;
  if is_null draw then
    perror "failed to allocate gr_draw";;
    sys_close fd;; sys_munmap bits (usize (fi_smem_len fi));; mret NULL
  else
  write_surface draw fb0;;                                          (* 205 *)
  g ← read_surface draw;
  px ← malloc (frame_size g) (pixels k);                            (* 206 *)
  write_surface draw (set_data px g);;
  if is_null px then
    perror "failed to allocate in-memory surface";;
    sys_close fd;; free draw;; sys_munmap bits (usize (fi_smem_len fi));; mret NULL
  else
  (if bool_decide (u32 (u32 (yres v * fi_line_length fi) * 2) ≤ fi_smem_len fi) then
     modify (set_double_buffered true);;                            (* 216 *)
     modify (λ s, let f0 := (gr_framebuffer s).1 in
                  set_gr_framebuffer
                    (f0, set_data (ptr_add (data f0) (s32 (height f0 * row_bytes f0))) f0) s)
   else modify (set_double_buffered false));;
  g ← read_surface draw;
  memset (data g) x00 (frame_size g);;                              (* 231 *)
  modify (set_fb_fd fd);;
  set_displayed_framebuffer (pan_ok k) 0;;                          (* 233 *)
  fbdev_blank cfg (blank_ok k) true;;
  fbdev_blank cfg (unblank_ok k) false;;
  modify (set_smem_len (fi_smem_len fi));;                          (* 240 *)
  gets gr_draw
  end end end.

(** ** fbdev_flip *)

(* Lines 252-257: for (idx = 0; idx < n; idx += 4) swap bytes idx and idx+2.
   [idx] is an unsigned int, so idx + 2 and idx += 4 wrap at 2^32.  With the
   n + 1 steps of fuel fbdev_flip gives it the loop ends or leaves the buffer
   before the fuel is spent ([bgra_swap_run]), unless n is 2^32 - 1, where
   idx wraps to 0 and the loop of the source does not end either. *)
Fixpoint bgra_swap (fuel : nat) (ucfb_vaddr : ptr) (idx n : Z) : prog unit :=
  match fuel with
  | O => undefined Diverges
  | S fuel =>
    if bool_decide (idx < n) then
      tmp ← load (ptr_add ucfb_vaddr idx);
      x ← load (ptr_add ucfb_vaddr (u32 (idx + 2)));
      store (ptr_add ucfb_vaddr idx) x;;
      store (ptr_add ucfb_vaddr (u32 (idx + 2))) tmp;;
      bgra_swap fuel ucfb_vaddr (u32 (idx + 4)) n
    else mret tt
  end.

Definition fbdev_flip (cfg : build) (ok : bool) : prog ptr :=
  db ← gets double_buffered;
  if (db : bool) then                                               (* 246 *)
    ((if RECOVERY_BGRA cfg then                                     (* 247 *)
        draw ← gets gr_draw;
        g ← read_surface draw;
        let n := u32 (s32 (height g * row_bytes g)) in
        bgra_swap (S (Z.to_nat n)) (data g) 0 n
      else mret tt) : prog unit);;
    shown ← gets displayed_buffer;
    fb ← framebuffer (s32 (1 - shown));
    draw ← gets gr_draw;
    g ← read_surface draw;
    memcpy (data fb) (data g) (frame_size g);;                      (* 260 *)
    shown ← gets displayed_buffer;
    set_displayed_framebuffer ok (u32 (s32 (1 - shown)));;          (* 262 *)
    gets gr_draw
  else
    fb ← framebuffer 0;
    draw ← gets gr_draw;
    g ← read_surface draw;
    memcpy (data fb) (data g) (frame_size g);;                      (* 265 *)
    gets gr_draw.

(** ** fbdev_exit *)

Definition fbdev_exit : prog unit :=
  fd ← gets fb_fd;
  sys_close fd;;
  modify (set_fb_fd (-1));;
  draw ← gets gr_draw;
  ((if is_null draw then mret tt
    else g ← read_surface draw; free (data g);; free draw) : prog unit);;
  modify (set_gr_draw NULL);;
  fb ← framebuffer 0;
  len ← gets smem_len;
  sys_munmap (data fb) (usize len).

(** ** The painter: the caller writes pixels into the drawing surface *)

Definition paint (px : list byte) : prog unit :=
  draw ← gets gr_draw;
  g ← read_surface draw;
  '(b, off, o, l) ← span (data g) (Z.of_nat (length px));
  put_bytes b o (splice off px l).

(* The pixel memory of the drawing surface, and of front buffer [i]. *)
Definition draw_pixels (s : state) : option (list byte) :=
  match read_surface (gr_draw s) s with
  | Ok g _ =>
    match span (data g) (frame_size g) s with
    | Ok (_, off, _, l) _ => Some (slice off (frame_size g) l)
    | Undefined _ => None
    end
  | Undefined _ => None
  end.

Definition front_pixels (i : Z) (s : state) : option (list byte) :=
  match framebuffer i s with
  | Ok fb _ =>
    match span (data fb) (frame_size fb) s with
    | Ok (_, off, _, l) _ => Some (slice off (frame_size fb) l)
    | Undefined _ => None
    end
  | Undefined _ => None
  end.

(** * Properties *)

(** ** Machine arithmetic *)

Section Arith.

Lemma u32_range z : 0 ≤ u32 z < 2 ^ 32.
Proof. unfold u32. apply Z.mod_pos_bound. lia. Qed.

Lemma s32_range z : - 2 ^ 31 ≤ s32 z < 2 ^ 31.
Proof.
  unfold s32. pose proof (Z.mod_pos_bound (z + 2 ^ 31) (2 ^ 32)). lia.
Qed.

Lemma usize_range z : 0 ≤ usize z < 2 ^ 64.
Proof. unfold usize. apply Z.mod_pos_bound. lia. Qed.

Lemma u32_small z : 0 ≤ z < 2 ^ 32 → u32 z = z.
Proof. intros. unfold u32. by apply Z.mod_small. Qed.

Lemma s32_small z : - 2 ^ 31 ≤ z < 2 ^ 31 → s32 z = z.
Proof. intros. unfold s32. rewrite Z.mod_small; lia. Qed.

Lemma usize_small z : 0 ≤ z < 2 ^ 64 → usize z = z.
Proof. intros. unfold usize. by apply Z.mod_small. Qed.

(* A negative int becomes a size beyond every 32-bit length. *)
Lemma usize_negative z : - 2 ^ 31 ≤ z < 0 → 2 ^ 32 ≤ usize z.
Proof.
  intros. unfold usize.
  replace z with (z + 2 ^ 64 + (-1) * 2 ^ 64) by lia.
  rewrite Z.mod_add by lia. rewrite Z.mod_small; lia.
Qed.

Lemma u32_s32 z : u32 (s32 z) = u32 z.
Proof.
  unfold u32, s32.
  pose proof (Z.div_mod (z + 2 ^ 31) (2 ^ 32) ltac:(lia)) as E.
  replace ((z + 2 ^ 31) mod 2 ^ 32 - 2 ^ 31)
    with (z + (- ((z + 2 ^ 31) / 2 ^ 32)) * 2 ^ 32) by lia.
  by rewrite Z.mod_add by lia.
Qed.

Lemma u32_mul a b : u32 (u32 a * u32 b) = u32 (a * b).
Proof. unfold u32. by rewrite <- Z.mul_mod by lia. Qed.

Lemma u32_mul_l a b : u32 (u32 a * b) = u32 (a * b).
Proof. unfold u32. by rewrite Z.mul_mod_idemp_l by lia. Qed.

Lemma u32_mul_s32 a b : u32 (s32 a * s32 b) = u32 (a * b).
Proof. by rewrite <- u32_mul, !u32_s32, u32_mul. Qed.

(* The int product height * row_bytes, when it is not negative, is the
   32-bit unsigned product of the values the kernel reported. *)
Lemma frame_as_u32 a b :
  0 ≤ s32 (s32 a * s32 b) → s32 (s32 a * s32 b) = u32 (a * b).
Proof.
  intros H. pose proof (s32_range (s32 a * s32 b)).
  rewrite <- (u32_small (s32 (s32 a * s32 b))) by lia.
  by rewrite u32_s32, u32_mul_s32.
Qed.

End Arith.

Arguments u32 : simpl never.
Arguments s32 : simpl never.
Arguments usize : simpl never.

(** ** Running a computation step by step *)

Lemma bind_unfold {A B} (m : prog A) (f : A → prog B) s :
  (m ≫= f) s = match m s with Ok a s' => f a s' | Undefined e => Undefined e end.
Proof. reflexivity. Qed.

Lemma bind_ok {A B} (m : prog A) (f : A → prog B) s a s' :
  m s = Ok a s' → (m ≫= f) s = f a s'.
Proof. intros E. by rewrite bind_unfold, E. Qed.

Lemma exec_mret {A B} (a : A) (f : A → prog B) s : (mret a ≫= f) s = f a s.
Proof. reflexivity. Qed.

Lemma exec_modify {B} g (f : unit → prog B) s : (modify g ≫= f) s = f tt (g s).
Proof. reflexivity. Qed.

Lemma exec_gets {A B} (g : state → A) (f : A → prog B) s : (gets g ≫= f) s = f (g s) s.
Proof. reflexivity. Qed.

Lemma exec_perror {B} msg (f : unit → prog B) s :
  (perror msg ≫= f) s = f tt (set_stderr (stderr s ++ [msg]) s).
Proof. reflexivity. Qed.

Lemma exec_close {B} (fd : nat) (f : unit → prog B) s :
  (sys_close (Z.of_nat fd) ≫= f) s = f tt (set_fds (fds s ∖ {[fd]}) s).
Proof.
  unfold sys_close. rewrite exec_modify.
  rewrite bool_decide_eq_true_2 by lia. by rewrite Nat2Z.id.
Qed.

Lemma sys_close_run (fd : nat) s :
  sys_close (Z.of_nat fd) s = Ok tt (set_fds (fds s ∖ {[fd]}) s).
Proof.
  unfold sys_close, modify.
  rewrite bool_decide_eq_true_2 by lia. by rewrite Nat2Z.id.
Qed.

Lemma exec_alloc {B} o (f : ptr → prog B) s :
  (alloc o ≫= f) s =
  f (Ptr (fresh (dom (mem s))) 0) (set_mem (<[fresh (dom (mem s)) := o]> (mem s)) s).
Proof. reflexivity. Qed.

Lemma framebuffer_0 s : framebuffer 0 s = Ok (gr_framebuffer s).1 s.
Proof. reflexivity. Qed.

Lemma framebuffer_1 s : framebuffer 1 s = Ok (gr_framebuffer s).2 s.
Proof. reflexivity. Qed.

Ltac state_simpl :=
  cbn [gr_framebuffer double_buffered gr_draw displayed_buffer vi fb_fd smem_len
       fds mem stderr scanout blanked backlight
       set_gr_framebuffer set_double_buffered set_gr_draw set_displayed_buffer
       set_vi set_fb_fd set_smem_len set_fds set_mem set_stderr set_scanout
       set_blanked set_backlight fst snd
       width height row_bytes pixel_bytes data format set_data] in *.

Ltac step :=
  first [ rewrite exec_mret | rewrite exec_modify | rewrite exec_gets
        | rewrite exec_perror | rewrite exec_close | rewrite exec_alloc ];
  cbv beta; state_simpl.

(** ** Accesses to a byte object *)

Section Access.
Context (s : state) (b : block) (o : object) (l : list byte).
Hypothesis Hb : mem s !! b = Some o.
Hypothesis Hl : bytes_of o = Some l.

Lemma span_ok off n :
  0 ≤ off → 0 ≤ n → off + n ≤ Z.of_nat (length l) →
  span (Ptr b off) n s = Ok (b, off, o, l) s.
Proof.
  intros. unfold span, in_bounds. rewrite Hb, Hl.
  by rewrite bool_decide_eq_true_2.
Qed.

Lemma span_oob off n :
  ¬ (0 ≤ off ∧ 0 ≤ n ∧ off + n ≤ Z.of_nat (length l)) →
  span (Ptr b off) n s = Undefined OutOfBounds.
Proof.
  intros. unfold span, in_bounds. rewrite Hb, Hl.
  by rewrite bool_decide_eq_false_2.
Qed.

Lemma memset_ok off c n :
  0 ≤ off → 0 ≤ n → off + n ≤ Z.of_nat (length l) →
  memset (Ptr b off) c n s =
  Ok tt (set_mem (<[b := with_bytes o (splice off (replicate (Z.to_nat n) c) l)]>
                    (mem s)) s).
Proof. intros. unfold memset. by rewrite bind_unfold, span_ok. Qed.

Lemma memset_oob off c n :
  ¬ (0 ≤ off ∧ 0 ≤ n ∧ off + n ≤ Z.of_nat (length l)) →
  memset (Ptr b off) c n s = Undefined OutOfBounds.
Proof. intros. unfold memset. by rewrite bind_unfold, span_oob. Qed.

Lemma load_ok off x :
  0 ≤ off → l !! Z.to_nat off = Some x →
  load (Ptr b off) s = Ok x s.
Proof.
  intros ? E. unfold load. rewrite bind_unfold, span_ok; try lia.
  - by rewrite E.
  - apply lookup_lt_Some in E. lia.
Qed.

Lemma load_oob off :
  Z.of_nat (length l) ≤ off →
  load (Ptr b off) s = Undefined OutOfBounds.
Proof. intros. unfold load. rewrite bind_unfold, span_oob; [done | lia]. Qed.

Lemma store_ok off x :
  0 ≤ off < Z.of_nat (length l) →
  store (Ptr b off) x s =
  Ok tt (set_mem (<[b := with_bytes o (<[Z.to_nat off := x]> l)]> (mem s)) s).
Proof. intros. unfold store. rewrite bind_unfold, span_ok; [done | lia ..]. Qed.

End Access.

Lemma memcpy_ok s bd bs od os ld ls offd offs n :
  mem s !! bd = Some od → bytes_of od = Some ld →
  mem s !! bs = Some os → bytes_of os = Some ls →
  bs ≠ bd →
  0 ≤ n → 0 ≤ offd → offd + n ≤ Z.of_nat (length ld) →
  0 ≤ offs → offs + n ≤ Z.of_nat (length ls) →
  memcpy (Ptr bd offd) (Ptr bs offs) n s =
  Ok tt (set_mem (<[bd := with_bytes od (splice offd (slice offs n ls) ld)]> (mem s)) s).
Proof.
  intros. unfold memcpy.
  rewrite bind_unfold, (span_ok s bs os ls) by done.
  rewrite bind_unfold, (span_ok s bd od ld) by done.
  rewrite bool_decide_eq_false_2; [done | by intros [? _]].
Qed.

Lemma length_splice off (new l : list byte) :
  0 ≤ off → off + Z.of_nat (length new) ≤ Z.of_nat (length l) →
  length (splice off new l) = length l.
Proof.
  intros. unfold splice. rewrite !length_app, length_take, length_drop. lia.
Qed.

Lemma splice_all (new l : list byte) :
  length new = length l → splice 0 new l = new.
Proof.
  intros E. unfold splice. simpl. rewrite drop_ge by lia. by rewrite app_nil_r.
Qed.

Lemma slice_all (l : list byte) n :
  n = Z.of_nat (length l) → slice 0 n l = l.
Proof. intros ->. unfold slice. simpl. rewrite Nat2Z.id. apply firstn_all. Qed.

Lemma fresh_block_unused (m : gmap block object) : m !! fresh (dom m) = None.
Proof. apply not_elem_of_dom, is_fresh. Qed.

Lemma close_fresh (fdset : gset nat) :
  ({[fresh fdset]} ∪ fdset) ∖ {[fresh fdset]} = fdset.
Proof.
  pose proof (is_fresh fdset) as Hfresh. apply set_eq. intros x.
  rewrite elem_of_difference, elem_of_union, elem_of_singleton.
  split; [by intros [[-> |] ?] |]. intros Hx. split; [by right |].
  by intros ->.
Qed.

(** ** The display side: blanking and panning leave the buffers alone *)

(* [s'] differs from [s] at most in the error stream and the display
   controller. *)
Definition same_buffers (s s' : state) : Prop :=
  gr_framebuffer s' = gr_framebuffer s ∧ double_buffered s' = double_buffered s ∧
  gr_draw s' = gr_draw s ∧ displayed_buffer s' = displayed_buffer s ∧
  vi s' = vi s ∧ fb_fd s' = fb_fd s ∧ smem_len s' = smem_len s ∧
  fds s' = fds s ∧ mem s' = mem s.

Lemma fbdev_blank_buffers cfg ok blank s :
  ∃ s', fbdev_blank cfg ok blank s = Ok tt s' ∧ same_buffers s s'.
Proof.
  unfold fbdev_blank.
  destruct (TW_NO_SCREEN_BLANK cfg), (TW_BRIGHTNESS cfg) as [[path top]|];
    try (destruct ok; (eexists; split; [reflexivity | by repeat split])).
  - rewrite bind_unfold. unfold sys_open. destruct ok.
    + rewrite bool_decide_eq_false_2 by lia. step. rewrite sys_close_run.
      eexists. split; [reflexivity |]. repeat split; state_simpl; try done.
      apply close_fresh.
    + rewrite bool_decide_eq_true_2 by lia.
      eexists. split; [reflexivity | by repeat split].
Qed.

(* What set_displayed_framebuffer(n) does once it is past its guard. *)
Definition panned (ok : bool) (n : Z) (s : state) : state :=
  let fb0 := (gr_framebuffer s).1 in
  let v := set_bits_per_pixel (u32 (s32 (pixel_bytes fb0 * 8)))
             (set_yoffset (u32 (n * u32 (height fb0)))
                (set_yres_virtual (u32 (s32 (height fb0 * 2))) (vi s))) in
  let s1 := set_vi v s in
  let s2 := if ok then set_scanout (Some v) s1
            else set_stderr (stderr s ++ ["active fb swap failed"%string]) s1 in
  set_displayed_buffer (s32 n) s2.

Lemma set_displayed_framebuffer_acts ok n s :
  double_buffered s = true → n ≤ 1 →
  set_displayed_framebuffer ok n s = Ok tt (panned ok n s).
Proof.
  intros Hdb Hn. unfold set_displayed_framebuffer.
  rewrite exec_gets, Hdb. rewrite bool_decide_eq_false_2 by lia. cbn [orb negb].
  rewrite bind_unfold, framebuffer_0. do 3 step.
  unfold panned. destruct s; state_simpl. by destruct ok.
Qed.

Lemma set_displayed_framebuffer_skips ok n s :
  n > 1 ∨ double_buffered s = false →
  set_displayed_framebuffer ok n s = Ok tt s.
Proof.
  intros H. unfold set_displayed_framebuffer. rewrite exec_gets.
  destruct H as [H | ->].
  - by rewrite bool_decide_eq_true_2.
  - by rewrite orb_true_r.
Qed.

(** ** What fbdev_init leaves behind *)

(* height * row_bytes as the int the source computes. *)
Definition frame (g : GRSurface) : Z := s32 (height g * row_bytes g).

(* gr_framebuffer[0] as lines 167-192 fill it in. *)
Definition front_surface (fi : fb_fix_screeninfo) (v : fb_var_screeninfo) (bits : ptr)
  : GRSurface :=
  Surface (s32 (xres v)) (s32 (yres v)) (s32 (fi_line_length fi))
          (s32 (bits_per_pixel v / 8)) bits (pixel_format_of v).

(* The variable info the format is chosen from. *)
Definition configured (cfg : build) (fi : fb_fix_screeninfo) (v : fb_var_screeninfo)
  : fb_var_screeninfo :=
  if RECOVERY_RGB_565 cfg then force_rgb_565 fi v else v.

(* One of the six calls of fbdev_init that can fail does fail. *)
Definition init_fails (k : probe) : Prop :=
  open_ok k = false ∨ fscreeninfo k = None ∨ vscreeninfo k = None ∨
  vram k = None ∨ surface_ok k = false ∨ pixels k = None.

(* The three objects of a session: the heap GRSurface at [bg], its pixel
   memory [px] at [bd], the mapping [vm] at [bm]. *)
Record layout (s : state) (bg bd bm : block) (px vm : list byte) : Prop := Layout {
  lay_draw : gr_draw s = Ptr bg 0;
  lay_struct : mem s !! bg = Some (Struct (Some (set_data (Ptr bd 0) (gr_framebuffer s).1)));
  lay_pixels : mem s !! bd = Some (Bytes px);
  lay_mapping : mem s !! bm = Some (Mapping vm);
  lay_front : data (gr_framebuffer s).1 = Ptr bm 0;
  lay_size : Z.of_nat (length px) = frame_size (gr_framebuffer s).1;
  lay_fits : frame_size (gr_framebuffer s).1 ≤ Z.of_nat (length vm);
  lay_second : double_buffered s = true →
               (gr_framebuffer s).2 =
               set_data (Ptr bm (frame (gr_framebuffer s).1)) (gr_framebuffer s).1
}.

Record initialised (cfg : build) (fi : fb_fix_screeninfo) (v : fb_var_screeninfo)
       (s0 : state) (p : ptr) (s : state) : Prop := Initialised {
  init_layout : ∃ bg bd bm,
    p = Ptr bg 0 ∧
    layout s bg bd bm (replicate (Z.to_nat (frame_size (gr_framebuffer s).1)) x00)
                      (replicate (Z.to_nat (usize (fi_smem_len fi))) x00) ∧
    (gr_framebuffer s).1 = front_surface fi (configured cfg fi v) (Ptr bm 0);
  init_double : double_buffered s =
                bool_decide (u32 (u32 (yres v * fi_line_length fi) * 2) ≤ fi_smem_len fi);
  init_shown : displayed_buffer s =
               if double_buffered s then 0 else displayed_buffer s0;
  init_fd : fb_fd s ≠ -1 ∧ smem_len s = fi_smem_len fi
}.

Lemma mret_run {A} (a : A) s : (mret a : prog A) s = Ok a s.
Proof. reflexivity. Qed.

Lemma modify_run g s : modify g s = Ok tt (g s).
Proof. reflexivity. Qed.

Lemma gets_run {A} (g : state → A) s : gets g s = Ok (g s) s.
Proof. reflexivity. Qed.

Lemma exec_munmap {B} b l len (f : unit → prog B) s :
  mem s !! b = Some (Mapping l) → Z.of_nat (length l) = len →
  (sys_munmap (Ptr b 0) len ≫= f) s = f tt (set_mem (delete b (mem s)) s).
Proof.
  intros Hb Hlen. unfold sys_munmap. rewrite exec_modify, Hb.
  by rewrite bool_decide_eq_true_2.
Qed.

Lemma exec_write_surface {B} b old g (f : unit → prog B) s :
  mem s !! b = Some (Struct old) →
  (write_surface (Ptr b 0) g ≫= f) s =
  f tt (set_mem (<[b := Struct (Some g)]> (mem s)) s).
Proof. intros Hb. rewrite bind_unfold. unfold write_surface. by rewrite Hb. Qed.

Lemma read_surface_run b g s :
  mem s !! b = Some (Struct (Some g)) → read_surface (Ptr b 0) s = Ok g s.
Proof. intros Hb. unfold read_surface. by rewrite Hb. Qed.

Lemma exec_free {B} b o (f : unit → prog B) s :
  mem s !! b = Some o → bytes_of o = None ∨ (∃ l, o = Bytes l) →
  (free (Ptr b 0) ≫= f) s = f tt (set_mem (delete b (mem s)) s).
Proof.
  intros Hb Ho. rewrite bind_unfold. unfold free. rewrite Hb.
  destruct o; try done; destruct Ho as [? | [? ?]]; done.
Qed.

(* Clearing a prefix of cleared memory changes nothing. *)
Lemma splice_zeros (n N : nat) :
  (n ≤ N)%nat → splice 0 (replicate n x00) (replicate N x00) = replicate N x00.
Proof.
  intros. unfold splice. simpl. rewrite length_replicate, drop_replicate.
  rewrite <- replicate_add. f_equal. lia.
Qed.

Lemma panned_buffers ok n s :
  gr_framebuffer (panned ok n s) = gr_framebuffer s ∧
  double_buffered (panned ok n s) = double_buffered s ∧
  gr_draw (panned ok n s) = gr_draw s ∧
  displayed_buffer (panned ok n s) = s32 n ∧
  fb_fd (panned ok n s) = fb_fd s ∧ smem_len (panned ok n s) = smem_len s ∧
  fds (panned ok n s) = fds s ∧ mem (panned ok n s) = mem s.
Proof. unfold panned. by destruct ok. Qed.

(* Lines 233-242: the end of a successful fbdev_init. *)
Lemma fbdev_init_tail cfg pok bok uok len s :
  ∃ s',
    (set_displayed_framebuffer pok 0 ≫= λ _,
     fbdev_blank cfg bok true ≫= λ _,
     fbdev_blank cfg uok false ≫= λ _,
     modify (set_smem_len len) ≫= λ _, gets gr_draw) s = Ok (gr_draw s) s' ∧
    gr_framebuffer s' = gr_framebuffer s ∧ double_buffered s' = double_buffered s ∧
    gr_draw s' = gr_draw s ∧ fb_fd s' = fb_fd s ∧ fds s' = fds s ∧
    mem s' = mem s ∧ smem_len s' = len ∧
    displayed_buffer s' = if double_buffered s then 0 else displayed_buffer s.
Proof.
  assert (∃ s1, set_displayed_framebuffer pok 0 s = Ok tt s1 ∧
                gr_framebuffer s1 = gr_framebuffer s ∧
                double_buffered s1 = double_buffered s ∧
                gr_draw s1 = gr_draw s ∧ fb_fd s1 = fb_fd s ∧ fds s1 = fds s ∧
                mem s1 = mem s ∧
                displayed_buffer s1 = if double_buffered s then 0 else displayed_buffer s)
    as (s1 & E1 & F1 & D1 & G1 & H1 & I1 & M1 & S1).
  { destruct (double_buffered s) eqn:Hdb.
    - exists (panned pok 0 s). rewrite set_displayed_framebuffer_acts by done.
      destruct (panned_buffers pok 0 s) as (? & ? & ? & ? & ? & ? & ? & ?).
      repeat split; try done. congruence.
    - exists s. rewrite set_displayed_framebuffer_skips by auto. by repeat split. }
  destruct (fbdev_blank_buffers cfg bok true s1)
    as (s2 & E2 & F2 & D2 & G2 & S2 & V2 & H2 & L2 & I2 & M2).
  destruct (fbdev_blank_buffers cfg uok false s2)
    as (s3 & E3 & F3 & D3 & G3 & S3 & V3 & H3 & L3 & I3 & M3).
  exists (set_smem_len len s3).
  rewrite (bind_ok _ _ _ _ _ E1), (bind_ok _ _ _ _ _ E2), (bind_ok _ _ _ _ _ E3).
  rewrite exec_modify, gets_run. state_simpl.
  repeat split; congruence.
Qed.

(* Every way fbdev_init can end.  A run is undefined only when the frame the
   device describes does not fit the memory it maps: line 193 then clears
   bytes beyond the mapping. *)
Lemma fbdev_init_cases cfg k s0 :
  match fbdev_init cfg k s0 with
  | Ok p s =>
    (p = NULL ↔ init_fails k) ∧
    (p = NULL →
     fds s = fds s0 ∧ mem s = mem s0 ∧ ∃ msg, stderr s = stderr s0 ++ [msg]) ∧
    (p ≠ NULL →
     ∃ fi v, fscreeninfo k = Some fi ∧ vscreeninfo k = Some v ∧
             initialised cfg fi v s0 p s)
  | Undefined f =>
    f = OutOfBounds ∧
    ∃ fi v, open_ok k = true ∧ fscreeninfo k = Some fi ∧ vscreeninfo k = Some v ∧
            vram k ≠ None ∧
            usize (fi_smem_len fi) < frame_size (front_surface fi v NULL)
  end.
Proof.
  destruct s0 as [fb db draw shown v0 fd0 len0 fdset m err sc bl bk].
  destruct k as [o_ok ofi ovi ovram sok opx pok bok uok].
  unfold init_fails, fbdev_init.
  cbn [open_ok fscreeninfo vscreeninfo vram surface_ok pixels pan_ok blank_ok
       unblank_ok].
  rewrite bind_unfold. unfold sys_open. state_simpl.
  destruct o_ok.
  2:{ rewrite bool_decide_eq_true_2 by done. step. rewrite mret_run.
      split; [intuition congruence |]. split; [| done]. intros _. state_simpl. eauto. }
  rewrite bool_decide_eq_false_2 by lia.
  destruct ofi as [fi|].
  2:{ step. step. rewrite mret_run. state_simpl.
      split; [intuition congruence |]. split; [| done]. intros _.
      rewrite close_fresh. eauto. }
  destruct ovi as [v|].
  2:{ step. step. rewrite mret_run. state_simpl.
      split; [intuition congruence |]. split; [| done]. intros _.
      rewrite close_fresh. eauto. }
  step. rewrite bind_unfold. unfold sys_mmap.
  destruct ovram as [vr|].
  2:{ rewrite mret_run. step. step. rewrite mret_run. state_simpl.
      split; [intuition congruence |]. split; [| done]. intros _.
      rewrite close_fresh. eauto. }
  step. rewrite mret_run.
  set (bm := fresh (dom m)).
  assert (Hbm : m !! bm = None) by apply fresh_block_unused.
  pose proof (usize_range (fi_smem_len fi)) as Hlen.
  rewrite bind_unfold.
  erewrite memset_ok;
    [ | state_simpl; apply lookup_insert_eq | reflexivity | lia | lia
      | rewrite length_resize; lia ].
  state_simpl. rewrite insert_insert_eq. cbn [with_bytes].
  rewrite splice_all by (by rewrite length_resize, length_replicate).
  set (zeros := replicate (Z.to_nat (usize (fi_smem_len fi))) x00).
  assert (Hzeros : Z.of_nat (length zeros) = usize (fi_smem_len fi))
    by (unfold zeros; rewrite length_replicate; lia).
  rewrite bind_unfold.
  assert (∀ s, (if RECOVERY_RGB_565 cfg
                then modify (λ s, set_vi (force_rgb_565 fi (vi s)) s)
                else mret ()) s = Ok tt (set_vi (configured cfg fi (vi s)) s)) as ->.
  { intros s. unfold configured. destruct (RECOVERY_RGB_565 cfg); [done |].
    by destruct s. }
  state_simpl. step.
  set (v' := configured cfg fi v).
  assert (Hyres : yres v' = yres v).
  { unfold v', configured. by destruct (RECOVERY_RGB_565 cfg). }
  step.
  change (Surface (s32 (xres v')) (s32 (yres v')) (s32 (fi_line_length fi))
                  (s32 (bits_per_pixel v' / 8)) (Ptr bm 0) (pixel_format_of v'))
    with (front_surface fi v' (Ptr bm 0)).
  set (f0 := front_surface fi v' (Ptr bm 0)).
  assert (Hsize : frame_size f0 = frame_size (front_surface fi v NULL)).
  { unfold f0, frame_size, front_surface. state_simpl. by rewrite Hyres. }
  assert (Hframe : 0 ≤ frame_size f0 < 2 ^ 64) by apply usize_range.
  rewrite bind_unfold.
  destruct (decide (frame_size f0 ≤ usize (fi_smem_len fi))) as [Hfit | Hfit].
  2:{ erewrite memset_oob;
        [ | state_simpl; apply lookup_insert_eq | reflexivity | lia ].
      split; [done |]. exists fi, v. rewrite <- Hsize. repeat split; try done. lia. }
  erewrite memset_ok;
    [ | state_simpl; apply lookup_insert_eq | reflexivity | lia | lia | lia ].
  state_simpl. rewrite insert_insert_eq. cbn [with_bytes].
  unfold zeros at 1. rewrite splice_zeros by lia. fold zeros.
  unfold malloc_surface. destruct sok.
  2:{ do 2 step. cbn [is_null]. do 2 step.
      erewrite exec_munmap; [ | state_simpl; apply lookup_insert_eq | done ].
      rewrite mret_run. state_simpl.
      split; [intuition congruence |]. split; [| done]. intros _.
      rewrite close_fresh, delete_insert_eq, delete_id by done. eauto. }
  step. set (bg := fresh (dom (<[bm:=Mapping zeros]> m))).
  assert (Hbg : (<[bm:=Mapping zeros]> m) !! bg = None) by apply fresh_block_unused.
  assert (Hgm : bg ≠ bm).
  { intros E. rewrite E, lookup_insert_eq in Hbg. done. }
  step. cbn [is_null].
  erewrite exec_write_surface; [ | state_simpl; apply lookup_insert_eq ].
  state_simpl. rewrite insert_insert_eq.
  rewrite bind_unfold. erewrite read_surface_run; [ | state_simpl; apply lookup_insert_eq ].
  rewrite bind_unfold. unfold malloc. destruct opx as [junk |].
  2:{ rewrite mret_run.
      erewrite exec_write_surface; [ | state_simpl; apply lookup_insert_eq ].
      state_simpl. rewrite insert_insert_eq. cbn [is_null]. do 2 step.
      erewrite exec_free; [ | state_simpl; apply lookup_insert_eq | by left ].
      state_simpl. rewrite delete_insert_eq, delete_id by done.
      erewrite exec_munmap; [ | state_simpl; apply lookup_insert_eq | done ].
      rewrite mret_run. state_simpl.
      split; [intuition congruence |]. split; [| done]. intros _.
      rewrite close_fresh, delete_insert_eq, delete_id by done. eauto. }
  unfold alloc. state_simpl.
  set (px0 := resize (Z.to_nat (frame_size f0)) x00 junk).
  set (bd := fresh (dom (<[bg:=Struct (Some f0)]> (<[bm:=Mapping zeros]> m)))).
  assert (Hbd : (<[bg:=Struct (Some f0)]> (<[bm:=Mapping zeros]> m)) !! bd = None)
    by apply fresh_block_unused.
  assert (Hdg : bd ≠ bg).
  { intros E. rewrite E, lookup_insert_eq in Hbd. done. }
  assert (Hdm : bd ≠ bm).
  { intros E. rewrite lookup_insert_ne, E, lookup_insert_eq in Hbd; done. }
  erewrite exec_write_surface;
    [ | state_simpl; rewrite lookup_insert_ne by done; apply lookup_insert_eq ].
  state_simpl. cbn [is_null].
  set (dbl := bool_decide (u32 (u32 (yres v' * fi_line_length fi) * 2) ≤ fi_smem_len fi)).
  rewrite bind_unfold.
  assert (Hpx0 : Z.of_nat (length px0) = frame_size f0)
    by (unfold px0; rewrite length_resize; lia).
  assert (Hinit : ∀ S,
    gr_draw S = Ptr bg 0 → fb_fd S = Z.of_nat (fresh fdset) →
    displayed_buffer S = shown → double_buffered S = dbl →
    (gr_framebuffer S).1 = f0 →
    (dbl = true → (gr_framebuffer S).2 = set_data (Ptr bm (frame f0)) f0) →
    mem S !! bg = Some (Struct (Some (set_data (Ptr bd 0) f0))) →
    mem S !! bd = Some (Bytes (replicate (Z.to_nat (frame_size f0)) x00)) →
    mem S !! bm = Some (Mapping zeros) →
    match (set_displayed_framebuffer pok 0 ≫= λ _,
           fbdev_blank cfg bok true ≫= λ _,
           fbdev_blank cfg uok false ≫= λ _,
           modify (set_smem_len (fi_smem_len fi)) ≫= λ _, gets gr_draw) S with
    | Ok p s =>
      (p = NULL ↔
       true = false ∨ Some fi = None ∨ Some v = None ∨ Some vr = None ∨
       true = false ∨ Some junk = None) ∧
      (p = NULL → fds s = fdset ∧ mem s = m ∧ ∃ msg, stderr s = err ++ [msg]) ∧
      (p ≠ NULL →
       ∃ fi0 v1, Some fi = Some fi0 ∧ Some v = Some v1 ∧
         initialised cfg fi0 v1
           (State fb db draw shown v0 fd0 len0 fdset m err sc bl bk) p s)
    | Undefined f =>
      f = OutOfBounds ∧
      ∃ fi0 v1, true = true ∧ Some fi = Some fi0 ∧ Some v = Some v1 ∧
                Some vr ≠ None ∧
                usize (fi_smem_len fi0) < frame_size (front_surface fi0 v1 NULL)
    end).
  { intros S HS1 HS2 HS3 HS4 HS5 HS6 HS7 HS8 HS9.
    destruct (fbdev_init_tail cfg pok bok uok (fi_smem_len fi) S)
      as (s & -> & F & D & G & H & I & M & L & Sh).
    rewrite HS1. split; [intuition congruence |]. split; [done |]. intros _.
    exists fi, v. do 2 (split; [done |]).
    split.
    - exists bg, bd, bm. rewrite F, HS5. split; [done |]. split; [| done].
      split; rewrite ?F, ?M, ?HS5; try done.
      + congruence.
      + rewrite length_replicate. lia.
      + rewrite length_replicate. lia.
      + rewrite D, HS4. done.
    - rewrite D, HS4. unfold dbl. by rewrite Hyres.
    - rewrite Sh, D, HS4, HS3. done.
    - rewrite H, HS2, L. split; [lia | done]. }
  assert (Hlookup : ∀ o1 o2 o3,
    (<[bg:=o1]> (<[bd:=o2]> (<[bg:=o3]> (<[bm:=Mapping zeros]> m)))) !! bm
    = Some (Mapping zeros)).
  { intros. rewrite !lookup_insert_ne by done. apply lookup_insert_eq. }
  destruct dbl eqn:Hdbl;
    [ rewrite exec_modify, modify_run | rewrite modify_run ];
    state_simpl;
    ( rewrite bind_unfold;
      erewrite read_surface_run; [ | state_simpl; apply lookup_insert_eq ];
      state_simpl; rewrite bind_unfold;
      erewrite memset_ok;
        [ | state_simpl; rewrite lookup_insert_ne by done; apply lookup_insert_eq
          | reflexivity | lia | apply usize_range
          | change (frame_size (set_data (Ptr bd 0) f0)) with (frame_size f0); lia ];
      state_simpl; cbn [with_bytes];
      change (frame_size (set_data (Ptr bd 0) f0)) with (frame_size f0);
      rewrite splice_all by (rewrite length_replicate; lia);
      step; apply Hinit; state_simpl; try done ).
  - rewrite lookup_insert_ne by done. apply lookup_insert_eq.
  - apply lookup_insert_eq.
  - rewrite lookup_insert_ne by done. apply Hlookup.
  - rewrite lookup_insert_ne by done. apply lookup_insert_eq.
  - apply lookup_insert_eq.
  - rewrite lookup_insert_ne by done. apply Hlookup.
Qed.

(** ** The byte swap of lines 252-257 *)

(* What the loop makes of a whole buffer: bytes 0 and 2 of every group of
   four change places; a last group of three is swapped too; a last group of
   one or two bytes makes the loop read past the end. *)
Fixpoint swap_rb (l : list byte) : option (list byte) :=
  match l with
  | [] => Some []
  | a :: b :: c :: rest =>
    match rest with
    | [] => Some [c; b; a]
    | d :: rest' => (λ r, c :: b :: a :: d :: r) <$> swap_rb rest'
    end
  | _ => None
  end.

Lemma set_mem_id s b o : mem s !! b = Some o → set_mem (<[b:=o]> (mem s)) s = s.
Proof. intros E. rewrite insert_id by done. by destruct s. Qed.

Lemma swap_two (pre rest : list byte) a b c :
  <[(length pre + 2)%nat := a]> (<[length pre := c]> (pre ++ a :: b :: c :: rest))
  = pre ++ c :: b :: a :: rest.
Proof.
  rewrite (insert_app_r_alt pre _ (length pre)) by lia.
  rewrite Nat.sub_diag. simpl.
  rewrite insert_app_r_alt by lia.
  replace (length pre + 2 - length pre)%nat with 2%nat by lia. done.
Qed.

(* One pass of the loop body at [idx], the length of [done]. *)
Lemma bgra_swap_body s b (pre rest : list byte) a x c (k : prog unit) :
  mem s !! b = Some (Bytes (pre ++ a :: x :: c :: rest)) →
  Z.of_nat (length pre) + 2 < 2 ^ 32 →
  (tmp ← load (ptr_add (Ptr b 0) (Z.of_nat (length pre)));
   y ← load (ptr_add (Ptr b 0) (u32 (Z.of_nat (length pre) + 2)));
   store (ptr_add (Ptr b 0) (Z.of_nat (length pre))) y;;
   store (ptr_add (Ptr b 0) (u32 (Z.of_nat (length pre) + 2))) tmp;; k) s
  = k (set_mem (<[b := Bytes (pre ++ c :: x :: a :: rest)]> (mem s)) s).
Proof.
  intros Hb Hsmall. set (idx := Z.of_nat (length pre)).
  cbn [ptr_add]. rewrite !Z.add_0_l.
  rewrite (u32_small (idx + 2)) by (unfold idx; lia).
  set (l := pre ++ a :: x :: c :: rest) in *.
  assert (Hlen : length l = (length pre + S (S (S (length rest))))%nat)
    by (unfold l; rewrite length_app; done).
  assert (Ha : l !! Z.to_nat idx = Some a).
  { unfold idx, l. rewrite Nat2Z.id. by rewrite list_lookup_middle. }
  assert (Hc : l !! Z.to_nat (idx + 2) = Some c).
  { unfold idx, l. replace (Z.to_nat (Z.of_nat (length pre) + 2))
      with (length pre + 2)%nat by lia.
    rewrite lookup_app_r by lia.
    by replace (length pre + 2 - length pre)%nat with 2%nat by lia. }
  rewrite bind_unfold, (load_ok s b (Bytes l) l Hb eq_refl idx a) by (done || lia).
  rewrite bind_unfold, (load_ok s b (Bytes l) l Hb eq_refl (idx + 2) c) by (done || lia).
  rewrite bind_unfold, (store_ok s b (Bytes l) l Hb eq_refl idx c) by (unfold idx; lia).
  cbn [with_bytes].
  rewrite bind_unfold.
  erewrite store_ok;
    [ | state_simpl; apply lookup_insert_eq | reflexivity
      | rewrite length_insert; unfold idx; lia ].
  state_simpl. cbn [with_bytes]. rewrite insert_insert_eq.
  unfold idx. rewrite Nat2Z.id.
  replace (Z.to_nat (Z.of_nat (length pre) + 2)) with (length pre + 2)%nat by lia.
  unfold l. by rewrite swap_two.
Qed.

Lemma bgra_swap_run fuel : ∀ s b (pre todo : list byte),
  mem s !! b = Some (Bytes (pre ++ todo)) →
  Z.of_nat (length (pre ++ todo)) + 1 < 2 ^ 32 →
  (length todo < fuel)%nat →
  bgra_swap fuel (Ptr b 0) (Z.of_nat (length pre))
            (Z.of_nat (length (pre ++ todo))) s
  = match swap_rb todo with
    | Some todo' => Ok tt (set_mem (<[b := Bytes (pre ++ todo')]> (mem s)) s)
    | None => Undefined OutOfBounds
    end.
Proof.
  induction fuel as [| fuel IH]; intros s b pre todo Hb Hsmall Hfuel; [lia |].
  rewrite length_app in Hsmall.
  cbn [bgra_swap]. rewrite length_app.
  destruct todo as [| a [| x [| c rest]]]; cbn [length] in *.
  - rewrite bool_decide_eq_false_2 by lia. rewrite mret_run.
    cbn [swap_rb]. by rewrite set_mem_id.
  - rewrite bool_decide_eq_true_2 by lia.
    cbn [ptr_add swap_rb]. rewrite !Z.add_0_l, (u32_small (_ + 2)) by lia.
    rewrite bind_unfold.
    erewrite load_ok; [ | done | done | lia | ].
    2:{ rewrite Nat2Z.id. by rewrite list_lookup_middle. }
    rewrite bind_unfold.
    erewrite load_oob; [done | done | done |]. rewrite length_app. simpl. lia.
  - rewrite bool_decide_eq_true_2 by lia.
    cbn [ptr_add swap_rb]. rewrite !Z.add_0_l, (u32_small (_ + 2)) by lia.
    rewrite bind_unfold.
    erewrite load_ok; [ | done | done | lia | ].
    2:{ rewrite Nat2Z.id. by rewrite list_lookup_middle. }
    rewrite bind_unfold.
    erewrite load_oob; [done | done | done |]. rewrite length_app. simpl. lia.
  - rewrite bool_decide_eq_true_2 by lia.
    erewrite (bgra_swap_body s b pre rest a x c); [ | done | lia ].
    rewrite u32_small by lia.
    destruct rest as [| d rest].
    + destruct fuel as [| fuel]; [simpl in *; lia |].
      cbn [bgra_swap swap_rb]. by rewrite bool_decide_eq_false_2 by (simpl; lia).
    + pose proof (IH (set_mem (<[b:=Bytes (pre ++ c :: x :: a :: d :: rest)]> (mem s)) s)
                     b (pre ++ [c; x; a; d]) rest) as IH'.
      rewrite <- !app_assoc, !length_app in IH'. cbn [length app] in IH'.
      replace (Z.of_nat (length pre) + 4) with (Z.of_nat (length pre + 4)) by lia.
      replace (Z.of_nat (length pre + S (S (S (length (d :: rest))))))
        with (Z.of_nat (length pre + (4 + length rest))) by (simpl; lia).
      rewrite IH'.
      * cbn [swap_rb]. state_simpl. destruct (swap_rb rest) as [r |]; [| done].
        simpl. rewrite insert_insert_eq. by rewrite <- app_assoc.
      * state_simpl. by rewrite lookup_insert_eq.
      * simpl in *. lia.
      * simpl in *. lia.
Qed.

Lemma bgra_swap_whole s b (px : list byte) n :
  mem s !! b = Some (Bytes px) → n = Z.of_nat (length px) → n + 1 < 2 ^ 32 →
  bgra_swap (S (Z.to_nat n)) (Ptr b 0) 0 n s
  = match swap_rb px with
    | Some px' => Ok tt (set_mem (<[b := Bytes px']> (mem s)) s)
    | None => Undefined OutOfBounds
    end.
Proof.
  intros Hb -> Hn.
  apply (bgra_swap_run (S (Z.to_nat (Z.of_nat (length px)))) s b [] px); simpl; try done.
  lia.
Qed.

Lemma list_ind4 (P : list byte → Prop) :
  P [] → (∀ a, P [a]) → (∀ a b, P [a; b]) → (∀ a b c, P [a; b; c]) →
  (∀ a b c d l, P l → P (a :: b :: c :: d :: l)) →
  ∀ l, P l.
Proof.
  intros H0 H1 H2 H3 H4.
  fix IH 1.
  intros [| a [| b [| c [| d l]]]];
    [apply H0 | apply H1 | apply H2 | apply H3 | apply H4, IH].
Qed.

Lemma swap_rb_length l l' : swap_rb l = Some l' → length l' = length l.
Proof.
  revert l'. induction l as [| | | | a b c d l IH] using list_ind4;
    intros l' E; simpl in E; try by simplify_eq.
  destruct (swap_rb l) as [r |]; simplify_eq/=. by rewrite (IH r).
Qed.

(* The loop stays inside the buffer exactly when its length leaves a
   remainder of 0 or 3 modulo 4. *)
Lemma swap_rb_defined l :
  is_Some (swap_rb l) ↔ Z.of_nat (length l) mod 4 = 0 ∨ Z.of_nat (length l) mod 4 = 3.
Proof.
  induction l as [| | | | a b c d l IH] using list_ind4; simpl.
  - split; eauto.
  - split; [by intros [? ?] | by intros [|]].
  - split; [by intros [? ?] | by intros [|]].
  - split; eauto.
  - rewrite fmap_is_Some, IH.
    replace (Z.of_nat (S (S (S (S (length l))))))
      with (Z.of_nat (length l) + 1 * 4) by lia.
    by rewrite Z.mod_add by lia.
Qed.

Lemma swap_rb_involutive l l' : swap_rb l = Some l' → swap_rb l' = Some l.
Proof.
  revert l'. induction l as [| | | | a b c d l IH] using list_ind4;
    intros l' E; simpl in E; try by simplify_eq.
  destruct (swap_rb l) as [r |]; simplify_eq/=. by rewrite (IH r).
Qed.

#[local] Arguments Nat.mul : simpl never.

(* Byte by byte: in every complete group of four, bytes 0 and 2 change
   places and bytes 1 and 3 stay. *)
Lemma swap_rb_lookup l l' (k : nat) :
  swap_rb l = Some l' → (4 * k + 3 < length l)%nat →
  l' !! (4 * k)%nat = l !! (4 * k + 2)%nat ∧
  l' !! (4 * k + 1)%nat = l !! (4 * k + 1)%nat ∧
  l' !! (4 * k + 2)%nat = l !! (4 * k)%nat ∧
  l' !! (4 * k + 3)%nat = l !! (4 * k + 3)%nat.
Proof.
  revert l' k. induction l as [| | | | a b c d l IH] using list_ind4;
    intros l' k E Hk; simpl in *; try lia.
  destruct (swap_rb l) as [r |]; simplify_eq/=.
  destruct k as [| k]; [done |].
  replace (4 * S k)%nat with (S (S (S (S (4 * k))))) by lia. simpl.
  apply IH; [done | lia].
Qed.

(** ** Sessions: the states between a successful fbdev_init and fbdev_exit *)

(* The invariant: the layout of the three objects, a frame size that is a
   plain non-negative int, and, when double buffered, room for two frames
   and a displayed slot that is 0 or 1. *)
Record session_inv (s : state) (bg bd bm : block) (px vm : list byte) : Prop :=
  SessionInv {
    inv_layout : layout s bg bd bm px vm;
    inv_frame : 0 ≤ frame (gr_framebuffer s).1;
    inv_room : double_buffered s = true →
               2 * frame (gr_framebuffer s).1 ≤ Z.of_nat (length vm);
    inv_shown : double_buffered s = true →
                displayed_buffer s = 0 ∨ displayed_buffer s = 1
  }.

Lemma frame_size_frame g : 0 ≤ frame g → frame_size g = frame g.
Proof.
  intros H. unfold frame_size. fold (frame g).
  pose proof (s32_range (height g * row_bytes g)). unfold frame in *.
  apply usize_small. lia.
Qed.

Lemma frame_lt g : frame g < 2 ^ 31.
Proof. unfold frame. apply s32_range. Qed.

Lemma initialised_session cfg fi v s0 p s :
  is_u32 (fi_smem_len fi) →
  initialised cfg fi v s0 p s →
  ∃ bg bd bm px vm, p = Ptr bg 0 ∧ session_inv s bg bd bm px vm ∧
                    (double_buffered s = true → displayed_buffer s = 0).
Proof.
  intros Hlen [(bg & bd & bm & -> & Hlay & Hfb) Hdb Hshown _].
  exists bg, bd, bm. eexists _, _. split; [done |].
  assert (Hvm : Z.of_nat (length (replicate (Z.to_nat (usize (fi_smem_len fi))) x00))
                = fi_smem_len fi).
  { rewrite length_replicate, usize_small; unfold is_u32 in *; lia. }
  pose proof (lay_fits _ _ _ _ _ _ Hlay) as Hfits. rewrite Hvm in Hfits.
  set (f0 := (gr_framebuffer s).1) in *.
  assert (Hframe : 0 ≤ frame f0).
  { destruct (decide (0 ≤ frame f0)) as [| Hneg]; [done |].
    pose proof (s32_range (height f0 * row_bytes f0)).
    pose proof (usize_negative (frame f0)).
    unfold frame_size, frame, is_u32 in *. lia. }
  assert (Hyres : yres (configured cfg fi v) = yres v).
  { unfold configured. by destruct (RECOVERY_RGB_565 cfg). }
  split; [split |]; try done.
  - intros Hd. rewrite Hvm. rewrite Hd in Hdb. symmetry in Hdb.
    apply bool_decide_eq_true_1 in Hdb.
    assert (E : frame f0 = u32 (yres v * fi_line_length fi)).
    { unfold frame, f0 in *. rewrite Hfb in *. unfold front_surface in *.
      state_simpl. rewrite Hyres in *. by apply frame_as_u32. }
    rewrite <- E in Hdb. pose proof (frame_lt f0).
    rewrite u32_small in Hdb by lia. fold f0. lia.
  - intros Hd. left. by rewrite Hshown, Hd.
  - intros Hd. by rewrite Hshown, Hd.
Qed.

(* The state a commit leaves: the drawing surface holds [px'], slot [t] of
   the mapping holds a copy of it. *)
Definition committed (bd bm : block) (px' vm : list byte) (t : Z) (s : state) : state :=
  set_mem (<[bm := Mapping (splice (t * frame (gr_framebuffer s).1) px' vm)]>
             (<[bd := Bytes px']> (mem s))) s.

Lemma committed_inv s bg bd bm px px' vm t :
  session_inv s bg bd bm px vm → length px' = length px →
  t = 0 ∨ (t = 1 ∧ double_buffered s = true) →
  session_inv (committed bd bm px' vm t s) bg bd bm px'
              (splice (t * frame (gr_framebuffer s).1) px' vm).
Proof.
  intros [[] ? ? ?] Hlen Ht. unfold committed.
  assert (bd ≠ bm) by (intros ->; congruence).
  assert (bg ≠ bm) by (intros ->; congruence).
  assert (bg ≠ bd) by (intros ->; congruence).
  rewrite frame_size_frame in * by done.
  assert (Hsp : length (splice (t * frame (gr_framebuffer s).1) px' vm) = length vm).
  { apply length_splice; destruct Ht as [-> | [-> Hd]]; try lia.
    specialize (inv_room0 Hd). lia. }
  split; [split | ..]; state_simpl; rewrite ?Hsp; try done.
  - by rewrite !lookup_insert_ne by done.
  - rewrite lookup_insert_ne by done. apply lookup_insert_eq.
  - apply lookup_insert_eq.
  - rewrite frame_size_frame by done. lia.
  - rewrite frame_size_frame by done. lia.
Qed.

Lemma repainted_inv s bg bd bm px px' vm :
  session_inv s bg bd bm px vm → length px' = length px →
  session_inv (set_mem (<[bd := Bytes px']> (mem s)) s) bg bd bm px' vm.
Proof.
  intros [[] ? ? ?] Hlen.
  assert (bd ≠ bm) by (intros ->; congruence).
  assert (bg ≠ bd) by (intros ->; congruence).
  split; [split | ..]; state_simpl; try done.
  - by rewrite lookup_insert_ne.
  - apply lookup_insert_eq.
  - by rewrite lookup_insert_ne.
  - congruence.
Qed.

Lemma panned_inv ok n s bg bd bm px vm :
  session_inv s bg bd bm px vm → n = 0 ∨ n = 1 →
  session_inv (panned ok n s) bg bd bm px vm ∧ displayed_buffer (panned ok n s) = n.
Proof.
  intros [[] ? ? ?] Hn.
  destruct (panned_buffers ok n s) as (F & D & G & S & _ & _ & _ & M).
  rewrite s32_small in S by (destruct Hn as [-> | ->]; lia).
  split; [| done].
  split; [split | ..]; rewrite ?F, ?D, ?G, ?S, ?M; try done.
Qed.

(* Lines 259-262: the copy into the slot that is not displayed, and the flip
   to it. *)
Lemma flip_copy_double ok s bg bd bm px vm :
  session_inv s bg bd bm px vm → double_buffered s = true →
  (shown ← gets displayed_buffer;
   fb ← framebuffer (s32 (1 - shown));
   draw ← gets gr_draw;
   g ← read_surface draw;
   memcpy (data fb) (data g) (frame_size g);;
   shown ← gets displayed_buffer;
   set_displayed_framebuffer ok (u32 (s32 (1 - shown)));;
   gets gr_draw) s
  = Ok (Ptr bg 0)
       (panned ok (1 - displayed_buffer s)
          (set_mem (<[bm := Mapping (splice ((1 - displayed_buffer s) *
                                             frame (gr_framebuffer s).1) px vm)]>
                      (mem s)) s)).
Proof.
  intros [[] Hframe Hroom Hshown] Hdb.
  specialize (Hroom Hdb). specialize (Hshown Hdb). specialize (lay_second0 Hdb).
  assert (bd ≠ bm) by (intros ->; congruence).
  rewrite frame_size_frame in * by done.
  set (n := frame (gr_framebuffer s).1) in *.
  assert (Hg : frame_size (set_data (Ptr bd 0) (gr_framebuffer s).1) = n).
  { change (frame_size (set_data (Ptr bd 0) (gr_framebuffer s).1))
      with (frame_size (gr_framebuffer s).1). by apply frame_size_frame. }
  step.
  assert (Hfb : ∃ fb, framebuffer (s32 (1 - displayed_buffer s)) s = Ok fb s ∧
                      data fb = Ptr bm ((1 - displayed_buffer s) * n)).
  { destruct Hshown as [-> | ->]; rewrite s32_small by lia; simpl.
    - rewrite framebuffer_1, lay_second0. eexists. split; [done |].
      state_simpl. f_equal. lia.
    - rewrite framebuffer_0. eexists. split; [done |]. by rewrite lay_front0. }
  destruct Hfb as (fb & Efb & Hdata).
  rewrite (bind_ok _ _ _ _ _ Efb), Hdata.
  step. rewrite lay_draw0.
  rewrite bind_unfold, (read_surface_run bg _ s lay_struct0).
  state_simpl. rewrite Hg.
  rewrite bind_unfold.
  erewrite (memcpy_ok s bm bd _ _ vm px); try done; try lia;
    try (destruct Hshown as [-> | ->]; lia).
  rewrite slice_all by lia. cbn [with_bytes].
  step. rewrite bind_unfold.
  rewrite set_displayed_framebuffer_acts.
  - rewrite gets_run. f_equal.
    + destruct (panned_buffers ok (u32 (s32 (1 - displayed_buffer s)))
           (set_mem (<[bm:=Mapping (splice ((1 - displayed_buffer s) * n) px vm)]>
                       (mem s)) s)) as (_ & _ & -> & _).
      done.
    + rewrite u32_s32, u32_small by (destruct Hshown as [-> | ->]; lia). done.
  - done.
  - rewrite u32_s32, u32_small by (destruct Hshown as [-> | ->]; lia).
    destruct Hshown as [-> | ->]; lia.
Qed.

(* fbdev_flip on a session, in closed form. *)
Lemma fbdev_flip_run cfg ok s bg bd bm px vm :
  session_inv s bg bd bm px vm →
  fbdev_flip cfg ok s =
  if double_buffered s then
    match (if RECOVERY_BGRA cfg then swap_rb px else Some px) with
    | Some px' =>
      Ok (Ptr bg 0)
         (panned ok (1 - displayed_buffer s)
            (committed bd bm px' vm (1 - displayed_buffer s) s))
    | None => Undefined OutOfBounds
    end
  else Ok (Ptr bg 0) (committed bd bm px vm 0 s).
Proof.
  intros Hinv. pose proof Hinv as [[] Hframe Hroom Hshown].
  pose proof (frame_lt (gr_framebuffer s).1) as Hlt.
  rewrite frame_size_frame in * by done.
  unfold fbdev_flip. rewrite exec_gets.
  destruct (double_buffered s) eqn:Hdb.
  - destruct (RECOVERY_BGRA cfg).
    + rewrite bind_unfold.
      rewrite exec_gets, lay_draw0.
      rewrite bind_unfold, (read_surface_run bg _ s lay_struct0).
      cbv zeta. state_simpl. fold (frame (gr_framebuffer s).1).
      rewrite u32_small by lia.
      rewrite (bgra_swap_whole s bd px) by (done || lia).
      destruct (swap_rb px) as [px' |] eqn:Hswap; [| done].
      apply swap_rb_length in Hswap.
      rewrite (flip_copy_double ok _ bg bd bm px' vm);
        [ done | by apply (repainted_inv s bg bd bm px) | done ].
    + rewrite exec_mret.
      rewrite (flip_copy_double ok s bg bd bm px vm) by done.
      unfold committed. by rewrite (insert_id (mem s) bd).
  - assert (bd ≠ bm) by (intros ->; congruence).
    rewrite bind_unfold, framebuffer_0. step. rewrite lay_draw0, lay_front0.
    rewrite bind_unfold, (read_surface_run bg _ s lay_struct0). state_simpl.
    change (frame_size (set_data (Ptr bd 0) (gr_framebuffer s).1))
      with (frame_size (gr_framebuffer s).1).
    rewrite frame_size_frame by done.
    rewrite bind_unfold.
    erewrite (memcpy_ok s bm bd _ _ vm px); try done; try lia.
    rewrite slice_all by lia. cbn [with_bytes].
    rewrite gets_run. state_simpl. rewrite lay_draw0.
    unfold committed. by rewrite (insert_id (mem s) bd).
Qed.

(* The painter's write, on a session. *)
Lemma paint_run s bg bd bm px vm (new : list byte) :
  session_inv s bg bd bm px vm → (length new ≤ length px)%nat →
  paint new s = Ok tt (set_mem (<[bd := Bytes (splice 0 new px)]> (mem s)) s).
Proof.
  intros [[] _ _ _] Hlen. unfold paint.
  rewrite exec_gets, lay_draw0.
  rewrite bind_unfold, (read_surface_run bg _ s lay_struct0). state_simpl.
  rewrite bind_unfold.
  erewrite (span_ok s bd (Bytes px) px); [done | done | done | lia ..].
Qed.

(* The states of a session whose fbdev_init returned [p]: the painter and
   fbdev_flip take turns in any order. *)
Inductive session_of (cfg : build) (p : ptr) : state → Prop :=
  | session_init k s0 s :
      probe_wf k → p ≠ NULL → fbdev_init cfg k s0 = Ok p s → session_of cfg p s
  | session_paint new s s' :
      session_of cfg p s → paint new s = Ok tt s' → session_of cfg p s'
  | session_flip ok q s s' :
      session_of cfg p s → fbdev_flip cfg ok s = Ok q s' → session_of cfg p s'.

Lemma paint_too_long s bg bd bm px vm (new : list byte) :
  session_inv s bg bd bm px vm → (length px < length new)%nat →
  paint new s = Undefined OutOfBounds.
Proof.
  intros [[] _ _ _] Hlen. unfold paint.
  rewrite exec_gets, lay_draw0.
  rewrite bind_unfold, (read_surface_run bg _ s lay_struct0). state_simpl.
  rewrite bind_unfold.
  erewrite (span_oob s bd (Bytes px) px); [done | done | done | lia].
Qed.

Lemma session_of_inv cfg p s :
  session_of cfg p s →
  ∃ bg bd bm px vm, p = Ptr bg 0 ∧ session_inv s bg bd bm px vm.
Proof.
  induction 1 as [k s0 s Hwf Hp Hinit | new s s' _ IH Hpaint | ok q s s' _ IH Hflip].
  - pose proof (fbdev_init_cases cfg k s0) as Hc. rewrite Hinit in Hc.
    destruct Hc as (_ & _ & Hc). destruct (Hc Hp) as (fi & v & Hfi & _ & Hi).
    destruct (initialised_session cfg fi v s0 p s) as (bg & bd & bm & px & vm & ? & ? & _);
      [by apply Hwf | done | eauto 10].
  - destruct IH as (bg & bd & bm & px & vm & -> & Hinv).
    destruct (decide (length new ≤ length px)%nat) as [Hlen | Hlen].
    + rewrite (paint_run s bg bd bm px vm) in Hpaint by done. simplify_eq.
      exists bg, bd, bm, (splice 0 new px), vm. split; [done |].
      apply (repainted_inv s bg bd bm px); [done |]. apply length_splice; lia.
    + rewrite (paint_too_long s bg bd bm px vm) in Hpaint by (done || lia). done.
  - destruct IH as (bg & bd & bm & px & vm & -> & Hinv).
    rewrite (fbdev_flip_run cfg ok s bg bd bm px vm Hinv) in Hflip.
    destruct (double_buffered s) eqn:Hdb.
    + destruct (if RECOVERY_BGRA cfg then swap_rb px else Some px)
        as [px' |] eqn:Hpx'; [| done].
      simplify_eq.
      assert (Hlen : length px' = length px).
      { destruct (RECOVERY_BGRA cfg); [by apply swap_rb_length | by simplify_eq]. }
      exists bg, bd, bm, px'. eexists. split; [done |].
      apply panned_inv.
      * apply (committed_inv s bg bd bm px); [done | done |].
        destruct (inv_shown _ _ _ _ _ _ Hinv Hdb) as [-> | ->]; auto.
      * destruct (inv_shown _ _ _ _ _ _ Hinv Hdb) as [-> | ->]; auto.
    + simplify_eq. exists bg, bd, bm, px. eexists. split; [done |].
      apply (committed_inv s bg bd bm px); auto.
Qed.

Lemma draw_pixels_inv s bg bd bm px vm :
  session_inv s bg bd bm px vm → draw_pixels s = Some px.
Proof.
  intros [[] Hframe _ _]. unfold draw_pixels.
  rewrite lay_draw0, (read_surface_run bg _ s lay_struct0). state_simpl.
  change (frame_size (set_data (Ptr bd 0) (gr_framebuffer s).1))
    with (frame_size (gr_framebuffer s).1).
  rewrite frame_size_frame in * by done.
  rewrite (span_ok s bd (Bytes px) px) by (done || lia).
  by rewrite slice_all.
Qed.

(** ** Concrete devices *)

Definition plain_build : build := Build false false false None.
Definition bgra_build : build := Build false true false None.

(* A 2x1 panel with 32-bit pixels, red in bits 16..23, and [len] bytes of
   video memory. *)
Definition xrgb_var : fb_var_screeninfo :=
  VarInfo 2 1 2 1 0 32 (Bitfield 16 8 0) (Bitfield 8 8 0) (Bitfield 0 8 0)
          (Bitfield 24 8 0).

Definition panel (len : Z) : probe :=
  Probe true (Some (FixInfo len 8)) (Some xrgb_var) (Some []) true (Some [])
        true true true.

(* A descriptor of case 1: 16 bits per pixel. *)
Definition rgb565_var : fb_var_screeninfo :=
  VarInfo 3 1 3 1 0 16 (Bitfield 11 5 0) (Bitfield 5 6 0) (Bitfield 0 5 0)
          (Bitfield 0 0 0).

(* A one-pixel panel with 32-bit pixels whose line carries two bytes of
   padding: six bytes a frame, twelve bytes of video memory. *)
Definition padded_var : fb_var_screeninfo :=
  VarInfo 1 1 1 1 0 32 (Bitfield 16 8 0) (Bitfield 8 8 0) (Bitfield 0 8 0)
          (Bitfield 24 8 0).

Definition narrow_panel : probe :=
  Probe true (Some (FixInfo 12 6)) (Some padded_var) (Some []) true (Some [])
        true true true.

(* A device that reports 2^32 - 1 lines of 2^32 - 1 bytes and eight bytes of
   video memory. *)
Definition wrapped_fix : fb_fix_screeninfo := FixInfo 8 4294967295.
Definition wrapped_var : fb_var_screeninfo :=
  VarInfo 1 4294967295 1 4294967295 0 32 (Bitfield 16 8 0) (Bitfield 8 8 0)
          (Bitfield 0 8 0) (Bitfield 24 8 0).

Definition wrapped_panel : probe :=
  Probe true (Some wrapped_fix) (Some wrapped_var) (Some []) true (Some [])
        true true true.

Definition eight_bytes : list byte := [x01; x02; x03; x04; x05; x06; x07; x08].

(* The state a run ends in, if it ends. *)
Definition final {A} (r : result A) : option state :=
  match r with
  | Ok _ s => Some s
  | Undefined _ => None
  end.

Definition returned {A} (r : result A) : option A :=
  match r with
  | Ok a _ => Some a
  | Undefined _ => None
  end.

(* The 2x1 panel after fbdev_init: with room for two frames, and for one. *)
Definition demo_double : state :=
  default startup (final (fbdev_init plain_build (panel 16) startup)).
Definition demo_single : state :=
  default startup (final (fbdev_init plain_build (panel 8) startup)).

Lemma panel_wf len : is_u32 len → probe_wf (panel len).
Proof.
  intros Hlen. split; intros ? E; simplify_eq/=; unfold is_u32 in *; repeat split; lia.
Qed.

(** * The claims *)

(** ** Pixel format (C1, C4) *)

(* The format fbdev_init stores is the one [pixel_format_of] chooses for the
   variable info after the RECOVERY_RGB_565 rewrite. *)
Lemma fbdev_init_format cfg k s0 p s :
  fbdev_init cfg k s0 = Ok p s → p ≠ NULL →
  ∃ fi v, fscreeninfo k = Some fi ∧ vscreeninfo k = Some v ∧
          format (gr_framebuffer s).1 = pixel_format_of (configured cfg fi v).
Proof.
  intros Hinit Hp. pose proof (fbdev_init_cases cfg k s0) as Hc.
  rewrite Hinit in Hc. destruct Hc as (_ & _ & Hc).
  destruct (Hc Hp) as (fi & v & Hfi & Hv & [(bg & bd & bm & _ & _ & Hfb) _ _ _]).
  exists fi, v. by rewrite Hfb.
Qed.

(* A descriptor of case 3: 32 bits per pixel, red at bit 0. *)
Definition rgba_var : fb_var_screeninfo :=
  VarInfo 2 1 2 1 0 32 (Bitfield 0 8 0) (Bitfield 8 8 0) (Bitfield 16 8 0)
          (Bitfield 24 8 0).

(** C1, as stated, fails: a descriptor with 32 bits per pixel and an 8-bit
    red channel at bit 16 matches none of the four cases, and the tag chosen
    for it is not the tag of case 3 (red at bit 0, RGBA_8888). *)
Lemma fallback_is_not_case_3 :
  bits_per_pixel xrgb_var ≠ 16 ∧
  bf_offset (red xrgb_var) ≠ 0 ∧ bf_offset (red xrgb_var) ≠ 8 ∧
  bf_offset (red xrgb_var) ≠ 24 ∧
  bf_length (red xrgb_var) = 8 ∧
  bits_per_pixel rgba_var ≠ 16 ∧ bf_offset (red rgba_var) = 0 ∧
  pixel_format_of xrgb_var ≠ pixel_format_of rgba_var.
Proof. repeat split; done. Qed.

(** C1, amended: for every descriptor with bits-per-pixel other than 16 and
    a red offset outside {0, 8, 24}, the tag is the one of case 4
    (RGBX_8888, what a red offset of 24 yields) when the red length is 8,
    and the one of case 1 (RGB_565, what 16 bits per pixel yield)
    otherwise. *)
Theorem fallback_format (v : fb_var_screeninfo) :
  bits_per_pixel v ≠ 16 →
  bf_offset (red v) ≠ 0 → bf_offset (red v) ≠ 8 → bf_offset (red v) ≠ 24 →
  (bf_length (red v) = 8 →
   pixel_format_of v = GGL_PIXEL_FORMAT_RGBX_8888 ∧
   ∀ v4, bits_per_pixel v4 ≠ 16 → bf_offset (red v4) = 24 →
         pixel_format_of v = pixel_format_of v4) ∧
  (bf_length (red v) ≠ 8 →
   pixel_format_of v = GGL_PIXEL_FORMAT_RGB_565 ∧
   ∀ v1, bits_per_pixel v1 = 16 → pixel_format_of v = pixel_format_of v1).
Proof.
  intros Hbpp H0 H8 H24. unfold pixel_format_of.
  rewrite !bool_decide_eq_false_2 by done.
  split; intros Hlen.
  - rewrite bool_decide_eq_true_2 by done. split; [done |].
    intros v4 Hb4 Ho4. rewrite Ho4.
    by rewrite bool_decide_eq_false_2 by done.
  - rewrite bool_decide_eq_false_2 by done. split; [done |].
    intros v1 Hb1. by rewrite bool_decide_eq_true_2.
Qed.

Lemma fallback_format_witness :
  pixel_format_of xrgb_var = GGL_PIXEL_FORMAT_RGBX_8888.
Proof.
  apply (fallback_format xrgb_var); simpl; lia.
Defined.

(** C4: the tag depends on bits-per-pixel, the red offset and the red
    length only, and is chosen by first match: 16 bits per pixel give
    RGB_565 whatever the offsets; otherwise a red offset of 8 gives
    BGRA_8888 whatever green and blue say; otherwise 0 gives RGBA_8888;
    otherwise 24 gives RGBX_8888. *)
Theorem format_first_match (v : fb_var_screeninfo) :
  (∀ v', bits_per_pixel v' = bits_per_pixel v →
         bf_offset (red v') = bf_offset (red v) →
         bf_length (red v') = bf_length (red v) →
         pixel_format_of v' = pixel_format_of v) ∧
  (bits_per_pixel v = 16 → pixel_format_of v = GGL_PIXEL_FORMAT_RGB_565) ∧
  (bits_per_pixel v ≠ 16 → bf_offset (red v) = 8 →
   pixel_format_of v = GGL_PIXEL_FORMAT_BGRA_8888) ∧
  (bits_per_pixel v ≠ 16 → bf_offset (red v) = 0 →
   pixel_format_of v = GGL_PIXEL_FORMAT_RGBA_8888) ∧
  (bits_per_pixel v ≠ 16 → bf_offset (red v) = 24 →
   pixel_format_of v = GGL_PIXEL_FORMAT_RGBX_8888).
Proof.
  unfold pixel_format_of. repeat split.
  - by intros v' -> -> ->.
  - intros ->. done.
  - intros Hb ->. by rewrite bool_decide_eq_false_2.
  - intros Hb ->. by rewrite bool_decide_eq_false_2.
  - intros Hb ->. by rewrite bool_decide_eq_false_2.
Qed.

(* A descriptor of case 2 whose green and blue fields make no sense. *)
Definition odd_bgra_var : fb_var_screeninfo :=
  VarInfo 2 1 2 1 0 32 (Bitfield 8 8 0) (Bitfield 3 1 0) (Bitfield 30 9 0)
          (Bitfield 24 8 0).

Lemma format_first_match_witness :
  pixel_format_of odd_bgra_var = GGL_PIXEL_FORMAT_BGRA_8888 ∧
  pixel_format_of rgb565_var = GGL_PIXEL_FORMAT_RGB_565 ∧
  pixel_format_of rgba_var = GGL_PIXEL_FORMAT_RGBA_8888.
Proof.
  split; [| split].
  - apply (format_first_match odd_bgra_var); simpl; [lia | reflexivity].
  - apply (format_first_match rgb565_var). reflexivity.
  - apply (format_first_match rgba_var); simpl; [lia | reflexivity].
Defined.

(** ** Single or double buffering (C5) *)

(** C5, as stated, fails: the test of line 216 is computed in 32-bit
    unsigned arithmetic.  For a device that reports 2^32 - 1 lines of
    2^32 - 1 bytes and 8 bytes of memory the product wraps to 2, fbdev_init
    succeeds and selects double buffering, though twice the frame is far
    more than the memory. *)
Lemma double_buffered_without_room :
  is_u32 (yres wrapped_var) ∧ is_u32 (fi_line_length wrapped_fix) ∧
  is_u32 (fi_smem_len wrapped_fix) ∧
  is_null <$> returned (fbdev_init plain_build wrapped_panel startup) = Some false ∧
  double_buffered <$> final (fbdev_init plain_build wrapped_panel startup) = Some true ∧
  ¬ (yres wrapped_var * fi_line_length wrapped_fix * 2 ≤ fi_smem_len wrapped_fix).
Proof.
  unfold is_u32. simpl.
  split; [lia |]. split; [lia |]. split; [lia |].
  split; [by vm_compute |]. split; [by vm_compute | lia].
Qed.

(** C5, amended: a successful fbdev_init selects double buffering exactly
    when yres * line_length * 2, taken modulo 2^32, is at most smem_len;
    whenever that product is below 2^32 this is the plain comparison
    yres * line_length * 2 <= smem_len, equality included.  Nothing else
    enters the choice. *)
Theorem double_buffering_choice cfg k s0 p s fi v :
  fscreeninfo k = Some fi → vscreeninfo k = Some v →
  fbdev_init cfg k s0 = Ok p s → p ≠ NULL →
  (double_buffered s = true ↔
   (yres v * fi_line_length fi * 2) mod 2 ^ 32 ≤ fi_smem_len fi) ∧
  (0 ≤ yres v * fi_line_length fi * 2 < 2 ^ 32 →
   (double_buffered s = true ↔
    yres v * fi_line_length fi * 2 ≤ fi_smem_len fi)).
Proof.
  intros Hfi Hv Hinit Hp. pose proof (fbdev_init_cases cfg k s0) as Hc.
  rewrite Hinit in Hc. destruct Hc as (_ & _ & Hc).
  destruct (Hc Hp) as (fi' & v' & Hfi' & Hv' & [_ Hdb _ _]).
  simplify_eq. rewrite u32_mul_l in Hdb. fold (u32 (yres v * fi_line_length fi * 2)).
  assert (E : double_buffered s = true ↔
              u32 (yres v * fi_line_length fi * 2) ≤ fi_smem_len fi).
  { rewrite Hdb. apply bool_decide_eq_true. }
  split; [done |]. intros Hsmall. by rewrite E, u32_small.
Qed.

Lemma double_buffering_choice_witness :
  ∃ p s, fbdev_init plain_build (panel 16) startup = Ok p s ∧
         double_buffered s = true.
Proof.
  destruct (fbdev_init plain_build (panel 16) startup) as [p s |] eqn:E;
    [| vm_compute in E; discriminate E].
  exists p, s. split; [reflexivity |].
  apply (double_buffering_choice plain_build (panel 16) startup p s
           (FixInfo 16 8) xrgb_var eq_refl eq_refl E).
  - intros ->. vm_compute in E. discriminate E.
  - simpl. lia.
  - simpl. lia.
Defined.

(** ** set_displayed_framebuffer (C7) *)

(** C7: set_displayed_framebuffer(n) returns with the state untouched unless
    double buffering is on and n is 0 or 1; single buffered, a request for
    slot 1 leaves the displayed slot at 0.  When it acts it records n as the
    displayed slot whether or not FBIOPUT_VSCREENINFO succeeds; a failure
    adds one report to the error stream and the call still returns. *)
Theorem set_displayed_framebuffer_spec (ok : bool) (n : Z) (s : state) :
  is_u32 n →
  (¬ (double_buffered s = true ∧ (n = 0 ∨ n = 1)) →
   set_displayed_framebuffer ok n s = Ok tt s) ∧
  (double_buffered s = false → displayed_buffer s = 0 →
   displayed_buffer <$> final (set_displayed_framebuffer ok 1 s) = Some 0) ∧
  (double_buffered s = true → n = 0 ∨ n = 1 →
   ∃ s', set_displayed_framebuffer ok n s = Ok tt s' ∧
         displayed_buffer s' = n ∧
         stderr s' = (if ok then stderr s
                      else stderr s ++ ["active fb swap failed"%string]) ∧
         scanout s' = (if ok then Some (vi s') else scanout s)).
Proof.
  intros [Hn0 Hn]. split; [| split].
  - intros Hno. apply set_displayed_framebuffer_skips.
    destruct (double_buffered s); [left | by right].
    destruct (decide (n = 0)), (decide (n = 1)); try lia; tauto.
  - intros Hdb Hs. rewrite set_displayed_framebuffer_skips by auto. by rewrite <- Hs.
  - intros Hdb Hslot. exists (panned ok n s).
    rewrite set_displayed_framebuffer_acts by (done || lia).
    split; [done |]. unfold panned.
    rewrite s32_small by lia. by destruct ok.
Qed.

Lemma set_displayed_framebuffer_spec_witness :
  set_displayed_framebuffer true 1 demo_single = Ok tt demo_single ∧
  ∃ s', set_displayed_framebuffer false 1 demo_double = Ok tt s' ∧
        displayed_buffer s' = 1.
Proof.
  split.
  - apply (set_displayed_framebuffer_spec true 1 demo_single).
    + unfold is_u32. lia.
    + intros [E _]. vm_compute in E. discriminate E.
  - destruct (set_displayed_framebuffer_spec false 1 demo_double) as (_ & _ & H).
    + unfold is_u32. lia.
    + destruct H as (s' & E & Hs & _).
      * vm_compute. reflexivity.
      * right. reflexivity.
      * exists s'. split; [exact E | exact Hs].
Defined.

(** ** Consecutive commits (C6) *)

Fixpoint commits (cfg : build) (oks : list bool) : prog unit :=
  match oks with
  | [] => mret tt
  | ok :: oks => fbdev_flip cfg ok;; commits cfg oks
  end.

(* From any state of a double-buffered session: after the commits the
   displayed slot has moved once per commit.  The only runs that do not end
   are the ones of a RECOVERY_BGRA build whose frame leaves one or two bytes
   after the last whole pixel, where the swap loop leaves the buffer. *)
Lemma commits_alternate cfg oks : ∀ s bg bd bm px vm,
  session_inv s bg bd bm px vm → double_buffered s = true →
  match commits cfg oks s with
  | Ok _ s' =>
    displayed_buffer s' = (displayed_buffer s + Z.of_nat (length oks)) mod 2
  | Undefined f =>
    f = OutOfBounds ∧ RECOVERY_BGRA cfg = true ∧
    ¬ (Z.of_nat (length px) mod 4 = 0 ∨ Z.of_nat (length px) mod 4 = 3)
  end.
Proof.
  induction oks as [| ok oks IH]; intros s bg bd bm px vm Hinv Hdb; cbn [commits].
  - rewrite mret_run. simpl. rewrite Z.add_0_r.
    destruct (inv_shown _ _ _ _ _ _ Hinv Hdb) as [-> | ->]; done.
  - rewrite bind_unfold, (fbdev_flip_run cfg ok s bg bd bm px vm Hinv), Hdb.
    destruct (if RECOVERY_BGRA cfg then swap_rb px else Some px) as [px' |] eqn:Hpx.
    + assert (Hlen : length px' = length px).
      { destruct (RECOVERY_BGRA cfg); [by apply swap_rb_length | by simplify_eq]. }
      pose proof (inv_shown _ _ _ _ _ _ Hinv Hdb) as Hshown.
      destruct (panned_inv ok (1 - displayed_buffer s)
                  (committed bd bm px' vm (1 - displayed_buffer s) s) bg bd bm px'
                  (splice ((1 - displayed_buffer s) * frame (gr_framebuffer s).1) px' vm))
        as [Hinv' Hshown'].
      { apply (committed_inv s bg bd bm px); [done | done |].
        destruct Hshown as [-> | ->]; auto. }
      { destruct Hshown as [-> | ->]; auto. }
      specialize (IH _ _ _ _ _ _ Hinv').
      destruct (panned_buffers ok (1 - displayed_buffer s)
                  (committed bd bm px' vm (1 - displayed_buffer s) s))
        as (_ & Hdb' & _).
      rewrite Hdb' in IH. specialize (IH Hdb).
      destruct (commits cfg oks _) as [[] s' | f].
      * rewrite IH, Hshown'. cbn [length].
        destruct Hshown as [-> | ->].
        -- f_equal. lia.
        -- replace (1 + Z.of_nat (S (length oks)))
             with (1 - 1 + Z.of_nat (length oks) + 1 * 2) by lia.
           by rewrite Z.mod_add.
      * by rewrite Hlen in IH.
    + destruct (RECOVERY_BGRA cfg); [| done].
      split; [done |]. split; [done |]. rewrite <- swap_rb_defined, Hpx.
      by intros [? ?].
Qed.

(* One commit of a double-buffered session, wherever in the session it
   comes, moves the displayed slot to the other one. *)
Lemma commit_flips_slot cfg p s ok q s' :
  session_of cfg p s → double_buffered s = true →
  fbdev_flip cfg ok s = Ok q s' →
  (displayed_buffer s = 0 ∨ displayed_buffer s = 1) ∧
  displayed_buffer s' = 1 - displayed_buffer s.
Proof.
  intros Hs Hdb E.
  pose proof (session_of_inv cfg p s Hs) as (bg & bd & bm & px & vm & -> & Hinv).
  pose proof (inv_shown _ _ _ _ _ _ Hinv Hdb) as Hshown. split; [done |].
  pose proof (commits_alternate cfg [ok] s bg bd bm px vm Hinv Hdb) as H.
  cbn [commits] in H. rewrite bind_unfold, E, mret_run in H. rewrite H.
  destruct Hshown as [-> | ->]; done.
Qed.

(** ** What a commit does to the drawing surface (C3, C2, C8) *)

(* The 2x1 panel after fbdev_init and after the painter has written
   [eight_bytes]: double buffered with 16 bytes of memory, single with 8. *)
Definition painted (cfg : build) (len : Z) : state :=
  default startup (final ((fbdev_init cfg (panel len);; paint eight_bytes) startup)).

(** C3, as stated, fails: in a RECOVERY_BGRA build a double-buffered commit
    swaps the bytes of the drawing surface in place, so after the commit
    the surface no longer holds what the painter wrote. *)
Lemma commit_rewrites_drawing_surface :
  double_buffered (painted bgra_build 16) = true ∧
  draw_pixels (painted bgra_build 16) = Some eight_bytes ∧
  final (fbdev_flip bgra_build true (painted bgra_build 16)) ≫= draw_pixels
  = Some [x03; x02; x01; x04; x07; x06; x05; x08] ∧
  final (fbdev_flip bgra_build true (painted bgra_build 16)) ≫= draw_pixels
  ≠ Some eight_bytes.
Proof.
  split; [by vm_compute |]. split; [by vm_compute |].
  assert (E : final (fbdev_flip bgra_build true (painted bgra_build 16)) ≫= draw_pixels
              = Some [x03; x02; x01; x04; x07; x06; x05; x08]) by (by vm_compute).
  split; [exact E |]. rewrite E. discriminate.
Qed.

(** C3, amended: every commit of a session returns the handle fbdev_init
    returned and leaves gr_draw pointing to it.  In a build without
    RECOVERY_BGRA every commit succeeds and leaves the pixels of the drawing
    surface as they were.  In a RECOVERY_BGRA build a double-buffered commit
    leaves them with bytes 0 and 2 of every 4-byte pixel exchanged. *)
Theorem commit_keeps_handle cfg p s ok :
  session_of cfg p s →
  (∀ q s', fbdev_flip cfg ok s = Ok q s' → q = p ∧ gr_draw s' = p) ∧
  (RECOVERY_BGRA cfg = false →
   ∃ s', fbdev_flip cfg ok s = Ok p s' ∧
         draw_pixels s' = draw_pixels s ∧ is_Some (draw_pixels s)) ∧
  (RECOVERY_BGRA cfg = true → double_buffered s = true →
   ∀ q s', fbdev_flip cfg ok s = Ok q s' →
           draw_pixels s' = draw_pixels s ≫= swap_rb).
Proof.
  intros Hs. pose proof (session_of_inv cfg p s Hs)
    as (bg & bd & bm & px & vm & -> & Hinv).
  pose proof (fbdev_flip_run cfg ok s bg bd bm px vm Hinv) as Hrun.
  pose proof (draw_pixels_inv s bg bd bm px vm Hinv) as Hpx.
  assert (Hafter : ∀ q s', fbdev_flip cfg ok s = Ok q s' →
            q = Ptr bg 0 ∧
            ∃ px' vm', session_inv s' bg bd bm px' vm' ∧
              Some px' = if double_buffered s
                         then (if RECOVERY_BGRA cfg then swap_rb px else Some px)
                         else Some px).
  { intros q s' E. rewrite Hrun in E. destruct (double_buffered s) eqn:Hdb.
    - destruct (if RECOVERY_BGRA cfg then swap_rb px else Some px)
        as [px' |] eqn:Hpx'; [| done].
      simplify_eq. split; [done |]. exists px'. eexists. split; [| done].
      assert (Hlen : length px' = length px).
      { destruct (RECOVERY_BGRA cfg); [by apply swap_rb_length | by simplify_eq]. }
      pose proof (inv_shown _ _ _ _ _ _ Hinv Hdb) as Hshown.
      apply panned_inv.
      + apply (committed_inv s bg bd bm px); [done | done |].
        destruct Hshown as [-> | ->]; auto.
      + destruct Hshown as [-> | ->]; auto.
    - simplify_eq. split; [done |]. exists px. eexists. split; [| done].
      apply (committed_inv s bg bd bm px); auto. }
  split; [| split].
  - intros q s' E. destruct (Hafter q s' E) as (-> & px' & vm' & [[] _ _ _] & _).
    done.
  - intros Hoff. rewrite Hoff in *.
    destruct (fbdev_flip cfg ok s) as [q s' |] eqn:E.
    + destruct (Hafter q s' eq_refl) as (-> & px' & vm' & Hinv' & Hpx').
      exists s'. split; [done |]. rewrite Hpx. split; [| done].
      rewrite (draw_pixels_inv s' bg bd bm px' vm' Hinv'), Hpx'.
      by destruct (double_buffered s).
    + by destruct (double_buffered s).
  - intros Hon Hdb q s' E.
    destruct (Hafter q s' E) as (-> & px' & vm' & Hinv' & Hpx').
    rewrite (draw_pixels_inv s' bg bd bm px' vm' Hinv'), Hpx', Hdb, Hon, Hpx. done.
Qed.

(* The painted 2x1 panel is a state of a session. *)
Lemma painted_session cfg len :
  cfg = plain_build ∨ cfg = bgra_build → len = 8 ∨ len = 16 →
  session_of cfg (Ptr 1%nat 0) (painted cfg len).
Proof.
  intros Hcfg Hlen. unfold painted. rewrite bind_unfold.
  destruct (fbdev_init cfg (panel len) startup) as [p s |] eqn:Hinit;
    [| destruct Hcfg as [-> | ->], Hlen as [-> | ->];
       vm_compute in Hinit; discriminate Hinit].
  assert (Hs : session_of cfg p s).
  { eapply (session_init _ _ (panel len) startup); [| | exact Hinit].
    - apply panel_wf. unfold is_u32. destruct Hlen as [-> | ->]; lia.
    - intros ->. destruct Hcfg as [-> | ->], Hlen as [-> | ->];
        vm_compute in Hinit; discriminate Hinit. }
  assert (Hp : p = Ptr 1%nat 0).
  { destruct Hcfg as [-> | ->], Hlen as [-> | ->];
      vm_compute in Hinit; by injection Hinit as <- _. }
  subst p.
  destruct (paint eight_bytes s) as [[] s' |] eqn:Hpaint.
  - simpl. by eapply session_paint.
  - destruct Hcfg as [-> | ->], Hlen as [-> | ->];
      vm_compute in Hinit; injection Hinit as <-;
      vm_compute in Hpaint; discriminate Hpaint.
Defined.

Lemma commit_keeps_handle_witness :
  ∃ s', fbdev_flip plain_build true (painted plain_build 16) = Ok (Ptr 1%nat 0) s' ∧
        draw_pixels s' = draw_pixels (painted plain_build 16).
Proof.
  destruct (commit_keeps_handle plain_build (Ptr 1%nat 0) (painted plain_build 16) true)
    as (_ & H & _).
  - apply painted_session; [left | right]; reflexivity.
  - destruct (H eq_refl) as (s' & E & Hpx & _).
    exists s'. split; [exact E | exact Hpx].
Defined.

(** C2, evaluated where it fails: in a RECOVERY_BGRA build, on the
    single-buffered 2x1 panel, a commit copies the drawing surface to the
    front buffer as the painter left it: no byte is swapped, neither in the
    drawing surface nor in the copy.  On the double-buffered panel the same
    build swaps bytes 0 and 2 of both pixels before it copies them. *)
Theorem single_buffered_commit_skips_swap :
  RECOVERY_BGRA bgra_build = true ∧
  (* single buffered *)
  double_buffered (painted bgra_build 8) = false ∧
  draw_pixels (painted bgra_build 8) = Some eight_bytes ∧
  final (fbdev_flip bgra_build true (painted bgra_build 8)) ≫= draw_pixels
  = Some eight_bytes ∧
  final (fbdev_flip bgra_build true (painted bgra_build 8)) ≫= front_pixels 0
  = Some eight_bytes ∧
  (* double buffered *)
  double_buffered (painted bgra_build 16) = true ∧
  draw_pixels (painted bgra_build 16) = Some eight_bytes ∧
  final (fbdev_flip bgra_build true (painted bgra_build 16)) ≫= front_pixels 1
  = Some [x03; x02; x01; x04; x07; x06; x05; x08].
Proof. repeat split; by vm_compute. Qed.

(* The padded one-pixel panel after fbdev_init in a RECOVERY_BGRA build. *)
Definition narrow : state :=
  default startup (final (fbdev_init bgra_build narrow_panel startup)).

(** C8, evaluated where it fails: in a RECOVERY_BGRA build, on a
    double-buffered 32-bit panel whose frame is six bytes (one pixel and two
    bytes of padding), fbdev_init succeeds and the drawing surface is six
    bytes long; the commit swaps bytes 0 and 2, then reads byte 6 of the
    surface to swap it with byte 4: an access outside the drawing
    surface. *)
Theorem swap_leaves_drawing_surface :
  is_null <$> returned (fbdev_init bgra_build narrow_panel startup) = Some false ∧
  double_buffered narrow = true ∧
  length <$> draw_pixels narrow = Some 6%nat ∧
  fbdev_flip bgra_build true narrow = Undefined OutOfBounds.
Proof. repeat split; by vm_compute. Qed.


Lemma slice_splice off (new l : list byte) :
  0 ≤ off → off + Z.of_nat (length new) ≤ Z.of_nat (length l) →
  slice off (Z.of_nat (length new)) (splice off new l) = new.
Proof.
  intros H0 Hfit. unfold slice, splice.
  rewrite drop_app_length' by (rewrite length_take; lia).
  rewrite Nat2Z.id. by rewrite take_app_length.
Qed.

(* Where the build has no RECOVERY_BGRA, C8 holds: a commit of a session
   succeeds, leaves the drawing surface as it was, and writes its
   height * row_bytes bytes (the frame) into the slot that is not displayed
   (slot 0 when single buffered); every other byte of every object stays. *)
Lemma commit_copies_frame cfg p s ok :
  session_of cfg p s → RECOVERY_BGRA cfg = false →
  ∃ s' bm px vm,
    fbdev_flip cfg ok s = Ok p s' ∧
    let n := frame (gr_framebuffer s).1 in
    let t := if double_buffered s then 1 - displayed_buffer s else 0 in
    draw_pixels s = Some px ∧ Z.of_nat (length px) = n ∧
    mem s !! bm = Some (Mapping vm) ∧
    data (gr_framebuffer s).1 = Ptr bm 0 ∧
    0 ≤ t * n ∧ t * n + n ≤ Z.of_nat (length vm) ∧
    mem s' = <[bm := Mapping (splice (t * n) px vm)]> (mem s) ∧
    front_pixels t s' = Some px.
Proof.
  intros Hs Hoff.
  pose proof (session_of_inv cfg p s Hs) as (bg & bd & bm & px & vm & -> & Hinv).
  pose proof (fbdev_flip_run cfg ok s bg bd bm px vm Hinv) as Hrun.
  rewrite Hoff in Hrun.
  pose proof (draw_pixels_inv s bg bd bm px vm Hinv) as Hpx.
  pose proof Hinv as [[] Hframe Hroom Hshown].
  rewrite frame_size_frame in * by done.
  set (n := frame (gr_framebuffer s).1) in *.
  set (t := if double_buffered s then 1 - displayed_buffer s else 0).
  assert (Ht : t = 0 ∨ (t = 1 ∧ double_buffered s = true)).
  { unfold t. destruct (double_buffered s); [| by left].
    destruct (Hshown eq_refl) as [-> | ->]; auto. }
  assert (Hfit : 0 ≤ t * n ∧ t * n + n ≤ Z.of_nat (length vm)).
  { destruct Ht as [-> | [-> Hdb]]; [lia |]. specialize (Hroom Hdb). lia. }
  assert (Hrun' : ∃ s', fbdev_flip cfg ok s = Ok (Ptr bg 0) s' ∧
                        gr_framebuffer s' = gr_framebuffer s ∧
                        mem s' = <[bm := Mapping (splice (t * n) px vm)]> (mem s)).
  { rewrite Hrun. unfold t, committed. fold n.
    rewrite (insert_id (mem s) bd) by done.
    destruct (double_buffered s); eexists; (split; [done |]).
    - by destruct (panned_buffers ok (1 - displayed_buffer s)
                     (set_mem (<[bm:=Mapping (splice ((1 - displayed_buffer s) * n) px vm)]>
                                 (mem s)) s)) as (-> & _ & _ & _ & _ & _ & _ & ->).
    - done. }
  destruct Hrun' as (s' & E & Hfb & Hmem).
  exists s', bm, px, vm. split; [done |]. cbv zeta. fold n t.
  split; [done |]. split; [done |]. split; [done |]. split; [done |].
  split; [lia |]. split; [lia |]. split; [done |].
  unfold front_pixels.
  assert (Efb : ∃ fb, framebuffer t s' = Ok fb s' ∧ data fb = Ptr bm (t * n) ∧
                      frame_size fb = n).
  { destruct Ht as [-> | [-> Hdb]].
    - rewrite framebuffer_0, Hfb. eexists. split; [done |].
      rewrite lay_front0, frame_size_frame by done. split; [f_equal; lia | done].
    - rewrite framebuffer_1, Hfb, (lay_second0 Hdb). eexists. split; [done |].
      state_simpl. split; [f_equal; lia |].
      change (frame_size (set_data (Ptr bm n) (gr_framebuffer s).1))
        with (frame_size (gr_framebuffer s).1). by apply frame_size_frame. }
  destruct Efb as (fb & -> & -> & ->).
  erewrite span_ok; [ | rewrite Hmem; apply lookup_insert_eq | done | lia | lia | ].
  - rewrite <- lay_size0. f_equal. apply slice_splice; lia.
  - rewrite length_splice; lia.
Qed.

(** ** The byte swap (C9) *)

(** C9: run over a byte object whose length is a multiple of 4, the swap
    loop of lines 252-257 ends inside the buffer, keeps its length, exchanges
    bytes 0 and 2 of every group of four and leaves bytes 1 and 3 alone; run
    a second time it gives the first state back. *)
Theorem bgra_swap_swaps_and_undoes s b (px : list byte) n :
  mem s !! b = Some (Bytes px) →
  n = Z.of_nat (length px) → n mod 4 = 0 → n < 2 ^ 32 →
  ∃ px',
    bgra_swap (S (Z.to_nat n)) (Ptr b 0) 0 n s
    = Ok tt (set_mem (<[b := Bytes px']> (mem s)) s) ∧
    length px' = length px ∧
    (∀ k : nat, (4 * k + 3 < length px)%nat →
       px' !! (4 * k)%nat = px !! (4 * k + 2)%nat ∧
       px' !! (4 * k + 1)%nat = px !! (4 * k + 1)%nat ∧
       px' !! (4 * k + 2)%nat = px !! (4 * k)%nat ∧
       px' !! (4 * k + 3)%nat = px !! (4 * k + 3)%nat) ∧
    bgra_swap (S (Z.to_nat n)) (Ptr b 0) 0 n (set_mem (<[b := Bytes px']> (mem s)) s)
    = Ok tt s.
Proof.
  intros Hb Hn Hmod Hsmall.
  assert (Hn1 : n + 1 < 2 ^ 32).
  { pose proof (Z.div_mod n 4 ltac:(lia)) as E. rewrite Hmod in E. lia. }
  destruct (proj2 (swap_rb_defined px)) as [px' Hpx']; [left; by rewrite <- Hn |].
  pose proof (swap_rb_length _ _ Hpx') as Hlen.
  exists px'. rewrite (bgra_swap_whole s b px n) by done. rewrite Hpx'.
  split; [done |]. split; [done |]. split.
  - intros k Hk. by apply swap_rb_lookup.
  - rewrite (bgra_swap_whole _ b px' n);
      [ | state_simpl; apply lookup_insert_eq | by rewrite Hlen | done ].
    rewrite (swap_rb_involutive _ _ Hpx'). state_simpl.
    rewrite insert_insert_eq.
    change (set_mem (<[b:=Bytes px]> (mem s)) (set_mem (<[b:=Bytes px']> (mem s)) s))
      with (set_mem (<[b:=Bytes px]> (mem s)) s).
    by rewrite set_mem_id.
Qed.

Lemma bgra_swap_swaps_and_undoes_witness :
  ∃ px',
    bgra_swap (S (Z.to_nat 8)) (Ptr 2%nat 0) 0 8 (painted bgra_build 16)
    = Ok tt (set_mem (<[2%nat := Bytes px']> (mem (painted bgra_build 16)))
                     (painted bgra_build 16)) ∧
    px' !! 0%nat = eight_bytes !! 2%nat.
Proof.
  destruct (bgra_swap_swaps_and_undoes (painted bgra_build 16) 2%nat eight_bytes 8)
    as (px' & E & _ & Hk & _).
  - vm_compute. reflexivity.
  - reflexivity.
  - reflexivity.
  - lia.
  - exists px'. split; [exact E |].
    apply (Hk 0%nat). simpl. lia.
Defined.

(** ** Failure of fbdev_init (C10) *)

(** C10: fbdev_init returns NULL exactly when one of its six fallible calls
    fails (open, the two ioctls, mmap, the two mallocs).  Whenever it
    returns NULL it has written one report to the error stream, and the open
    descriptors and the live mappings and heap objects are those of the
    state it started from.  A failure of open, of an ioctl or of mmap always
    ends this way; so does a failed malloc, as soon as the frame the device
    describes fits the memory it maps (else line 193 has already written
    outside the mapping). *)
Theorem fbdev_init_failure cfg k s0 :
  (∀ p s, fbdev_init cfg k s0 = Ok p s →
     (p = NULL ↔ init_fails k) ∧
     (p = NULL →
      fds s = fds s0 ∧ mem s = mem s0 ∧ ∃ msg, stderr s = stderr s0 ++ [msg])) ∧
  (open_ok k = false ∨ fscreeninfo k = None ∨ vscreeninfo k = None ∨ vram k = None →
   ∃ s, fbdev_init cfg k s0 = Ok NULL s) ∧
  (surface_ok k = false ∨ pixels k = None →
   (∀ fi v, fscreeninfo k = Some fi → vscreeninfo k = Some v →
            frame_size (front_surface fi v NULL) ≤ usize (fi_smem_len fi)) →
   ∃ s, fbdev_init cfg k s0 = Ok NULL s).
Proof.
  pose proof (fbdev_init_cases cfg k s0) as Hc.
  split; [| split].
  - intros p s E. rewrite E in Hc. destruct Hc as (? & ? & _). done.
  - intros Hearly. destruct (fbdev_init cfg k s0) as [p s | f].
    + destruct Hc as (Hnull & _). exists s. f_equal.
      apply Hnull. unfold init_fails. tauto.
    + destruct Hc as (_ & fi & v & Ho & Hfi & Hv & Hvr & _).
      destruct Hearly as [E | [E | [E | E]]]; congruence.
  - intros Hlate Hfits. destruct (fbdev_init cfg k s0) as [p s | f].
    + destruct Hc as (Hnull & _). exists s. f_equal.
      apply Hnull. unfold init_fails. tauto.
    + destruct Hc as (_ & fi & v & _ & Hfi & Hv & _ & Hbig).
      specialize (Hfits fi v Hfi Hv). lia.
Qed.

(* The 2x1 panel on which the second malloc fails. *)
Definition starved_panel : probe :=
  Probe true (Some (FixInfo 16 8)) (Some xrgb_var) (Some []) true None
        true true true.

Lemma fbdev_init_failure_witness :
  ∃ s, fbdev_init plain_build starved_panel startup = Ok NULL s ∧
       fds s = fds startup ∧ mem s = mem startup ∧
       ∃ msg, stderr s = stderr startup ++ [msg].
Proof.
  destruct (fbdev_init_failure plain_build starved_panel startup) as (H1 & _ & H3).
  destruct H3 as [s E].
  - right. reflexivity.
  - intros fi v Hfi Hv. injection Hfi as <-. injection Hv as <-.
    vm_compute. discriminate.
  - exists s. split; [exact E |].
    apply (H1 NULL s E). reflexivity.
Defined.

(** ** Teardown *)

(* On the 2x1 panel, fbdev_exit after fbdev_init closes the descriptor,
   frees the drawing surface and removes the mapping: no descriptor and no
   object is left beyond those of the start. *)
Example exit_after_init_releases :
  elements ∘ fds <$> final ((fbdev_init plain_build (panel 16);; fbdev_exit) startup)
  = Some (elements (fds startup)) ∧
  map_to_list ∘ mem <$> final ((fbdev_init plain_build (panel 16);; fbdev_exit) startup)
  = Some [] ∧
  gr_draw <$> final ((fbdev_init plain_build (panel 16);; fbdev_exit) startup)
  = Some NULL ∧
  fb_fd <$> final ((fbdev_init plain_build (panel 16);; fbdev_exit) startup)
  = Some (-1).
Proof. repeat split; by vm_compute. Qed.

(** * Beyond the claims: the rest of the backend *)

(** ** fbdev_blank in closed form *)

(* The state fbdev_blank leaves.  The backlight descriptor is closed again,
   so the set of descriptors is the one before the call. *)
Definition blank_done (cfg : build) (ok blank : bool) (s : state) : state :=
  match TW_NO_SCREEN_BLANK cfg, TW_BRIGHTNESS cfg with
  | true, Some (_, TW_MAX_BRIGHTNESS) =>
    if ok
    then set_backlight
           (Some (if blank then "000"%string
                  else snprintf4_03d (s32 (Z.quot TW_MAX_BRIGHTNESS 2)))) s
    else set_stderr (stderr s ++ ["cannot open LCD backlight"%string]) s
  | true, None => s
  | false, _ =>
    if ok then set_blanked (Some blank) s
    else set_stderr (stderr s ++ ["ioctl(): blank"%string]) s
  end.

Lemma fbdev_blank_run cfg ok blank s :
  fbdev_blank cfg ok blank s = Ok tt (blank_done cfg ok blank s).
Proof.
  unfold fbdev_blank, blank_done.
  destruct (TW_NO_SCREEN_BLANK cfg), (TW_BRIGHTNESS cfg) as [[path top]|];
    try (by destruct ok).
  rewrite bind_unfold. unfold sys_open. destruct ok.
  - rewrite bool_decide_eq_false_2 by lia. step. rewrite sys_close_run.
    state_simpl. rewrite close_fresh. by destruct s.
  - by rewrite bool_decide_eq_true_2 by lia.
Qed.

Lemma blank_done_buffers cfg ok blank s : same_buffers s (blank_done cfg ok blank s).
Proof.
  unfold blank_done, same_buffers.
  by destruct (TW_NO_SCREEN_BLANK cfg), (TW_BRIGHTNESS cfg) as [[path top]|], ok.
Qed.

(* The reports of one fbdev_blank. *)
Definition blank_report (cfg : build) (ok : bool) : list string :=
  if ok then []
  else match TW_NO_SCREEN_BLANK cfg, TW_BRIGHTNESS cfg with
       | true, Some _ => ["cannot open LCD backlight"%string]
       | true, None => []
       | false, _ => ["ioctl(): blank"%string]
       end.

Lemma blank_done_display cfg ok blank s :
  scanout (blank_done cfg ok blank s) = scanout s ∧
  stderr (blank_done cfg ok blank s) = stderr s ++ blank_report cfg ok.
Proof.
  unfold blank_done, blank_report.
  destruct (TW_NO_SCREEN_BLANK cfg), (TW_BRIGHTNESS cfg) as [[path top]|], ok;
    cbn; by rewrite ?app_nil_r.
Qed.

(** X1: fbdev_blank always returns and, in every build and whether or not its
    system call succeeds, leaves the variables of the file, the open
    descriptors, the memory and the panning of the display as they were.
    Built without TW_NO_SCREEN_BLANK it sets the blank level to the one asked
    for when FBIOBLANK succeeds and reports "ioctl(): blank" when it fails,
    leaving the level alone.  Built with TW_NO_SCREEN_BLANK and no backlight
    path it does nothing at all.  Built with both it never touches the blank
    level, and a backlight file that cannot be opened costs one report and
    leaves the backlight as it was. *)
Theorem fbdev_blank_effect cfg ok blank s :
  ∃ s', fbdev_blank cfg ok blank s = Ok tt s' ∧
        same_buffers s s' ∧ scanout s' = scanout s ∧
        match TW_NO_SCREEN_BLANK cfg, TW_BRIGHTNESS cfg with
        | false, _ =>
          backlight s' = backlight s ∧
          blanked s' = (if ok then Some blank else blanked s) ∧
          stderr s' = (if ok then stderr s
                       else stderr s ++ ["ioctl(): blank"%string])
        | true, None => s' = s
        | true, Some _ =>
          blanked s' = blanked s ∧
          stderr s' = (if ok then stderr s
                       else stderr s ++ ["cannot open LCD backlight"%string]) ∧
          (ok = false → backlight s' = backlight s)
        end.
Proof.
  exists (blank_done cfg ok blank s). rewrite fbdev_blank_run.
  split; [done |]. split; [apply blank_done_buffers |].
  split; [apply blank_done_display |].
  unfold blank_done.
  by destruct (TW_NO_SCREEN_BLANK cfg), (TW_BRIGHTNESS cfg) as [[path top]|], ok.
Qed.

(** ** The text written to the backlight *)

(* The number a string of decimal digits denotes. *)
Definition digit (c : Ascii.ascii) : option Z :=
  let n := Z.of_nat (Ascii.nat_of_ascii c) - 48 in
  if bool_decide (0 ≤ n ≤ 9) then Some n else None.

Fixpoint decimal_from (acc : Z) (s : string) : option Z :=
  match s with
  | EmptyString => Some acc
  | String c s => d ← digit c; decimal_from (10 * acc + d) s
  end.

Definition decimal (s : string) : option Z := decimal_from 0 s.

(* Decimal digits, the most significant first: the number they denote from
   a start value, and the characters they print as. *)
Fixpoint digits_value (acc : N) (ds : list N) : N :=
  match ds with
  | [] => acc
  | d :: ds => digits_value (10 * acc + d) ds
  end.

Fixpoint digits_text (ds : list N) : string :=
  match ds with
  | [] => ""
  | d :: ds => String (pretty_N_char d) (digits_text ds)
  end.

Lemma digit_char (d : N) : (d < 10)%N → digit (pretty_N_char d) = Some (Z.of_N d).
Proof.
  intros Hd.
  assert (d = 0 ∨ d = 1 ∨ d = 2 ∨ d = 3 ∨ d = 4 ∨ d = 5 ∨ d = 6 ∨ d = 7 ∨
          d = 8 ∨ d = 9)%N as Hcases by lia.
  repeat (destruct Hcases as [-> | Hcases]; [reflexivity |]). by subst.
Qed.

Lemma decimal_from_digits ds : ∀ acc,
  Forall (λ d, d < 10)%N ds → 0 ≤ acc →
  decimal_from acc (digits_text ds) = Some (Z.of_N (digits_value (Z.to_N acc) ds)).
Proof.
  induction ds as [| d ds IH]; intros acc Hds Hacc; cbn [digits_text decimal_from digits_value].
  - by rewrite Z2N.id.
  - inversion Hds as [| ? ? Hd Hds']; subst.
    rewrite digit_char by done. cbn [mbind option_bind].
    rewrite IH by (done || lia). do 3 f_equal. lia.
Qed.

Lemma pretty_N_go_digit (x d : N) s :
  (d < 10)%N → (0 < 10 * x + d)%N →
  pretty_N_go (10 * x + d) s = pretty_N_go x (String (pretty_N_char d) s).
Proof.
  intros Hd Hpos. rewrite pretty_N_go_step by done.
  assert (((10 * x + d) `div` 10 = x)%N) as ->.
  { symmetry. apply (N.div_unique _ 10 x d); [done | reflexivity]. }
  assert (((10 * x + d) `mod` 10 = d)%N) as ->; [| done].
  symmetry. apply (N.mod_unique _ 10 x d); [done | reflexivity].
Qed.

(* A number printed digit by digit. *)
Lemma pretty_N_go_digits ds : ∀ d acc s,
  Forall (λ d, d < 10)%N (d :: ds) → (0 < 10 * acc + d)%N →
  pretty_N_go (digits_value acc (d :: ds)) s
  = pretty_N_go acc (digits_text (d :: ds) +:+ s).
Proof.
  induction ds as [| d' ds IH]; intros d acc s Hds Hpos;
    inversion Hds as [| ? ? Hd Hds']; subst.
  - by apply pretty_N_go_digit.
  - change (digits_value acc (d :: d' :: ds))
      with (digits_value (10 * acc + d) (d' :: ds)).
    rewrite IH by (done || lia).
    by rewrite pretty_N_go_digit.
Qed.

Lemma pretty_digits (d : N) (ds : list N) :
  Forall (λ d, d < 10)%N (d :: ds) → (0 < d)%N →
  pretty (Z.of_N (digits_value 0 (d :: ds))) = digits_text (d :: ds).
Proof.
  intros Hds Hd.
  assert (Hpos : (0 < digits_value 0 (d :: ds))%N).
  { cbn [digits_value]. generalize (10 * 0 + d)%N, (ltac:(lia) : (0 < 10 * 0 + d)%N).
    clear. induction ds as [| d' ds IH]; intros acc Hacc; [done |].
    apply IH. lia. }
  destruct (digits_value 0 (d :: ds)) as [| p] eqn:E; [lia |].
  change (pretty (Z.of_N (N.pos p))) with (pretty_N_go (N.pos p) "").
  rewrite <- E, pretty_N_go_digits by (done || lia).
  rewrite pretty_N_go_0. generalize (digits_text (d :: ds)).
  clear. intros t. induction t as [| c t IH]; [done |].
  change (String c (t +:+ "") = String c t). by f_equal.
Qed.

(* The text is three characters long and reads as [n]. *)
Definition writes (v n : Z) : Prop :=
  String.length (snprintf4_03d v) = 3%nat ∧ decimal (snprintf4_03d v) = Some n.

(* What snprintf leaves of a number given by its digits: short numbers are
   padded with zeros on the left, of long ones the first three digits stay. *)
Lemma snprintf4_03d_digits (d : N) (ds : list N) :
  Forall (λ d, d < 10)%N (d :: ds) → (0 < d)%N →
  snprintf4_03d (Z.of_N (digits_value 0 (d :: ds)))
  = String.substring 0 3 (pad0 3 (digits_text (d :: ds))).
Proof.
  intros Hds Hd. unfold snprintf4_03d.
  rewrite bool_decide_eq_false_2 by lia. by rewrite pretty_digits.
Qed.

Lemma snprintf4_03d_small v : 0 ≤ v < 1000 → writes v v.
Proof.
  intros Hv. unfold writes.
  destruct (decide (v = 0)) as [-> | Hv0]; [done |].
  set (a := Z.to_N (v / 100)). set (b := Z.to_N ((v / 10) mod 10)).
  set (c := Z.to_N (v mod 10)).
  assert (Hdigits : (a < 10 ∧ b < 10 ∧ c < 10)%N ∧
                    v = Z.of_N (10 * (10 * a + b) + c)).
  { unfold a, b, c. Z.div_mod_to_equations. lia. }
  destruct Hdigits as ((Ha & Hb & Hc) & Ev).
  assert (Hdec : ∀ ds, Forall (λ d, d < 10)%N ds →
            decimal (digits_text ds) = Some (Z.of_N (digits_value 0 ds))).
  { intros ds Hds. unfold decimal. by rewrite decimal_from_digits. }
  destruct (decide (a = 0)%N) as [Ea | Ha0].
  - destruct (decide (b = 0)%N) as [Eb | Hb0].
    + assert (E : v = Z.of_N (digits_value 0 [c])) by (cbn; lia).
      rewrite E at 1 2. rewrite snprintf4_03d_digits by (repeat constructor; lia).
      change (String.substring 0 3 (pad0 3 (digits_text [c])))
        with (digits_text [0%N; 0%N; c]).
      split; [done |]. rewrite Hdec by (repeat constructor; lia).
      f_equal. cbn. lia.
    + assert (E : v = Z.of_N (digits_value 0 [b; c])) by (cbn; lia).
      rewrite E at 1 2. rewrite snprintf4_03d_digits by (repeat constructor; lia).
      change (String.substring 0 3 (pad0 3 (digits_text [b; c])))
        with (digits_text [0%N; b; c]).
      split; [done |]. rewrite Hdec by (repeat constructor; lia).
      f_equal. cbn. lia.
  - assert (E : v = Z.of_N (digits_value 0 [a; b; c])) by (cbn; lia).
    rewrite E at 1 2. rewrite snprintf4_03d_digits by (repeat constructor; lia).
    change (String.substring 0 3 (pad0 3 (digits_text [a; b; c])))
      with (digits_text [a; b; c]).
    split; [done |]. rewrite Hdec by (repeat constructor; lia).
    f_equal. cbn. lia.
Qed.

Lemma digits_value_app ds ds' : ∀ acc,
  digits_value acc (ds ++ ds') = digits_value (digits_value acc ds) ds'.
Proof. induction ds as [| d ds IH]; intros acc; [done |]. apply IH. Qed.

(* The value of a digit string of length n is below 10^n, and a start value
   counts 10^n times. *)
Lemma digits_value_bound ds : ∀ acc,
  Forall (λ d, d < 10)%N ds →
  (digits_value acc ds = acc * 10 ^ N.of_nat (length ds) + digits_value 0 ds ∧
   digits_value 0 ds < 10 ^ N.of_nat (length ds))%N.
Proof.
  induction ds as [| d ds IH]; intros acc Hds.
  - cbn. lia.
  - inversion Hds as [| ? ? Hd Hds']; subst.
    cbn [digits_value length].
    destruct (IH (10 * acc + d)%N Hds') as [E1 _].
    destruct (IH (10 * 0 + d)%N Hds') as [E2 Hlt].
    rewrite E1, E2. rewrite Nat2N.inj_succ, N.pow_succ_r'.
    set (P := (10 ^ N.of_nat (length ds))%N) in *. nia.
Qed.

(* Every positive number has decimal digits, the first of them not zero. *)
Lemma digits_of (n : N) :
  (0 < n)%N →
  ∃ d ds, Forall (λ d, d < 10)%N (d :: ds) ∧ (0 < d)%N ∧ digits_value 0 (d :: ds) = n.
Proof.
  induction (N.lt_wf_0 n) as [n _ IH]. intros Hn.
  destruct (decide (n < 10)%N) as [Hsmall | Hbig].
  - exists n, []. split; [by repeat constructor |]. split; [done |]. cbn. lia.
  - pose proof (N.div_mod n 10 ltac:(lia)) as Ediv.
    pose proof (N.mod_lt n 10 ltac:(lia)) as Hmod.
    set (q := (n `div` 10)%N) in *. set (r := (n `mod` 10)%N) in *.
    clearbody q r.
    destruct (IH q) as (d & ds & Hds & Hd & E); [lia | lia |].
    exists d, (ds ++ [r]). split; [| split; [done |]].
    + rewrite app_comm_cons. apply Forall_app. split; [done | by repeat constructor].
    + rewrite app_comm_cons, digits_value_app, E. cbn. lia.
Qed.

(* Of a number of four digits or more, the first three are written: the
   number divided by the power of ten that leaves three digits. *)
Lemma snprintf4_03d_large v :
  1000 ≤ v →
  ∃ k, 1 ≤ k ∧ 10 ^ (k + 2) ≤ v < 10 ^ (k + 3) ∧ writes v (v / 10 ^ k).
Proof.
  intros Hv.
  destruct (digits_of (Z.to_N v)) as (a & ds & Hds & Ha & E); [lia |].
  destruct (digits_value_bound (a :: ds) 0 Hds) as [_ Hlt].
  rewrite E in Hlt.
  destruct ds as [| b [| c [| e rest]]];
    try (cbn in Hlt; lia).
  pose proof Hds as Hall. rewrite !Forall_cons in Hall.
  destruct Hall as (Ha10 & Hb & Hc & He & Hrest0).
  assert (Hhead : Forall (λ d, d < 10)%N [a; b; c]) by (by repeat constructor).
  assert (Htail : Forall (λ d, d < 10)%N (e :: rest)) by (by constructor).
  set (A := digits_value 0 [a; b; c]).
  assert (HA : (100 ≤ A < 1000)%N) by (unfold A; cbn; lia).
  set (k := N.of_nat (length (e :: rest))).
  destruct (digits_value_bound (e :: rest) A Htail) as [Esplit Hrest].
  fold k in Esplit, Hrest.
  assert (En : Z.to_N v = (A * 10 ^ k + digits_value 0 (e :: rest))%N).
  { rewrite <- E, <- Esplit. unfold A.
    by rewrite <- (digits_value_app [a; b; c] (e :: rest)). }
  assert (Epow : Z.of_N (10 ^ k) = 10 ^ Z.of_N k) by (by rewrite N2Z.inj_pow).
  assert (Ev : v = Z.of_N A * 10 ^ Z.of_N k + Z.of_N (digits_value 0 (e :: rest))).
  { rewrite <- Epow, <- N2Z.inj_mul, <- N2Z.inj_add, <- En. lia. }
  assert (Hrest' : Z.of_N (digits_value 0 (e :: rest)) < 10 ^ Z.of_N k).
  { rewrite <- Epow. lia. }
  assert (Hk : 1 ≤ Z.of_N k) by (unfold k; cbn [length]; lia).
  assert (Hpow : 0 < 10 ^ Z.of_N k) by (apply Z.pow_pos_nonneg; lia).
  exists (Z.of_N k). split; [done |]. split.
  { rewrite !Z.pow_add_r by lia. change (10 ^ 2) with 100. change (10 ^ 3) with 1000.
    nia. }
  assert (Ediv : v / 10 ^ Z.of_N k = Z.of_N A).
  { symmetry. apply (Z.div_unique _ _ _ (Z.of_N (digits_value 0 (e :: rest)))); lia. }
  rewrite Ediv. unfold writes.
  assert (Etext : snprintf4_03d v = digits_text [a; b; c]).
  { replace v with (Z.of_N (digits_value 0 (a :: b :: c :: e :: rest))) by lia.
    by rewrite snprintf4_03d_digits. }
  rewrite Etext. split; [done |]. unfold decimal.
  by rewrite decimal_from_digits.
Qed.

Lemma blank_done_backlight cfg path top blank s :
  TW_NO_SCREEN_BLANK cfg = true → TW_BRIGHTNESS cfg = Some (path, top) →
  - 2 ^ 31 ≤ Z.quot top 2 < 2 ^ 31 →
  backlight (blank_done cfg true blank s) =
  Some (if blank then "000"%string else snprintf4_03d (Z.quot top 2)) ∧
  fds (blank_done cfg true blank s) = fds s.
Proof.
  intros Hno Hpath Hint. unfold blank_done. rewrite Hno, Hpath.
  by rewrite s32_small.
Qed.

(* A build that dims the backlight instead of blanking, with the brightness
   file of the Linux LED class and the given maximum. *)
Definition backlit_build (top : Z) : build :=
  Build false false true (Some ("/sys/class/leds/lcd-backlight/brightness"%string, top)).

(** X2: in a build with TW_NO_SCREEN_BLANK and a backlight path whose
    TW_MAX_BRIGHTNESS is between 0 and 1999, fbdev_blank writes three
    characters to the backlight file: "000" to blank, and to unblank the
    zero-padded decimal digits of TW_MAX_BRIGHTNESS / 2, which read back as
    that number.  The descriptor it opened is closed again. *)
Theorem backlight_text cfg path top blank s :
  TW_NO_SCREEN_BLANK cfg = true → TW_BRIGHTNESS cfg = Some (path, top) →
  0 ≤ top < 2000 →
  ∃ s' text,
    fbdev_blank cfg true blank s = Ok tt s' ∧
    backlight s' = Some text ∧ String.length text = 3%nat ∧
    decimal text = Some (if blank then 0 else Z.quot top 2) ∧
    fds s' = fds s.
Proof.
  intros Hno Hpath Htop.
  assert (Hhalf : 0 ≤ Z.quot top 2 < 1000).
  { rewrite Z.quot_div_nonneg by lia.
    split; [apply Z.div_pos; lia | apply Z.div_lt_upper_bound; lia]. }
  destruct (blank_done_backlight cfg path top blank s Hno Hpath) as [Hb Hfds]; [lia |].
  eexists _, _. rewrite fbdev_blank_run. split; [done |].
  split; [exact Hb |]. split; [| split; [| done]].
  - destruct blank; [done |]. by apply snprintf4_03d_small.
  - destruct blank; [done |]. by apply snprintf4_03d_small.
Qed.

Lemma backlight_text_witness :
  ∃ s' text,
    fbdev_blank (backlit_build 255) true false startup = Ok tt s' ∧
    backlight s' = Some text ∧ String.length text = 3%nat ∧
    decimal text = Some 127 ∧ fds s' = fds startup.
Proof.
  apply (backlight_text (backlit_build 255)
           "/sys/class/leds/lcd-backlight/brightness" 255 false startup);
    [reflexivity | reflexivity | lia].
Defined.

(** X3: the buffer of fbdev_blank holds three characters.  With a
    TW_MAX_BRIGHTNESS of 2000 or more the half has four digits or more and
    only the first three are written: unblanking sets the backlight to
    TW_MAX_BRIGHTNESS / 2 divided by the power of ten that leaves it three
    digits (a tenth of it for a maximum below 20000). *)
Theorem backlight_text_truncated cfg path top s :
  TW_NO_SCREEN_BLANK cfg = true → TW_BRIGHTNESS cfg = Some (path, top) →
  2000 ≤ top < 2 ^ 31 →
  ∃ s' text k,
    fbdev_blank cfg true false s = Ok tt s' ∧
    backlight s' = Some text ∧ String.length text = 3%nat ∧
    1 ≤ k ∧ 10 ^ (k + 2) ≤ Z.quot top 2 < 10 ^ (k + 3) ∧
    decimal text = Some (Z.quot top 2 / 10 ^ k).
Proof.
  intros Hno Hpath Htop.
  assert (Hhalf : 1000 ≤ Z.quot top 2 < 2 ^ 31).
  { rewrite Z.quot_div_nonneg by lia.
    split; [apply Z.div_le_lower_bound; lia | apply Z.div_lt_upper_bound; lia]. }
  destruct (blank_done_backlight cfg path top false s Hno Hpath) as [Hb _]; [lia |].
  destruct (snprintf4_03d_large (Z.quot top 2)) as (k & Hk & Hrange & Hlen & Hdec);
    [lia |].
  eexists _, _, k. rewrite fbdev_blank_run. split; [done |].
  split; [exact Hb |]. done.
Qed.

Lemma backlight_text_truncated_witness :
  ∃ s' text,
    fbdev_blank (backlit_build 4095) true false startup = Ok tt s' ∧
    backlight s' = Some text ∧ String.length text = 3%nat ∧
    decimal text = Some 204.
Proof.
  destruct (backlight_text_truncated (backlit_build 4095)
              "/sys/class/leds/lcd-backlight/brightness" 4095 startup)
    as (s' & text & k & H1 & H2 & H3 & Hk & Hrange & H4);
    [reflexivity | reflexivity | lia |].
  exists s', text. split; [exact H1 |]. split; [exact H2 |]. split; [exact H3 |].
  assert (Ek : k = 1).
  { destruct (decide (k ≤ 1)) as [| Hbig]; [lia |]. exfalso.
    assert (10 ^ 4 ≤ 10 ^ (k + 2)) by (apply Z.pow_le_mono_r; lia).
    change (Z.quot 4095 2) with 2047 in Hrange. lia. }
  rewrite Ek in H4. exact H4.
Defined.

(** ** fbdev_init in closed form *)

(* Lines 101-232 of a successful fbdev_init: the descriptor is a fresh one;
   the mapping, the heap surface and its pixel memory are three fresh
   blocks, the first and the last filled with zeros. *)
Definition init_core (cfg : build) (fi : fb_fix_screeninfo)
           (v : fb_var_screeninfo) (s0 : state) : state :=
  let fd := fresh (fds s0) in
  let v' := configured cfg fi v in
  let bm := fresh (dom (mem s0)) in
  let m1 :=
    <[bm := Mapping (replicate (Z.to_nat (usize (fi_smem_len fi))) x00)]> (mem s0) in
  let bg := fresh (dom m1) in
  let f0 := front_surface fi v' (Ptr bm 0) in
  let bd := fresh (dom (<[bg := Struct (Some f0)]> m1)) in
  let dbl := bool_decide (u32 (u32 (yres v' * fi_line_length fi) * 2) ≤ fi_smem_len fi) in
  let f1 := if dbl then set_data (Ptr bm (frame f0)) f0 else (gr_framebuffer s0).2 in
  set_fb_fd (Z.of_nat fd)
    (set_fds ({[fd]} ∪ fds s0)
       (set_mem (<[bd := Bytes (replicate (Z.to_nat (frame_size f0)) x00)]>
                   (<[bg := Struct (Some (set_data (Ptr bd 0) f0))]> m1))
          (set_gr_draw (Ptr bg 0)
             (set_double_buffered dbl
                (set_gr_framebuffer (f0, f1) (set_vi v' s0)))))).

(* Lines 233-242: the first pan, the blanking and unblanking, the length. *)
Definition init_done (cfg : build) (k : probe) (fi : fb_fix_screeninfo)
           (v : fb_var_screeninfo) (s0 : state) : state :=
  let s1 := init_core cfg fi v s0 in
  let s2 := if double_buffered s1 then panned (pan_ok k) 0 s1 else s1 in
  set_smem_len (fi_smem_len fi)
    (blank_done cfg (unblank_ok k) false (blank_done cfg (blank_ok k) true s2)).

(* Every way fbdev_init ends, and the state it ends in. *)
Definition init_outcome (cfg : build) (k : probe) (s0 : state) : result ptr :=
  let report (msg : string) (s : state) := Ok NULL (set_stderr (stderr s0 ++ [msg]) s) in
  if open_ok k then
    match fscreeninfo k with
    | None => report "failed to get fb0 info"%string s0
    | Some fi =>
      match vscreeninfo k with
      | None => report "failed to get fb0 info"%string s0
      | Some v =>
        match vram k with
        | None => report "failed to mmap framebuffer"%string (set_vi v s0)
        | Some _ =>
          let v' := configured cfg fi v in
          let bm := fresh (dom (mem s0)) in
          let f0 := front_surface fi v' (Ptr bm 0) in
          let s1 := set_gr_framebuffer (f0, (gr_framebuffer s0).2) (set_vi v' s0) in
          let zeros := replicate (Z.to_nat (usize (fi_smem_len fi))) x00 in
          let bg := fresh (dom (<[bm := Mapping zeros]> (mem s0))) in
          if bool_decide (frame_size f0 ≤ usize (fi_smem_len fi)) then
            if surface_ok k then
              match pixels k with
              | None => report "failed to allocate in-memory surface"%string
                               (set_gr_draw (Ptr bg 0) s1)
              | Some _ => Ok (Ptr bg 0) (init_done cfg k fi v s0)
              end
            else report "failed to allocate gr_draw"%string (set_gr_draw NULL s1)
          else Undefined OutOfBounds
        end
      end
    end
  else report "cannot open fb0"%string s0.

Lemma blank_done_gr_draw cfg ok blank s : gr_draw (blank_done cfg ok blank s) = gr_draw s.
Proof. by destruct (blank_done_buffers cfg ok blank s) as (_ & _ & ? & _). Qed.

Lemma fbdev_init_run cfg k s0 : fbdev_init cfg k s0 = init_outcome cfg k s0.
Proof.
  destruct s0 as [fb db draw shown v0 fd0 len0 fdset m err sc bl bk].
  destruct k as [o_ok ofi ovi ovram sok opx pok bok uok].
  unfold init_outcome, fbdev_init.
  cbn [open_ok fscreeninfo vscreeninfo vram surface_ok pixels pan_ok blank_ok
       unblank_ok].
  rewrite bind_unfold. unfold sys_open. state_simpl.
  destruct o_ok.
  2:{ rewrite bool_decide_eq_true_2 by done. step. by rewrite mret_run. }
  rewrite bool_decide_eq_false_2 by lia.
  destruct ofi as [fi|].
  2:{ step. step. rewrite mret_run. state_simpl. by rewrite close_fresh. }
  destruct ovi as [v|].
  2:{ step. step. rewrite mret_run. state_simpl. by rewrite close_fresh. }
  step. rewrite bind_unfold. unfold sys_mmap.
  destruct ovram as [vr|].
  2:{ rewrite mret_run. step. step. rewrite mret_run. state_simpl.
      by rewrite close_fresh. }
  step. rewrite mret_run.
  set (bm := fresh (dom m)).
  assert (Hbm : m !! bm = None) by apply fresh_block_unused.
  pose proof (usize_range (fi_smem_len fi)) as Hlen.
  rewrite bind_unfold.
  erewrite memset_ok;
    [ | state_simpl; apply lookup_insert_eq | reflexivity | lia | lia
      | rewrite length_resize; lia ].
  state_simpl. rewrite insert_insert_eq. cbn [with_bytes].
  rewrite splice_all by (by rewrite length_resize, length_replicate).
  set (zeros := replicate (Z.to_nat (usize (fi_smem_len fi))) x00).
  assert (Hzeros : Z.of_nat (length zeros) = usize (fi_smem_len fi))
    by (unfold zeros; rewrite length_replicate; lia).
  rewrite bind_unfold.
  assert (∀ s, (if RECOVERY_RGB_565 cfg
                then modify (λ s, set_vi (force_rgb_565 fi (vi s)) s)
                else mret ()) s = Ok tt (set_vi (configured cfg fi (vi s)) s)) as ->.
  { intros s. unfold configured. destruct (RECOVERY_RGB_565 cfg); [done |].
    by destruct s. }
  state_simpl. step.
  set (v' := configured cfg fi v).
  step.
  change (Surface (s32 (xres v')) (s32 (yres v')) (s32 (fi_line_length fi))
                  (s32 (bits_per_pixel v' / 8)) (Ptr bm 0) (pixel_format_of v'))
    with (front_surface fi v' (Ptr bm 0)).
  set (f0 := front_surface fi v' (Ptr bm 0)).
  assert (Hframe : 0 ≤ frame_size f0 < 2 ^ 64) by apply usize_range.
  rewrite bind_unfold.
  destruct (decide (frame_size f0 ≤ usize (fi_smem_len fi))) as [Hfit | Hfit].
  2:{ erewrite memset_oob;
        [ | state_simpl; apply lookup_insert_eq | reflexivity | lia ].
      by rewrite bool_decide_eq_false_2. }
  rewrite (bool_decide_eq_true_2 _ Hfit).
  erewrite memset_ok;
    [ | state_simpl; apply lookup_insert_eq | reflexivity | lia | lia | lia ].
  state_simpl. rewrite insert_insert_eq. cbn [with_bytes].
  unfold zeros at 1. rewrite splice_zeros by lia. fold zeros.
  unfold malloc_surface. destruct sok.
  2:{ do 2 step. cbn [is_null]. do 2 step.
      erewrite exec_munmap; [ | state_simpl; apply lookup_insert_eq | done ].
      rewrite mret_run. state_simpl.
      by rewrite close_fresh, delete_insert_eq, delete_id by done. }
  step. set (bg := fresh (dom (<[bm:=Mapping zeros]> m))).
  assert (Hbg : (<[bm:=Mapping zeros]> m) !! bg = None) by apply fresh_block_unused.
  assert (Hgm : bg ≠ bm).
  { intros E. rewrite E, lookup_insert_eq in Hbg. done. }
  step. cbn [is_null].
  erewrite exec_write_surface; [ | state_simpl; apply lookup_insert_eq ].
  state_simpl. rewrite insert_insert_eq.
  rewrite bind_unfold. erewrite read_surface_run; [ | state_simpl; apply lookup_insert_eq ].
  rewrite bind_unfold. unfold malloc. destruct opx as [junk |].
  2:{ rewrite mret_run.
      erewrite exec_write_surface; [ | state_simpl; apply lookup_insert_eq ].
      state_simpl. rewrite insert_insert_eq. cbn [is_null]. do 2 step.
      erewrite exec_free; [ | state_simpl; apply lookup_insert_eq | by left ].
      state_simpl. rewrite delete_insert_eq, delete_id by done.
      erewrite exec_munmap; [ | state_simpl; apply lookup_insert_eq | done ].
      rewrite mret_run. state_simpl.
      by rewrite close_fresh, delete_insert_eq, delete_id by done. }
  unfold alloc. state_simpl.
  set (px0 := resize (Z.to_nat (frame_size f0)) x00 junk).
  set (bd := fresh (dom (<[bg:=Struct (Some f0)]> (<[bm:=Mapping zeros]> m)))).
  assert (Hbd : (<[bg:=Struct (Some f0)]> (<[bm:=Mapping zeros]> m)) !! bd = None)
    by apply fresh_block_unused.
  assert (Hdg : bd ≠ bg).
  { intros E. rewrite E, lookup_insert_eq in Hbd. done. }
  assert (Hdm : bd ≠ bm).
  { intros E. rewrite lookup_insert_ne, E, lookup_insert_eq in Hbd; done. }
  erewrite exec_write_surface;
    [ | state_simpl; rewrite lookup_insert_ne by done; apply lookup_insert_eq ].
  state_simpl. cbn [is_null].
  set (dbl := bool_decide (u32 (u32 (yres v' * fi_line_length fi) * 2) ≤ fi_smem_len fi)).
  rewrite bind_unfold.
  assert (Hpx0 : Z.of_nat (length px0) = frame_size f0)
    by (unfold px0; rewrite length_resize; lia).
  assert (Hfinal : ∀ S, gr_draw S = Ptr bg 0 →
    (set_displayed_framebuffer pok 0 ≫= λ _,
     fbdev_blank cfg bok true ≫= λ _,
     fbdev_blank cfg uok false ≫= λ _,
     modify (set_smem_len (fi_smem_len fi)) ≫= λ _, gets gr_draw) S
    = Ok (Ptr bg 0)
         (set_smem_len (fi_smem_len fi)
            (blank_done cfg uok false
               (blank_done cfg bok true
                  (if double_buffered S then panned pok 0 S else S))))).
  { intros S HS. rewrite bind_unfold.
    destruct (double_buffered S) eqn:HdS;
      [ rewrite set_displayed_framebuffer_acts by done
      | rewrite set_displayed_framebuffer_skips by auto ];
      rewrite bind_unfold, fbdev_blank_run, bind_unfold, fbdev_blank_run;
      rewrite exec_modify, gets_run; f_equal; state_simpl;
      rewrite !blank_done_gr_draw; [| done].
    by destruct (panned_buffers pok 0 S) as (_ & _ & -> & _). }
  assert (Hmem :
    <[bd:=Bytes (replicate (Z.to_nat (frame_size f0)) x00)]>
      (<[bg:=Struct (Some (set_data (Ptr bd 0) f0))]>
         (<[bd:=Bytes px0]> (<[bg:=Struct (Some f0)]> (<[bm:=Mapping zeros]> m))))
    = <[bd:=Bytes (replicate (Z.to_nat (frame_size f0)) x00)]>
        (<[bg:=Struct (Some (set_data (Ptr bd 0) f0))]> (<[bm:=Mapping zeros]> m))).
  { rewrite (insert_insert_ne _ bg bd) by done.
    by rewrite insert_insert_eq, insert_insert_eq. }
  unfold init_done, init_core. cbv zeta.
  cbn [pan_ok blank_ok unblank_ok fds mem gr_framebuffer snd double_buffered
       set_fb_fd set_fds set_mem set_gr_draw set_double_buffered].
  fold bm zeros bg v' f0 bd dbl.
  destruct dbl eqn:Hdbl;
    [ rewrite exec_modify, modify_run | rewrite modify_run ];
    state_simpl;
    ( rewrite bind_unfold;
      erewrite read_surface_run; [ | state_simpl; apply lookup_insert_eq ];
      state_simpl; rewrite bind_unfold;
      erewrite memset_ok;
        [ | state_simpl; rewrite lookup_insert_ne by done; apply lookup_insert_eq
          | reflexivity | lia | apply usize_range
          | change (frame_size (set_data (Ptr bd 0) f0)) with (frame_size f0); lia ];
      state_simpl; cbn [with_bytes];
      change (frame_size (set_data (Ptr bd 0) f0)) with (frame_size f0);
      rewrite splice_all by (rewrite length_replicate; lia);
      step; rewrite Hfinal by done; state_simpl;
      rewrite Hmem; reflexivity ).
Qed.

Lemma frame_size_front cfg fi v p :
  frame_size (front_surface fi (configured cfg fi v) p)
  = frame_size (front_surface fi v NULL).
Proof. unfold configured. by destruct (RECOVERY_RGB_565 cfg). Qed.

(* A successful fbdev_init ends in [init_done]. *)
Lemma fbdev_init_ok cfg k s0 p s :
  fbdev_init cfg k s0 = Ok p s → p ≠ NULL →
  ∃ fi v, fscreeninfo k = Some fi ∧ vscreeninfo k = Some v ∧
          frame_size (front_surface fi v NULL) ≤ usize (fi_smem_len fi) ∧
          s = init_done cfg k fi v s0 ∧ p = gr_draw (init_core cfg fi v s0).
Proof.
  rewrite fbdev_init_run. unfold init_outcome. intros E Hp.
  destruct (open_ok k); [| by simplify_eq].
  destruct (fscreeninfo k) as [fi|]; [| by simplify_eq].
  destruct (vscreeninfo k) as [v|]; [| by simplify_eq].
  destruct (vram k); [| by simplify_eq]. cbv zeta in E.
  case_bool_decide as Hfit; [| done].
  destruct (surface_ok k); [| by simplify_eq].
  destruct (pixels k); [| by simplify_eq].
  simplify_eq. exists fi, v. by rewrite frame_size_front in Hfit.
Qed.

(* What the tail of fbdev_init keeps of the core. *)
Lemma init_done_buffers cfg k fi v s0 :
  gr_framebuffer (init_done cfg k fi v s0) = gr_framebuffer (init_core cfg fi v s0) ∧
  double_buffered (init_done cfg k fi v s0) = double_buffered (init_core cfg fi v s0) ∧
  gr_draw (init_done cfg k fi v s0) = gr_draw (init_core cfg fi v s0) ∧
  fb_fd (init_done cfg k fi v s0) = fb_fd (init_core cfg fi v s0) ∧
  fds (init_done cfg k fi v s0) = fds (init_core cfg fi v s0) ∧
  mem (init_done cfg k fi v s0) = mem (init_core cfg fi v s0) ∧
  smem_len (init_done cfg k fi v s0) = fi_smem_len fi ∧
  displayed_buffer (init_done cfg k fi v s0)
  = if double_buffered (init_core cfg fi v s0) then 0 else displayed_buffer s0.
Proof.
  unfold init_done. cbv zeta.
  set (s1 := init_core cfg fi v s0).
  set (s2 := if double_buffered s1 then panned (pan_ok k) 0 s1 else s1).
  destruct (blank_done_buffers cfg (blank_ok k) true s2)
    as (F2 & D2 & G2 & S2 & V2 & H2 & L2 & I2 & M2).
  destruct (blank_done_buffers cfg (unblank_ok k) false
              (blank_done cfg (blank_ok k) true s2))
    as (F3 & D3 & G3 & S3 & V3 & H3 & L3 & I3 & M3).
  state_simpl. rewrite F3, F2, D3, D2, G3, G2, S3, S2, H3, H2, I3, I2, M3, M2.
  unfold s2. destruct (double_buffered s1) eqn:Hdb.
  - destruct (panned_buffers (pan_ok k) 0 s1) as (-> & -> & -> & -> & -> & _ & -> & ->).
    by rewrite Hdb.
  - by rewrite Hdb.
Qed.

(* What a session holds of the system: one descriptor and the three blocks
   [bg], [bd] and [bm], none of which existed in [s0]; every other object is
   as it was in [s0], and the mapping has the length munmap will be given. *)
Record held (s0 s : state) (bg bd bm : block) : Prop := Held {
  held_fd : ∃ fd : nat, (fd ∉ fds s0) ∧ fb_fd s = Z.of_nat fd ∧ fds s = {[fd]} ∪ fds s0;
  held_new : mem s0 !! bg = None ∧ mem s0 !! bd = None ∧ mem s0 !! bm = None;
  held_rest : ∀ b, b ≠ bg → b ≠ bd → b ≠ bm → mem s !! b = mem s0 !! b;
  held_len : ∀ vm, mem s !! bm = Some (Mapping vm) →
                   Z.of_nat (length vm) = usize (smem_len s)
}.

(* The three fresh blocks of [init_core] and what each holds. *)
Lemma init_core_blocks cfg fi v s0 :
  ∃ bg bd bm,
    bg ≠ bm ∧ bd ≠ bm ∧ bd ≠ bg ∧
    mem s0 !! bg = None ∧ mem s0 !! bd = None ∧ mem s0 !! bm = None ∧
    gr_draw (init_core cfg fi v s0) = Ptr bg 0 ∧
    (gr_framebuffer (init_core cfg fi v s0)).1
    = front_surface fi (configured cfg fi v) (Ptr bm 0) ∧
    mem (init_core cfg fi v s0)
    = <[bd := Bytes (replicate
                       (Z.to_nat (frame_size (gr_framebuffer (init_core cfg fi v s0)).1))
                       x00)]>
        (<[bg := Struct (Some (set_data (Ptr bd 0)
                                 (front_surface fi (configured cfg fi v) (Ptr bm 0))))]>
           (<[bm := Mapping (replicate (Z.to_nat (usize (fi_smem_len fi))) x00)]>
              (mem s0))).
Proof.
  unfold init_core. cbv zeta. state_simpl.
  set (zeros := replicate (Z.to_nat (usize (fi_smem_len fi))) x00).
  set (bm := fresh (dom (mem s0))).
  set (bg := fresh (dom (<[bm:=Mapping zeros]> (mem s0)))).
  set (f0 := front_surface fi (configured cfg fi v) (Ptr bm 0)).
  set (bd := fresh (dom (<[bg:=Struct (Some f0)]> (<[bm:=Mapping zeros]> (mem s0))))).
  assert (Hbm : mem s0 !! bm = None) by apply fresh_block_unused.
  assert (Hbg : (<[bm:=Mapping zeros]> (mem s0)) !! bg = None) by apply fresh_block_unused.
  assert (Hbd : (<[bg:=Struct (Some f0)]> (<[bm:=Mapping zeros]> (mem s0))) !! bd = None)
    by apply fresh_block_unused.
  assert (Hgm : bg ≠ bm) by (intros E; by rewrite E, lookup_insert_eq in Hbg).
  assert (Hdg : bd ≠ bg) by (intros E; by rewrite E, lookup_insert_eq in Hbd).
  assert (Hdm : bd ≠ bm).
  { intros E. by rewrite lookup_insert_ne, E, lookup_insert_eq in Hbd. }
  rewrite lookup_insert_ne in Hbg by done.
  rewrite !lookup_insert_ne in Hbd by done.
  exists bg, bd, bm. by repeat split.
Qed.

Lemma take_fresh_fd (fdset : gset nat) (fd : nat) :
  fd ∉ fdset → ({[fd]} ∪ fdset) ∖ {[fd]} = fdset.
Proof.
  intros Hfd. apply set_eq. intros x.
  rewrite elem_of_difference, elem_of_union, elem_of_singleton.
  split; [by intros [[-> |] ?] |]. intros Hx. split; [by right |].
  by intros ->.
Qed.

(* A successful fbdev_init starts a session that holds its resources. *)
Lemma session_start cfg k s0 p s :
  probe_wf k → fbdev_init cfg k s0 = Ok p s → p ≠ NULL →
  ∃ bg bd bm px vm,
    p = Ptr bg 0 ∧ session_inv s bg bd bm px vm ∧ held s0 s bg bd bm.
Proof.
  intros Hwf Hinit Hp.
  pose proof (fbdev_init_cases cfg k s0) as Hc. rewrite Hinit in Hc.
  destruct Hc as (_ & _ & Hc). destruct (Hc Hp) as (fi & v & Hfi & Hv & Hi).
  destruct (initialised_session cfg fi v s0 p s)
    as (bg' & bd' & bm' & px & vm & -> & Hinv & _); [by apply Hwf | done |].
  destruct (fbdev_init_ok cfg k s0 _ s Hinit Hp)
    as (fi' & v' & Hfi' & Hv' & _ & Hs & _).
  simplify_eq.
  destruct (init_done_buffers cfg k fi v s0) as (F & D & G & H & I & M & L & _).
  destruct (init_core_blocks cfg fi v s0)
    as (bg & bd & bm & Hgm & Hdm & Hdg & Ng & Nd & Nm & HG & HF & HM).
  destruct (inv_layout _ _ _ _ _ _ Hinv) as [Ldraw Lstruct _ _ Lfront _ _ _].
  rewrite G, HG in Ldraw. injection Ldraw as <-.
  rewrite F, HF in Lfront, Lstruct.
  unfold front_surface in Lfront. cbn [data] in Lfront. injection Lfront as <-.
  rewrite M, HM, lookup_insert_ne, lookup_insert_eq in Lstruct by done.
  unfold set_data, front_surface in Lstruct.
  cbn [width height row_bytes pixel_bytes format] in Lstruct.
  injection Lstruct as <-.
  exists bg, bd, bm, px, vm. split; [done |]. split; [done |].
  split.
  - exists (fresh (fds s0)). rewrite H, I. split; [apply is_fresh | done].
  - done.
  - intros b ? ? ?. rewrite M, HM. by rewrite !lookup_insert_ne.
  - intros vm' Hvm'. rewrite M, HM in Hvm'.
    rewrite !lookup_insert_ne, lookup_insert_eq in Hvm' by done.
    simplify_eq. rewrite L, length_replicate.
    pose proof (usize_range (fi_smem_len fi)). lia.
Qed.

(* The three objects of a session are determined by the state. *)
Lemma layout_unique s bg bd bm px vm bg' bd' bm' px' vm' :
  layout s bg bd bm px vm → layout s bg' bd' bm' px' vm' →
  bg' = bg ∧ bd' = bd ∧ bm' = bm ∧ px' = px ∧ vm' = vm.
Proof.
  intros [Hd Hs Hp Hm Hf _ _ _] [Hd' Hs' Hp' Hm' Hf' _ _ _].
  rewrite Hd in Hd'. injection Hd' as <-.
  rewrite Hf in Hf'. injection Hf' as <-.
  rewrite Hs in Hs'. unfold set_data in Hs'. injection Hs' as <-.
  rewrite Hp in Hp'. injection Hp' as <-.
  rewrite Hm in Hm'. by injection Hm' as <-.
Qed.

(* The variable info set_displayed_framebuffer(n) hands to the kernel. *)
Definition pan_var (n : Z) (fb0 : GRSurface) (v : fb_var_screeninfo) : fb_var_screeninfo :=
  set_bits_per_pixel (u32 (s32 (pixel_bytes fb0 * 8)))
    (set_yoffset (u32 (n * u32 (height fb0)))
       (set_yres_virtual (u32 (s32 (height fb0 * 2))) v)).

Lemma panned_display ok n s :
  vi (panned ok n s) = pan_var n (gr_framebuffer s).1 (vi s) ∧
  scanout (panned ok n s) = (if ok then Some (vi (panned ok n s)) else scanout s) ∧
  stderr (panned ok n s)
  = (if ok then stderr s else stderr s ++ ["active fb swap failed"%string]) ∧
  blanked (panned ok n s) = blanked s ∧ backlight (panned ok n s) = backlight s.
Proof. unfold panned, pan_var. by destruct ok. Qed.

Lemma blank_done_vi cfg ok blank s : vi (blank_done cfg ok blank s) = vi s.
Proof. by destruct (blank_done_buffers cfg ok blank s) as (_ & _ & _ & _ & ? & _). Qed.

Lemma blank_done_blanked cfg ok blank s :
  TW_NO_SCREEN_BLANK cfg = false →
  blanked (blank_done cfg ok blank s) = if ok then Some blank else blanked s.
Proof. intros H. unfold blank_done. rewrite H. by destruct ok. Qed.

Lemma init_core_display cfg fi v s0 :
  vi (init_core cfg fi v s0) = configured cfg fi v ∧
  stderr (init_core cfg fi v s0) = stderr s0 ∧
  scanout (init_core cfg fi v s0) = scanout s0 ∧
  blanked (init_core cfg fi v s0) = blanked s0 ∧
  backlight (init_core cfg fi v s0) = backlight s0 ∧
  displayed_buffer (init_core cfg fi v s0) = displayed_buffer s0 ∧
  double_buffered (init_core cfg fi v s0)
  = bool_decide (u32 (u32 (yres v * fi_line_length fi) * 2) ≤ fi_smem_len fi).
Proof.
  unfold init_core. cbv zeta. state_simpl. repeat split.
  unfold configured. by destruct (RECOVERY_RGB_565 cfg).
Qed.

(* The display side of a successful fbdev_init. *)
Lemma init_done_display cfg k fi v s0 :
  vi (init_done cfg k fi v s0)
  = (if double_buffered (init_core cfg fi v s0)
     then pan_var 0 (gr_framebuffer (init_core cfg fi v s0)).1 (configured cfg fi v)
     else configured cfg fi v) ∧
  scanout (init_done cfg k fi v s0)
  = (if double_buffered (init_core cfg fi v s0) && pan_ok k
     then Some (vi (init_done cfg k fi v s0)) else scanout s0) ∧
  stderr (init_done cfg k fi v s0)
  = stderr s0
    ++ (if double_buffered (init_core cfg fi v s0) && negb (pan_ok k)
        then ["active fb swap failed"%string] else [])
    ++ blank_report cfg (blank_ok k) ++ blank_report cfg (unblank_ok k) ∧
  (TW_NO_SCREEN_BLANK cfg = false →
   blanked (init_done cfg k fi v s0)
   = if unblank_ok k then Some false
     else if blank_ok k then Some true else blanked s0).
Proof.
  destruct (init_core_display cfg fi v s0) as (V & E & S & B & _ & _ & _).
  unfold init_done. cbv zeta.
  set (s1 := init_core cfg fi v s0) in *.
  set (s2 := if double_buffered s1 then panned (pan_ok k) 0 s1 else s1).
  assert (H2 : vi s2 = (if double_buffered s1
                        then pan_var 0 (gr_framebuffer s1).1 (configured cfg fi v)
                        else configured cfg fi v) ∧
               scanout s2 = (if double_buffered s1 && pan_ok k
                             then Some (vi s2) else scanout s0) ∧
               stderr s2 = stderr s0 ++
                 (if double_buffered s1 && negb (pan_ok k)
                  then ["active fb swap failed"%string] else []) ∧
               blanked s2 = blanked s0).
  { unfold s2. destruct (double_buffered s1).
    - destruct (panned_display (pan_ok k) 0 s1) as (-> & -> & -> & -> & _).
      rewrite V, E, S, B. destruct (pan_ok k); cbn; by rewrite ?app_nil_r.
    - cbn. by rewrite app_nil_r. }
  destruct H2 as (V2 & S2 & E2 & B2).
  destruct (blank_done_display cfg (blank_ok k) true s2) as [S3 E3].
  destruct (blank_done_display cfg (unblank_ok k) false
              (blank_done cfg (blank_ok k) true s2)) as [S4 E4].
  state_simpl. rewrite !blank_done_vi, S4, S3, E4, E3, E2, V2, S2.
  split; [done |]. split; [by rewrite V2 |]. split; [by rewrite <- !app_assoc |].
  intros Hno. rewrite !blank_done_blanked, B2 by done.
  by destruct (unblank_ok k), (blank_ok k).
Qed.

(** ** When fbdev_init returns *)

Lemma s32_u32_small z : u32 z < 2 ^ 31 → s32 z = u32 z.
Proof.
  intros H. pose proof (u32_range z). unfold s32, u32 in *.
  rewrite <- Z.add_mod_idemp_l by lia. rewrite Z.mod_small; lia.
Qed.

(* The frame of a device whose yres * line_length is a plain int. *)
Lemma frame_plain fi v p :
  0 ≤ yres v * fi_line_length fi < 2 ^ 31 →
  frame (front_surface fi v p) = yres v * fi_line_length fi.
Proof.
  intros H. unfold frame, front_surface. cbn [height row_bytes].
  assert (E : u32 (s32 (yres v) * s32 (fi_line_length fi)) = yres v * fi_line_length fi).
  { rewrite u32_mul_s32. apply u32_small. lia. }
  rewrite s32_u32_small; rewrite E; lia.
Qed.

(* The device describes a frame larger than the memory it maps. *)
Definition frame_overrun (k : probe) : Prop :=
  ∃ fi v, open_ok k = true ∧ fscreeninfo k = Some fi ∧ vscreeninfo k = Some v ∧
          vram k ≠ None ∧
          usize (fi_smem_len fi) < frame_size (front_surface fi v NULL).

(** X4: fbdev_init returns, with NULL or with the surface, unless the device
    was opened, described and mapped and the frame it describes,
    height * row_bytes, is larger than smem_len: then, and only then, the
    memset of line 193 runs past the end of the mapping.  In particular it
    returns whenever yres * line_length is below 2^31 and at most
    smem_len. *)
Theorem fbdev_init_defined cfg k s0 :
  (frame_overrun k ↔ fbdev_init cfg k s0 = Undefined OutOfBounds) ∧
  (¬ frame_overrun k → ∃ p s, fbdev_init cfg k s0 = Ok p s) ∧
  (∀ fi v, fscreeninfo k = Some fi → vscreeninfo k = Some v →
           0 ≤ yres v * fi_line_length fi < 2 ^ 31 →
           yres v * fi_line_length fi ≤ fi_smem_len fi < 2 ^ 32 →
           ∃ p s, fbdev_init cfg k s0 = Ok p s).
Proof.
  assert (Hcases : (frame_overrun k ∧ fbdev_init cfg k s0 = Undefined OutOfBounds) ∨
                   (¬ frame_overrun k ∧ ∃ p s, fbdev_init cfg k s0 = Ok p s)).
  { rewrite fbdev_init_run. unfold init_outcome, frame_overrun.
    destruct (open_ok k);
      [| right; split; [by intros (? & ? & ? & _) | eauto]].
    destruct (fscreeninfo k) as [fi|];
      [| right; split; [by intros (? & ? & _ & ? & _) | eauto]].
    destruct (vscreeninfo k) as [v|];
      [| right; split; [by intros (? & ? & _ & _ & ? & _) | eauto]].
    destruct (vram k) as [vr|];
      [| right; split; [by intros (? & ? & _ & _ & _ & ? & _) | eauto]].
    cbv zeta. rewrite frame_size_front. case_bool_decide as Hfit.
    - right. split.
      + intros (fi' & v' & _ & Hfi & Hv & _ & Hbig). simplify_eq. lia.
      + destruct (surface_ok k), (pixels k); eauto.
    - left. split; [| done]. exists fi, v. repeat split; try done. lia. }
  split; [| split].
  - destruct Hcases as [[Ho E] | [Hno (p & s & E)]]; [done |].
    rewrite E. split; [done | discriminate].
  - intros Hno. destruct Hcases as [[Ho _] | [_ Hret]]; done.
  - intros fi v Hfi Hv Hint Hfit.
    destruct Hcases as [[(fi' & v' & _ & Hfi' & Hv' & _ & Hbig) _] | [_ Hret]]; [| done].
    rewrite Hfi in Hfi'. rewrite Hv in Hv'.
    injection Hfi' as <-. injection Hv' as <-. exfalso.
    pose proof (frame_plain fi v NULL Hint) as Hframe.
    rewrite frame_size_frame in Hbig by (rewrite Hframe; lia).
    rewrite Hframe, usize_small in Hbig; lia.
Qed.

Lemma fbdev_init_defined_witness :
  ∃ p s, fbdev_init plain_build (panel 16) startup = Ok p s.
Proof.
  destruct (fbdev_init_defined plain_build (panel 16) startup) as (_ & _ & H).
  apply (H (FixInfo 16 8) xrgb_var); [reflexivity | reflexivity | simpl; lia ..].
Defined.

(** ** The reports of fbdev_init *)

(* The report of the first call that fails. *)
Definition init_report (k : probe) : string :=
  if open_ok k then
    match fscreeninfo k, vscreeninfo k, vram k with
    | None, _, _ | Some _, None, _ => "failed to get fb0 info"
    | Some _, Some _, None => "failed to mmap framebuffer"
    | Some _, Some _, Some _ =>
      if surface_ok k then "failed to allocate in-memory surface"
      else "failed to allocate gr_draw"
    end
  else "cannot open fb0".

(** X5: when fbdev_init returns NULL, the one report it has added to the
    error stream is that of the first call that failed, in the order open,
    FBIOGET_FSCREENINFO, FBIOGET_VSCREENINFO, mmap, the malloc of the
    surface, the malloc of its pixels; it has not touched the display: the
    panning, the blank level and the backlight are as before. *)
Theorem fbdev_init_report cfg k s0 s :
  fbdev_init cfg k s0 = Ok NULL s →
  stderr s = stderr s0 ++ [init_report k] ∧
  scanout s = scanout s0 ∧ blanked s = blanked s0 ∧ backlight s = backlight s0.
Proof.
  rewrite fbdev_init_run. unfold init_outcome, init_report. intros E.
  destruct (open_ok k); [| by simplify_eq].
  destruct (fscreeninfo k) as [fi|]; [| by simplify_eq].
  destruct (vscreeninfo k) as [v|]; [| by simplify_eq].
  destruct (vram k); [| by simplify_eq]. cbv zeta in E.
  case_bool_decide; [| done].
  destruct (surface_ok k); [| by simplify_eq].
  destruct (pixels k); by simplify_eq.
Qed.

Lemma fbdev_init_report_witness :
  ∃ s, fbdev_init plain_build starved_panel startup = Ok NULL s ∧
       stderr s = ["failed to allocate in-memory surface"%string].
Proof.
  destruct (fbdev_init plain_build starved_panel startup) as [p s |] eqn:E;
    [| vm_compute in E; discriminate E].
  assert (Hp : p = NULL).
  { pose proof E as E'. vm_compute in E'. by injection E' as <- _. }
  subst p. exists s. split; [reflexivity |].
  apply (fbdev_init_report plain_build starved_panel startup s E).
Defined.

(** ** What a successful fbdev_init sets up *)

(* The bytes of slot [t] of a session. *)
Lemma front_pixels_inv s bg bd bm px vm t :
  session_inv s bg bd bm px vm →
  t = 0 ∨ (t = 1 ∧ double_buffered s = true) →
  front_pixels t s
  = Some (slice (t * frame (gr_framebuffer s).1) (frame (gr_framebuffer s).1) vm).
Proof.
  intros [[Hd Hs Hp Hm Hf Hsize Hfits Hsecond] Hframe Hroom _] Ht.
  rewrite frame_size_frame in * by done.
  set (n := frame (gr_framebuffer s).1) in *.
  unfold front_pixels.
  assert (Efb : ∃ fb, framebuffer t s = Ok fb s ∧ data fb = Ptr bm (t * n) ∧
                      frame_size fb = n).
  { destruct Ht as [-> | [-> Hdb]].
    - rewrite framebuffer_0. eexists. split; [done |].
      rewrite Hf, frame_size_frame by done. split; [f_equal; lia | done].
    - rewrite framebuffer_1, (Hsecond Hdb). eexists. split; [done |].
      state_simpl. split; [f_equal; lia |].
      change (frame_size (set_data (Ptr bm n) (gr_framebuffer s).1))
        with (frame_size (gr_framebuffer s).1). by apply frame_size_frame. }
  destruct Efb as (fb & -> & -> & ->).
  erewrite span_ok; [done | done | done | ..];
    destruct Ht as [-> | [-> Hdb]]; try specialize (Hroom Hdb); lia.
Qed.

Lemma slice_zeros (off n : Z) (N : nat) :
  0 ≤ off → 0 ≤ n → off + n ≤ Z.of_nat N →
  slice off n (replicate N x00) = replicate (Z.to_nat n) x00.
Proof.
  intros. unfold slice. rewrite drop_replicate, take_replicate. f_equal. lia.
Qed.

(* The session a successful fbdev_init starts, with its buffers cleared. *)
Lemma session_cleared cfg k s0 p s :
  probe_wf k → fbdev_init cfg k s0 = Ok p s → p ≠ NULL →
  ∃ fi bg bd bm,
    fscreeninfo k = Some fi ∧ p = Ptr bg 0 ∧
    session_inv s bg bd bm
      (replicate (Z.to_nat (frame (gr_framebuffer s).1)) x00)
      (replicate (Z.to_nat (fi_smem_len fi)) x00).
Proof.
  intros Hwf Hinit Hp.
  pose proof (fbdev_init_cases cfg k s0) as Hc. rewrite Hinit in Hc.
  destruct Hc as (_ & _ & Hc). destruct (Hc Hp) as (fi & v & Hfi & Hv & Hi).
  destruct (initialised_session cfg fi v s0 p s)
    as (bg & bd & bm & px & vm & -> & Hinv & _); [by apply Hwf | done |].
  destruct Hi as [(bg' & bd' & bm' & _ & Hlay & _) _ _ _].
  destruct (layout_unique _ _ _ _ _ _ _ _ _ _ _ Hlay (inv_layout _ _ _ _ _ _ Hinv))
    as (-> & -> & -> & -> & ->).
  exists fi, bg', bd', bm'. split; [done |]. split; [done |].
  rewrite <- (frame_size_frame (gr_framebuffer s).1) by apply Hinv.
  rewrite <- (usize_small (fi_smem_len fi)); [done |].
  destruct (proj1 Hwf fi Hfi) as [[? ?] _]. lia.
Qed.

(** X6: a successful fbdev_init leaves everything black.  The frame size
    height * row_bytes is a non-negative int; the drawing surface holds that
    many zero bytes, and so does front buffer 0 and, when double buffered,
    front buffer 1; both front buffers lie inside the mapping, whose
    smem_len bytes are all zero. *)
Theorem fbdev_init_clears cfg k s0 p s :
  probe_wf k → fbdev_init cfg k s0 = Ok p s → p ≠ NULL →
  ∃ (n : nat) fi bm,
    Z.of_nat n = frame (gr_framebuffer s).1 ∧
    draw_pixels s = Some (replicate n x00) ∧
    front_pixels 0 s = Some (replicate n x00) ∧
    (double_buffered s = true → front_pixels 1 s = Some (replicate n x00)) ∧
    fscreeninfo k = Some fi ∧ data (gr_framebuffer s).1 = Ptr bm 0 ∧
    mem s !! bm = Some (Mapping (replicate (Z.to_nat (fi_smem_len fi)) x00)).
Proof.
  intros Hwf Hinit Hp.
  destruct (session_cleared cfg k s0 p s Hwf Hinit Hp)
    as (fi & bg & bd & bm & Hfi & -> & Hinv).
  pose proof Hinv as [[_ _ _ Hm Hf _ Hfits _] Hframe Hroom _].
  rewrite frame_size_frame, length_replicate in Hfits by done.
  rewrite length_replicate in Hroom.
  set (n := frame (gr_framebuffer s).1) in *.
  exists (Z.to_nat n), fi, bm.
  split; [lia |]. split; [by apply (draw_pixels_inv s bg bd bm _ _ Hinv) |].
  split; [| split; [| done]].
  - rewrite (front_pixels_inv s bg bd bm _ _ 0 Hinv) by auto. fold n.
    f_equal. apply slice_zeros; lia.
  - intros Hdb. specialize (Hroom Hdb).
    rewrite (front_pixels_inv s bg bd bm _ _ 1 Hinv) by auto. fold n.
    f_equal. apply slice_zeros; lia.
Qed.

Lemma fbdev_init_clears_witness :
  ∃ (n : nat) fi bm,
    Z.of_nat n = frame (gr_framebuffer demo_double).1 ∧
    draw_pixels demo_double = Some (replicate n x00) ∧
    front_pixels 0 demo_double = Some (replicate n x00) ∧
    (double_buffered demo_double = true →
     front_pixels 1 demo_double = Some (replicate n x00)) ∧
    fscreeninfo (panel 16) = Some fi ∧
    data (gr_framebuffer demo_double).1 = Ptr bm 0 ∧
    mem demo_double !! bm = Some (Mapping (replicate (Z.to_nat (fi_smem_len fi)) x00)).
Proof.
  apply (fbdev_init_clears plain_build (panel 16) startup (Ptr 1%nat 0) demo_double).
  - apply panel_wf. unfold is_u32. lia.
  - vm_compute. reflexivity.
  - discriminate.
Defined.

Lemma init_core_fd cfg fi v s0 :
  fds (init_core cfg fi v s0) = {[fresh (fds s0)]} ∪ fds s0 ∧
  fb_fd (init_core cfg fi v s0) = Z.of_nat (fresh (fds s0)).
Proof. done. Qed.

(* A build that forces the 16-bit format. *)
Definition rgb_565_build : build := Build true false false None.

(** X7: built with RECOVERY_RGB_565, a successful fbdev_init ignores the
    layout the device reports: front buffer and drawing surface carry the
    tag RGB_565 and two bytes per pixel, and the variable info kept for the
    later FBIOPUT_VSCREENINFO calls names 16 bits per pixel, red at bit 11
    (5 bits), green at bit 5 (6 bits), blue at bit 0 (5 bits), no alpha and
    a virtual width of line_length / 2 pixels.  Rows keep the line length
    the device reported. *)
Theorem rgb_565_forced cfg k s0 p s :
  RECOVERY_RGB_565 cfg = true → fbdev_init cfg k s0 = Ok p s → p ≠ NULL →
  format (gr_framebuffer s).1 = GGL_PIXEL_FORMAT_RGB_565 ∧
  pixel_bytes (gr_framebuffer s).1 = 2 ∧
  (∃ g, read_surface p s = Ok g s ∧ format g = GGL_PIXEL_FORMAT_RGB_565 ∧
        pixel_bytes g = 2) ∧
  bits_per_pixel (vi s) = 16 ∧
  red (vi s) = Bitfield 11 5 0 ∧ green (vi s) = Bitfield 5 6 0 ∧
  blue (vi s) = Bitfield 0 5 0 ∧
  bf_offset (transp (vi s)) = 0 ∧ bf_length (transp (vi s)) = 0 ∧
  ∃ fi, fscreeninfo k = Some fi ∧
        xres_virtual (vi s) = fi_line_length fi / 2 ∧
        row_bytes (gr_framebuffer s).1 = s32 (fi_line_length fi).
Proof.
  intros Hforce Hinit Hp.
  destruct (fbdev_init_ok cfg k s0 p s Hinit Hp) as (fi & v & Hfi & Hv & _ & -> & ->).
  destruct (init_done_buffers cfg k fi v s0) as (F & _ & G & _ & _ & M & _).
  destruct (init_core_blocks cfg fi v s0)
    as (bg & bd & bm & Hgm & Hdm & Hdg & _ & _ & _ & HG & HF & HM).
  destruct (init_done_display cfg k fi v s0) as (V & _).
  rewrite F, HF, V.
  assert (Hcfg : configured cfg fi v = force_rgb_565 fi v)
    by (unfold configured; by rewrite Hforce).
  rewrite Hcfg in *.
  assert (Hbytes : pixel_bytes (front_surface fi (force_rgb_565 fi v) (Ptr bm 0)) = 2)
    by (by vm_compute).
  split; [done |]. split; [done |]. split.
  { eexists. rewrite HG. split.
    - apply read_surface_run. rewrite M, HM.
      rewrite lookup_insert_ne by done. apply lookup_insert_eq.
    - split; [done | exact Hbytes]. }
  assert (Hbits : bits_per_pixel
                    (pan_var 0 (gr_framebuffer (init_core cfg fi v s0)).1
                       (force_rgb_565 fi v)) = 16).
  { unfold pan_var. cbn [bits_per_pixel set_bits_per_pixel]. rewrite HF, Hbytes.
    by vm_compute. }
  destruct (double_buffered (init_core cfg fi v s0)); repeat split; eauto.
Qed.

Lemma rgb_565_forced_witness :
  ∃ p s, fbdev_init rgb_565_build (panel 16) startup = Ok p s ∧
         format (gr_framebuffer s).1 = GGL_PIXEL_FORMAT_RGB_565 ∧
         pixel_bytes (gr_framebuffer s).1 = 2.
Proof.
  destruct (fbdev_init rgb_565_build (panel 16) startup) as [p s |] eqn:E;
    [| vm_compute in E; discriminate E].
  exists p, s. split; [reflexivity |].
  destruct (rgb_565_forced rgb_565_build (panel 16) startup p s eq_refl E)
    as (H1 & H2 & _).
  - intros ->. vm_compute in E. discriminate E.
  - split; [exact H1 | exact H2].
Defined.

(** X8: what a successful fbdev_init takes from the system: one descriptor
    that was not open before, kept in fb_fd, and three objects at addresses
    that were not in use: the mapping of the device, the surface header the
    returned pointer names, and the pixel array the header points to.  Every
    other descriptor and object is as before the call (a backlight
    descriptor is closed again), and smem_len records the mapped length. *)
Theorem fbdev_init_acquires cfg k s0 p s :
  fbdev_init cfg k s0 = Ok p s → p ≠ NULL →
  ∃ (fd : nat) bg bd bm g zs zm,
    (fd ∉ fds s0) ∧ fds s = {[fd]} ∪ fds s0 ∧ fb_fd s = Z.of_nat fd ∧
    p = Ptr bg 0 ∧ gr_draw s = p ∧
    bg ≠ bm ∧ bd ≠ bm ∧ bd ≠ bg ∧
    mem s0 !! bg = None ∧ mem s0 !! bd = None ∧ mem s0 !! bm = None ∧
    mem s = <[bd := Bytes zs]> (<[bg := Struct (Some g)]> (<[bm := Mapping zm]> (mem s0))) ∧
    data g = Ptr bd 0 ∧ data (gr_framebuffer s).1 = Ptr bm 0 ∧
    Z.of_nat (length zm) = usize (smem_len s).
Proof.
  intros Hinit Hp.
  destruct (fbdev_init_ok cfg k s0 p s Hinit Hp) as (fi & v & Hfi & Hv & _ & -> & ->).
  destruct (init_done_buffers cfg k fi v s0) as (F & _ & G & H & I & M & L & _).
  destruct (init_core_blocks cfg fi v s0)
    as (bg & bd & bm & Hgm & Hdm & Hdg & Ng & Nd & Nm & HG & HF & HM).
  destruct (init_core_fd cfg fi v s0) as [HI HH].
  exists (fresh (fds s0)), bg, bd, bm. eexists _, _, _.
  rewrite I, H, G, M, F, L, HI, HH, HG, HF, HM.
  split; [apply is_fresh |]. repeat (split; [done |]).
  rewrite length_replicate. pose proof (usize_range (fi_smem_len fi)). lia.
Qed.

Lemma fbdev_init_acquires_witness :
  ∃ p s (fd : nat),
    fbdev_init plain_build (panel 16) startup = Ok p s ∧
    (fd ∉ fds startup) ∧ fds s = {[fd]} ∪ fds startup ∧ fb_fd s = Z.of_nat fd.
Proof.
  destruct (fbdev_init plain_build (panel 16) startup) as [p s |] eqn:E;
    [| vm_compute in E; discriminate E].
  destruct (fbdev_init_acquires plain_build (panel 16) startup p s E)
    as (fd & bg & bd & bm & g & zs & zm & H1 & H2 & H3 & _).
  - intros ->. vm_compute in E. discriminate E.
  - exists p, s, fd. repeat split; assumption.
Defined.

(** X9: the display side of a successful fbdev_init.  It returns the
    surface whatever the three display calls answer, and reports exactly the
    ones that failed, in the order FBIOPUT_VSCREENINFO (issued only when
    double buffered), blank, unblank.  When double buffered and the pan is
    accepted the controller scans out slot 0: y offset 0 of a virtual screen
    twice the height; otherwise the panning is as before.  Built without
    TW_NO_SCREEN_BLANK, the panel ends unblanked if the second FBIOBLANK
    succeeded, blanked if only the first did. *)
Theorem fbdev_init_display cfg k s0 p s :
  fbdev_init cfg k s0 = Ok p s → p ≠ NULL →
  stderr s
  = stderr s0
    ++ (if double_buffered s && negb (pan_ok k)
        then ["active fb swap failed"%string] else [])
    ++ blank_report cfg (blank_ok k) ++ blank_report cfg (unblank_ok k) ∧
  scanout s = (if double_buffered s && pan_ok k then Some (vi s) else scanout s0) ∧
  (double_buffered s = true →
   yoffset (vi s) = 0 ∧
   yres_virtual (vi s) = u32 (height (gr_framebuffer s).1 * 2) ∧
   bits_per_pixel (vi s) = u32 (pixel_bytes (gr_framebuffer s).1 * 8)) ∧
  (TW_NO_SCREEN_BLANK cfg = false →
   blanked s = if unblank_ok k then Some false
               else if blank_ok k then Some true else blanked s0).
Proof.
  intros Hinit Hp.
  destruct (fbdev_init_ok cfg k s0 p s Hinit Hp) as (fi & v & Hfi & Hv & _ & -> & ->).
  destruct (init_done_buffers cfg k fi v s0) as (F & D & _).
  destruct (init_done_display cfg k fi v s0) as (V & S & E & B).
  rewrite D, F. split; [done |]. split; [done |]. split; [| done].
  intros Hdb. rewrite V, Hdb. unfold pan_var. cbn. by rewrite !u32_s32.
Qed.

Lemma fbdev_init_display_witness :
  ∃ p s, fbdev_init plain_build (panel 16) startup = Ok p s ∧
         stderr s = [] ∧ scanout s = Some (vi s) ∧ blanked s = Some false.
Proof.
  destruct (fbdev_init plain_build (panel 16) startup) as [p s |] eqn:E;
    [| vm_compute in E; discriminate E].
  assert (Hdb : double_buffered s = true).
  { pose proof E as E'. vm_compute in E'. by injection E' as _ <-. }
  destruct (fbdev_init_display plain_build (panel 16) startup p s E)
    as (H1 & H2 & _ & H4).
  - intros ->. vm_compute in E. discriminate E.
  - exists p, s. split; [reflexivity |].
    rewrite Hdb in H1, H2. split; [exact H1 |]. split; [exact H2 |].
    exact (H4 eq_refl).
Defined.

Lemma init_core_second cfg fi v s0 :
  double_buffered (init_core cfg fi v s0) = true →
  (gr_framebuffer (init_core cfg fi v s0)).2
  = set_data (ptr_add (data (gr_framebuffer (init_core cfg fi v s0)).1)
                      (frame (gr_framebuffer (init_core cfg fi v s0)).1))
             (gr_framebuffer (init_core cfg fi v s0)).1.
Proof.
  unfold init_core. cbv zeta.
  cbn [gr_framebuffer double_buffered set_fb_fd set_fds set_mem set_gr_draw
       set_double_buffered set_gr_framebuffer fst snd].
  by intros ->.
Qed.

(** X10: the surface a successful fbdev_init returns.  Its header is a copy
    of front buffer 0 with a pixel array of its own: width, height and row
    length are xres, yres and line_length as the device reported them
    (converted to int), the pixel size is bits_per_pixel / 8, rounded down,
    and the format tag is the one chosen from the variable info.  When
    double buffered, front buffer 1 is front buffer 0 moved up by one frame
    of height * row_bytes bytes. *)
Theorem fbdev_init_geometry cfg k s0 p s :
  fbdev_init cfg k s0 = Ok p s → p ≠ NULL →
  ∃ fi v g,
    fscreeninfo k = Some fi ∧ vscreeninfo k = Some v ∧
    read_surface p s = Ok g s ∧
    width g = s32 (xres v) ∧ height g = s32 (yres v) ∧
    row_bytes g = s32 (fi_line_length fi) ∧
    pixel_bytes g = s32 (bits_per_pixel (configured cfg fi v) / 8) ∧
    format g = pixel_format_of (configured cfg fi v) ∧
    (gr_framebuffer s).1 = set_data (data (gr_framebuffer s).1) g ∧
    data g ≠ data (gr_framebuffer s).1 ∧
    (double_buffered s = true →
     (gr_framebuffer s).2
     = set_data (ptr_add (data (gr_framebuffer s).1) (frame (gr_framebuffer s).1))
                (gr_framebuffer s).1).
Proof.
  intros Hinit Hp.
  destruct (fbdev_init_ok cfg k s0 p s Hinit Hp) as (fi & v & Hfi & Hv & _ & -> & ->).
  destruct (init_done_buffers cfg k fi v s0) as (F & D & G & _ & _ & M & _).
  destruct (init_core_blocks cfg fi v s0)
    as (bg & bd & bm & Hgm & Hdm & Hdg & _ & _ & _ & HG & HF & HM).
  assert (Hyres : yres (configured cfg fi v) = yres v).
  { unfold configured. by destruct (RECOVERY_RGB_565 cfg). }
  assert (Hxres : xres (configured cfg fi v) = xres v).
  { unfold configured. by destruct (RECOVERY_RGB_565 cfg). }
  exists fi, v, (set_data (Ptr bd 0) (front_surface fi (configured cfg fi v) (Ptr bm 0))).
  split; [done |]. split; [done |].
  split.
  { rewrite HG. apply read_surface_run. rewrite M, HM.
    rewrite lookup_insert_ne by done. apply lookup_insert_eq. }
  split; [by rewrite <- Hxres |]. split; [by rewrite <- Hyres |].
  do 3 (split; [done |]).
  rewrite F, D. split; [by rewrite HF |].
  split; [rewrite HF; cbn; congruence |].
  apply init_core_second.
Qed.

Lemma fbdev_init_geometry_witness :
  ∃ p s g, fbdev_init plain_build (panel 16) startup = Ok p s ∧
           read_surface p s = Ok g s ∧
           width g = 2 ∧ height g = 1 ∧ row_bytes g = 8 ∧ pixel_bytes g = 4.
Proof.
  destruct (fbdev_init plain_build (panel 16) startup) as [p s |] eqn:E;
    [| vm_compute in E; discriminate E].
  destruct (fbdev_init_geometry plain_build (panel 16) startup p s E)
    as (fi & v & g & Hfi & Hv & H1 & H2 & H3 & H4 & H5 & _).
  - intros ->. vm_compute in E. discriminate E.
  - injection Hfi as <-. injection Hv as <-.
    exists p, s, g. split; [reflexivity |]. split; [exact H1 |].
    split; [exact H2 |]. split; [exact H3 |]. split; [exact H4 | exact H5].
Defined.

(** ** A whole session: painting and committing between init and exit *)

Inductive action :=
  | Paint (px : list byte)
  | Commit (ok : bool).

Definition perform (cfg : build) (a : action) : prog unit :=
  match a with
  | Paint px => paint px
  | Commit ok => fbdev_flip cfg ok;; mret tt
  end.

Fixpoint play (cfg : build) (acts : list action) : prog unit :=
  match acts with
  | [] => mret tt
  | a :: acts => perform cfg a;; play cfg acts
  end.

(* From [s] to [s'] nothing has changed but the bytes of the pixel array
   [bd] and of the mapping [bm], the displayed slot, the variable info, the
   error stream and the controller. *)
Record steady (bd bm : block) (s s' : state) : Prop := Steady {
  st_fb : gr_framebuffer s' = gr_framebuffer s;
  st_db : double_buffered s' = double_buffered s;
  st_draw : gr_draw s' = gr_draw s;
  st_fd : fb_fd s' = fb_fd s;
  st_len : smem_len s' = smem_len s;
  st_fds : fds s' = fds s;
  st_rest : ∀ b, b ≠ bd → b ≠ bm → mem s' !! b = mem s !! b;
  st_pixels : ∀ l, mem s !! bd = Some (Bytes l) →
                   ∃ l', mem s' !! bd = Some (Bytes l') ∧ length l' = length l;
  st_mapping : ∀ l, mem s !! bm = Some (Mapping l) →
                    ∃ l', mem s' !! bm = Some (Mapping l') ∧ length l' = length l
}.

Lemma steady_refl bd bm s : steady bd bm s s.
Proof. split; eauto. Qed.

Lemma steady_trans bd bm s1 s2 s3 :
  steady bd bm s1 s2 → steady bd bm s2 s3 → steady bd bm s1 s3.
Proof.
  intros [] []. split; try congruence.
  - intros b ? ?. rewrite st_rest1, st_rest0; done.
  - intros l Hl. destruct (st_pixels0 l Hl) as (l' & Hl' & E).
    destruct (st_pixels1 l' Hl') as (l'' & Hl'' & E'). exists l''.
    split; [done | congruence].
  - intros l Hl. destruct (st_mapping0 l Hl) as (l' & Hl' & E).
    destruct (st_mapping1 l' Hl') as (l'' & Hl'' & E'). exists l''.
    split; [done | congruence].
Qed.

Lemma steady_repainted s bd bm px' :
  bd ≠ bm → (∀ l, mem s !! bd = Some (Bytes l) → length px' = length l) →
  steady bd bm s (set_mem (<[bd := Bytes px']> (mem s)) s).
Proof.
  intros Hne Hlen. split; state_simpl; try done.
  - intros b ? ?. by rewrite lookup_insert_ne.
  - intros l Hl. exists px'. rewrite lookup_insert_eq. split; [done | by apply Hlen].
  - intros l Hl. exists l. by rewrite lookup_insert_ne.
Qed.

Lemma steady_committed s bg bd bm px px' vm t :
  session_inv s bg bd bm px vm → length px' = length px →
  t = 0 ∨ (t = 1 ∧ double_buffered s = true) →
  steady bd bm s (committed bd bm px' vm t s).
Proof.
  intros [[Hd Hs Hp Hm Hf Hsize Hfits Hsecond] Hframe Hroom _] Hlen Ht.
  assert (bd ≠ bm) by (intros ->; congruence).
  rewrite frame_size_frame in * by done.
  unfold committed. split; state_simpl; try done.
  - intros b ? ?. by rewrite !lookup_insert_ne.
  - intros l Hl. exists px'. rewrite lookup_insert_ne, lookup_insert_eq by done.
    split; [done | congruence].
  - intros l Hl. eexists. rewrite lookup_insert_eq. split; [done |].
    rewrite Hm in Hl. injection Hl as <-.
    apply length_splice; destruct Ht as [-> | [-> Hdb]];
      try specialize (Hroom Hdb); lia.
Qed.

Lemma steady_panned bd bm ok n s : steady bd bm s (panned ok n s).
Proof.
  destruct (panned_buffers ok n s) as (F & D & G & _ & H & L & I & M).
  split; rewrite ?M; eauto.
Qed.

(* One step of a session keeps its invariant and its shape. *)
Lemma perform_inv cfg a s s' bg bd bm px vm :
  session_inv s bg bd bm px vm → perform cfg a s = Ok tt s' →
  ∃ px' vm', session_inv s' bg bd bm px' vm' ∧ steady bd bm s s'.
Proof.
  intros Hinv E.
  pose proof Hinv as [[Hd Hs Hp Hm Hf Hsize Hfits Hsecond] Hframe Hroom Hshown].
  assert (Hne : bd ≠ bm) by (intros ->; congruence).
  destruct a as [new | ok]; cbn [perform] in E.
  - destruct (decide (length new ≤ length px)%nat) as [Hlen | Hlen].
    + rewrite (paint_run s bg bd bm px vm) in E by done. simplify_eq.
      assert (Hl : length (splice 0 new px) = length px) by (apply length_splice; lia).
      exists (splice 0 new px), vm. split.
      * by apply (repainted_inv s bg bd bm px).
      * apply steady_repainted; [done |]. intros l Hl'. congruence.
    + rewrite (paint_too_long s bg bd bm px vm) in E by (done || lia). done.
  - rewrite bind_unfold, (fbdev_flip_run cfg ok s bg bd bm px vm Hinv) in E.
    destruct (double_buffered s) eqn:Hdb.
    + destruct (if RECOVERY_BGRA cfg then swap_rb px else Some px)
        as [px' |] eqn:Hpx'; [| done].
      rewrite mret_run in E. simplify_eq.
      assert (Hlen : length px' = length px).
      { destruct (RECOVERY_BGRA cfg); [by apply swap_rb_length | by simplify_eq]. }
      assert (Ht : 1 - displayed_buffer s = 0 ∨
                   (1 - displayed_buffer s = 1 ∧ true = true)).
      { destruct (Hshown eq_refl) as [-> | ->]; auto. }
      exists px'. eexists. split.
      * apply panned_inv.
        -- apply (committed_inv s bg bd bm px); [done | done |]. by rewrite Hdb.
        -- destruct (Hshown eq_refl) as [-> | ->]; auto.
      * eapply steady_trans; [| apply steady_panned].
        apply (steady_committed s bg bd bm px); [done | done |]. by rewrite Hdb.
    + rewrite mret_run in E. simplify_eq. exists px. eexists. split.
      * apply (committed_inv s bg bd bm px); auto.
      * apply (steady_committed s bg bd bm px); auto.
Qed.

Lemma play_inv cfg acts : ∀ s s' bg bd bm px vm,
  session_inv s bg bd bm px vm → play cfg acts s = Ok tt s' →
  ∃ px' vm', session_inv s' bg bd bm px' vm' ∧ steady bd bm s s'.
Proof.
  induction acts as [| a acts IH]; intros s s' bg bd bm px vm Hinv E; cbn [play] in E.
  - rewrite mret_run in E. simplify_eq. exists px, vm. split; [done | apply steady_refl].
  - rewrite bind_unfold in E.
    destruct (perform cfg a s) as [[] s1 |] eqn:E1; [| done].
    destruct (perform_inv cfg a s s1 bg bd bm px vm Hinv E1) as (px1 & vm1 & Hinv1 & St1).
    destruct (IH s1 s' bg bd bm px1 vm1 Hinv1 E) as (px' & vm' & Hinv' & St').
    exists px', vm'. split; [done |]. by eapply steady_trans.
Qed.

Lemma held_steady s0 s s' bg bd bm vm :
  held s0 s bg bd bm → mem s !! bm = Some (Mapping vm) → steady bd bm s s' →
  held s0 s' bg bd bm.
Proof.
  intros [Hfd Hnew Hrest Hlen] Hm [].
  split; [| done | |].
  - destruct Hfd as (fd & ? & ? & ?). exists fd. rewrite st_fd0, st_fds0. done.
  - intros b ? ? ?. rewrite st_rest0 by done. by apply Hrest.
  - intros vm' Hvm'. destruct (st_mapping0 vm Hm) as (l' & Hl' & E).
    rewrite Hvm' in Hl'. injection Hl' as <-. rewrite E, st_len0. by apply Hlen.
Qed.

(** ** fbdev_exit *)

Lemma free_run b o s :
  mem s !! b = Some o → bytes_of o = None ∨ (∃ l, o = Bytes l) →
  free (Ptr b 0) s = Ok tt (set_mem (delete b (mem s)) s).
Proof.
  intros Hb Ho. unfold free. rewrite Hb.
  destruct o; try done; destruct Ho as [? | [? ?]]; done.
Qed.

Lemma munmap_run b l len s :
  mem s !! b = Some (Mapping l) → Z.of_nat (length l) = len →
  sys_munmap (Ptr b 0) len s = Ok tt (set_mem (delete b (mem s)) s).
Proof.
  intros Hb Hlen. unfold sys_munmap. rewrite modify_run, Hb.
  by rewrite bool_decide_eq_true_2.
Qed.

(* munmap of an address at which nothing is mapped. *)
Lemma munmap_nothing p len s :
  (∀ b off, p = Ptr b off → mem s !! b = None) →
  sys_munmap p len s = Ok tt s.
Proof.
  intros Hp. unfold sys_munmap. rewrite modify_run.
  destruct p as [| b off]; [done |]. by rewrite (Hp b off).
Qed.

(* fbdev_exit at any point of a session gives back what fbdev_init took. *)
Lemma fbdev_exit_session s0 s bg bd bm px vm :
  session_inv s bg bd bm px vm → held s0 s bg bd bm →
  ∃ s', fbdev_exit s = Ok tt s' ∧
        fds s' = fds s0 ∧ mem s' = mem s0 ∧ gr_draw s' = NULL ∧ fb_fd s' = -1 ∧
        gr_framebuffer s' = gr_framebuffer s ∧ smem_len s' = smem_len s ∧
        stderr s' = stderr s.
Proof.
  intros [[Hd Hs Hp Hm Hf Hsize Hfits Hsecond] Hframe Hroom Hshown]
         [(fd & Hfresh & Hfd & Hfds) (Ng & Nd & Nm) Hrest Hlen].
  assert (bd ≠ bm) by (intros ->; congruence).
  assert (bg ≠ bm) by (intros ->; congruence).
  assert (bg ≠ bd) by (intros ->; congruence).
  unfold fbdev_exit. rewrite exec_gets, Hfd, exec_close, exec_modify, exec_gets.
  state_simpl. rewrite Hd. cbn [is_null].
  rewrite bind_unfold, bind_unfold.
  erewrite read_surface_run; [ | state_simpl; exact Hs ]. state_simpl.
  erewrite exec_free; [ | state_simpl; exact Hp | right; eauto ].
  erewrite free_run;
    [ | state_simpl; rewrite lookup_delete_ne by done; exact Hs | by left ].
  state_simpl. rewrite exec_modify, bind_unfold, framebuffer_0, exec_gets.
  state_simpl. rewrite Hf.
  erewrite munmap_run;
    [ | state_simpl; rewrite !lookup_delete_ne by done; exact Hm
      | by apply Hlen ].
  eexists. split; [done |]. state_simpl.
  split; [rewrite Hfds; by apply take_fresh_fd |].
  split; [| done].
  apply map_eq. intros b.
  destruct (decide (b = bm)) as [-> |]; [by rewrite lookup_delete_eq |].
  rewrite lookup_delete_ne by done.
  destruct (decide (b = bg)) as [-> |]; [by rewrite lookup_delete_eq |].
  rewrite lookup_delete_ne by done.
  destruct (decide (b = bd)) as [-> |]; [by rewrite lookup_delete_eq |].
  rewrite lookup_delete_ne by done. by apply Hrest.
Qed.

(* fbdev_exit on a backend that holds nothing. *)
Lemma fbdev_exit_nothing s :
  fb_fd s = -1 → gr_draw s = NULL →
  (∀ b off, data (gr_framebuffer s).1 = Ptr b off → mem s !! b = None) →
  fbdev_exit s = Ok tt s.
Proof.
  intros Hfd Hdraw Hmap. unfold fbdev_exit, sys_close.
  rewrite exec_gets, exec_modify, exec_modify, exec_gets.
  rewrite Hfd, bool_decide_eq_false_2 by lia. state_simpl.
  rewrite Hdraw. cbn [is_null]. rewrite exec_mret, exec_modify.
  rewrite bind_unfold, framebuffer_0, exec_gets. state_simpl.
  rewrite munmap_nothing by (state_simpl; exact Hmap).
  destruct s. state_simpl. by subst.
Qed.

(** X11: fbdev_exit gives back what fbdev_init took.  After a successful
    fbdev_init and any sequence of paints and commits that returns,
    fbdev_exit returns too: the open descriptors and the live objects are
    again exactly those from before fbdev_init, gr_draw is NULL and fb_fd is
    -1.  A second fbdev_exit changes nothing. *)
Theorem exit_releases_session cfg k s0 p s1 acts s :
  probe_wf k → fbdev_init cfg k s0 = Ok p s1 → p ≠ NULL →
  play cfg acts s1 = Ok tt s →
  ∃ s', fbdev_exit s = Ok tt s' ∧
        fds s' = fds s0 ∧ mem s' = mem s0 ∧ gr_draw s' = NULL ∧ fb_fd s' = -1 ∧
        fbdev_exit s' = Ok tt s'.
Proof.
  intros Hwf Hinit Hp Hplay.
  destruct (session_start cfg k s0 p s1 Hwf Hinit Hp)
    as (bg & bd & bm & px & vm & -> & Hinv1 & Hheld1).
  destruct (play_inv cfg acts s1 s bg bd bm px vm Hinv1 Hplay)
    as (px' & vm' & Hinv & Hsteady).
  pose proof (held_steady s0 s1 s bg bd bm vm Hheld1
                (lay_mapping _ _ _ _ _ _ (inv_layout _ _ _ _ _ _ Hinv1)) Hsteady)
    as Hheld.
  destruct (fbdev_exit_session s0 s bg bd bm px' vm' Hinv Hheld)
    as (s' & E & Hfds & Hmem & Hdraw & Hfd & Hfb & _).
  exists s'. repeat (split; [done |]).
  apply fbdev_exit_nothing; [done | done |].
  intros b off Hb. rewrite Hfb in Hb.
  rewrite (lay_front _ _ _ _ _ _ (inv_layout _ _ _ _ _ _ Hinv)) in Hb.
  injection Hb as <- _. rewrite Hmem. apply Hheld.
Qed.

Lemma exit_releases_session_witness :
  ∃ s s', play plain_build [Paint eight_bytes; Commit true; Commit false] demo_double
          = Ok tt s ∧
          fbdev_exit s = Ok tt s' ∧ fds s' = fds startup ∧ mem s' = mem startup.
Proof.
  destruct (play plain_build [Paint eight_bytes; Commit true; Commit false] demo_double)
    as [[] s |] eqn:E; [| vm_compute in E; discriminate E].
  destruct (exit_releases_session plain_build (panel 16) startup (Ptr 1%nat 0)
              demo_double [Paint eight_bytes; Commit true; Commit false] s)
    as (s' & H1 & H2 & H3 & _).
  - apply panel_wf. unfold is_u32. lia.
  - vm_compute. reflexivity.
  - discriminate.
  - exact E.
  - exists s, s'. repeat split; assumption.
Defined.

(** X12: fbdev_exit on a backend that holds nothing, because fbdev_init was
    never called or fbdev_exit has already run, changes nothing: close(-1)
    and munmap of an address where nothing is mapped fail without effect,
    and nothing is freed when gr_draw is NULL. *)
Theorem fbdev_exit_idle s :
  fb_fd s = -1 → gr_draw s = NULL →
  (∀ b off, data (gr_framebuffer s).1 = Ptr b off → mem s !! b = None) →
  fbdev_exit s = Ok tt s.
Proof. apply fbdev_exit_nothing. Qed.

Lemma fbdev_exit_idle_witness : fbdev_exit startup = Ok tt startup.
Proof.
  apply (fbdev_exit_idle startup); [reflexivity | reflexivity |].
  intros b off H. discriminate H.
Defined.

(** X13: between fbdev_init and fbdev_exit, painting and committing never
    change the geometry of the front buffers, the buffering mode, the
    drawing handle, the descriptor, the recorded length or the set of open
    descriptors; the surface header stays as fbdev_init wrote it, and no
    object is created or destroyed. *)
Theorem session_keeps_shape cfg k s0 p s1 acts s :
  probe_wf k → fbdev_init cfg k s0 = Ok p s1 → p ≠ NULL →
  play cfg acts s1 = Ok tt s →
  gr_framebuffer s = gr_framebuffer s1 ∧ double_buffered s = double_buffered s1 ∧
  gr_draw s = p ∧ fb_fd s = fb_fd s1 ∧ smem_len s = smem_len s1 ∧
  fds s = fds s1 ∧
  (∃ g, read_surface p s1 = Ok g s1 ∧ read_surface p s = Ok g s) ∧
  (∀ b, is_Some (mem s !! b) ↔ is_Some (mem s1 !! b)) ∧
  length <$> draw_pixels s = length <$> draw_pixels s1.
Proof.
  intros Hwf Hinit Hp Hplay.
  destruct (session_start cfg k s0 p s1 Hwf Hinit Hp)
    as (bg & bd & bm & px & vm & -> & Hinv1 & _).
  destruct (play_inv cfg acts s1 s bg bd bm px vm Hinv1 Hplay)
    as (px' & vm' & Hinv & [F D G H L I Hrest Hpx Hvm]).
  pose proof (inv_layout _ _ _ _ _ _ Hinv1) as [Hd1 Hs1 Hp1 Hm1 _ Hsz1 _ _].
  pose proof (inv_layout _ _ _ _ _ _ Hinv) as [Hd Hs Hp' Hm _ Hsz _ _].
  repeat (split; [done |]).
  split; [| split].
  - eexists. rewrite (read_surface_run bg _ s1 Hs1), (read_surface_run bg _ s Hs).
    by rewrite F.
  - intros b. destruct (decide (b = bd)) as [-> |]; [by rewrite Hp', Hp1 |].
    destruct (decide (b = bm)) as [-> |]; [by rewrite Hm, Hm1 |].
    by rewrite Hrest.
  - rewrite (draw_pixels_inv s bg bd bm px' vm' Hinv).
    rewrite (draw_pixels_inv s1 bg bd bm px vm Hinv1). cbn. f_equal.
    apply Nat2Z.inj. by rewrite Hsz, Hsz1, F.
Qed.

Lemma session_keeps_shape_witness :
  ∃ s, play plain_build [Paint eight_bytes; Commit true] demo_double = Ok tt s ∧
       gr_framebuffer s = gr_framebuffer demo_double ∧
       double_buffered s = double_buffered demo_double ∧
       gr_draw s = Ptr 1%nat 0.
Proof.
  destruct (play plain_build [Paint eight_bytes; Commit true] demo_double)
    as [[] s |] eqn:E; [| vm_compute in E; discriminate E].
  destruct (session_keeps_shape plain_build (panel 16) startup (Ptr 1%nat 0)
              demo_double [Paint eight_bytes; Commit true] s)
    as (H1 & H2 & H3 & _).
  - apply panel_wf. unfold is_u32. lia.
  - vm_compute. reflexivity.
  - discriminate.
  - exact E.
  - exists s. repeat split; assumption.
Defined.

(** ** What a commit shows *)

Lemma lookup_splice_outside off (new l : list byte) (i : nat) :
  0 ≤ off → off + Z.of_nat (length new) ≤ Z.of_nat (length l) →
  Z.of_nat i < off ∨ off + Z.of_nat (length new) ≤ Z.of_nat i →
  splice off new l !! i = l !! i.
Proof.
  intros H0 Hfit Hi. unfold splice. destruct Hi as [Hi | Hi].
  - rewrite lookup_app_l by (rewrite length_take; lia).
    apply lookup_take_lt. lia.
  - rewrite lookup_app_r by (rewrite length_take; lia).
    rewrite lookup_app_r by (rewrite length_take; lia).
    rewrite lookup_drop, length_take. f_equal. lia.
Qed.

Lemma lookup_slice off n (l : list byte) (i : nat) :
  0 ≤ off → slice off n l !! i
            = if decide (i < Z.to_nat n)%nat then l !! (Z.to_nat off + i)%nat else None.
Proof. intros. unfold slice. by rewrite lookup_take, lookup_drop. Qed.

(* A slice that does not meet the spliced range is not changed. *)
Lemma slice_splice_other off n off' (new l : list byte) :
  0 ≤ off → 0 ≤ n → 0 ≤ off' →
  off' + Z.of_nat (length new) ≤ Z.of_nat (length l) →
  off + n ≤ off' ∨ off' + Z.of_nat (length new) ≤ off →
  slice off n (splice off' new l) = slice off n l.
Proof.
  intros H0 Hn H0' Hfit Hapart. apply list_eq. intros i.
  rewrite !lookup_slice by done. case_decide; [| done].
  apply lookup_splice_outside; lia.
Qed.

(* The state a double-buffered commit that returns leaves. *)
Lemma flip_double_after cfg ok s bg bd bm px vm q s' :
  session_inv s bg bd bm px vm → double_buffered s = true →
  fbdev_flip cfg ok s = Ok q s' →
  ∃ px',
    (if RECOVERY_BGRA cfg then swap_rb px else Some px) = Some px' ∧
    length px' = length px ∧
    (displayed_buffer s = 0 ∨ displayed_buffer s = 1) ∧
    s' = panned ok (1 - displayed_buffer s)
           (committed bd bm px' vm (1 - displayed_buffer s) s) ∧
    session_inv s' bg bd bm px'
      (splice ((1 - displayed_buffer s) * frame (gr_framebuffer s).1) px' vm).
Proof.
  intros Hinv Hdb E.
  rewrite (fbdev_flip_run cfg ok s bg bd bm px vm Hinv), Hdb in E.
  destruct (if RECOVERY_BGRA cfg then swap_rb px else Some px)
    as [px' |] eqn:Hpx'; [| done].
  injection E as <- <-.
  assert (Hlen : length px' = length px).
  { destruct (RECOVERY_BGRA cfg); [by apply swap_rb_length | by simplify_eq]. }
  pose proof (inv_shown _ _ _ _ _ _ Hinv Hdb) as Hshown.
  exists px'. repeat (split; [done |]).
  apply panned_inv.
  - apply (committed_inv s bg bd bm px); [done | done |].
    destruct Hshown as [-> | ->]; auto.
  - destruct Hshown as [-> | ->]; auto.
Qed.

(** X14: after a double-buffered commit that returns, the slot that was not
    displayed holds exactly the bytes of the drawing surface and is the
    displayed slot.  The variable info handed to FBIOPUT_VSCREENINFO puts
    the y offset at that slot's first line, in a virtual screen twice the
    height; if the kernel accepts it the controller scans out that slot, if
    not the panning stays where it was and one report is written. *)
Theorem commit_shows_drawing cfg p s ok q s' :
  session_of cfg p s → double_buffered s = true →
  fbdev_flip cfg ok s = Ok q s' →
  front_pixels (1 - displayed_buffer s) s' = draw_pixels s' ∧
  is_Some (draw_pixels s') ∧
  displayed_buffer s' = 1 - displayed_buffer s ∧
  yoffset (vi s') = (1 - displayed_buffer s) * u32 (height (gr_framebuffer s).1) ∧
  yres_virtual (vi s') = u32 (height (gr_framebuffer s).1 * 2) ∧
  (if ok then scanout s' = Some (vi s') ∧ stderr s' = stderr s
   else scanout s' = scanout s ∧
        stderr s' = stderr s ++ ["active fb swap failed"%string]).
Proof.
  intros Hs Hdb E.
  pose proof (session_of_inv cfg p s Hs) as (bg & bd & bm & px & vm & -> & Hinv).
  destruct (flip_double_after cfg ok s bg bd bm px vm q s' Hinv Hdb E)
    as (px' & _ & Hlen & Hshown & Hs' & Hinv').
  pose proof Hinv as [[_ _ _ _ _ Hsize _ _] Hframe Hroom _].
  specialize (Hroom Hdb). rewrite frame_size_frame in Hsize by done.
  set (t := 1 - displayed_buffer s) in *.
  set (n := frame (gr_framebuffer s).1) in *.
  assert (Ht : t = 0 ∨ t = 1) by (unfold t; lia).
  destruct (panned_buffers ok t (committed bd bm px' vm t s))
    as (F & D & _ & S & _).
  destruct (panned_display ok t (committed bd bm px' vm t s))
    as (V & Sc & Er & _).
  rewrite <- Hs' in F, D, S, V, Sc, Er.
  change (gr_framebuffer (committed bd bm px' vm t s)) with (gr_framebuffer s) in F, V.
  change (double_buffered (committed bd bm px' vm t s)) with (double_buffered s) in D.
  change (vi (committed bd bm px' vm t s)) with (vi s) in V.
  change (scanout (committed bd bm px' vm t s)) with (scanout s) in Sc.
  change (stderr (committed bd bm px' vm t s)) with (stderr s) in Er.
  rewrite (draw_pixels_inv s' bg bd bm px' _ Hinv').
  split; [| split; [done |]].
  - rewrite (front_pixels_inv s' bg bd bm px' _ t Hinv')
      by (rewrite D; destruct Ht; auto).
    rewrite F. fold n. f_equal.
    replace n with (Z.of_nat (length px')) at 2 by lia.
    apply slice_splice; destruct Ht as [-> | ->]; lia.
  - pose proof (u32_range (height (gr_framebuffer s).1)).
    split; [rewrite S; apply s32_small; lia |].
    split; [rewrite V; unfold pan_var; cbn; apply u32_small; nia |].
    split; [rewrite V; unfold pan_var; cbn; by rewrite u32_s32 |].
    destruct ok; by rewrite Sc, Er.
Qed.

Lemma commit_shows_drawing_witness :
  ∃ q s', fbdev_flip plain_build true (painted plain_build 16) = Ok q s' ∧
          front_pixels 1 s' = draw_pixels s' ∧ scanout s' = Some (vi s').
Proof.
  destruct (fbdev_flip plain_build true (painted plain_build 16)) as [q s' |] eqn:E;
    [| vm_compute in E; discriminate E].
  destruct (commit_shows_drawing plain_build (Ptr 1%nat 0) (painted plain_build 16)
              true q s') as (H1 & _ & _ & _ & _ & H2 & _).
  - apply painted_session; [left | right]; reflexivity.
  - vm_compute. reflexivity.
  - exact E.
  - exists q, s'. split; [reflexivity |]. split; [exact H1 | exact H2].
Defined.

(* The controller scans out slot [t]: the variable info it accepted last
   starts at line t * height. *)
Definition scans_out (s : state) (t : Z) : Prop :=
  ∃ v, scanout s = Some v ∧ yoffset v = t * u32 (height (gr_framebuffer s).1).

Lemma pan_var_yoffset n g v : yoffset (pan_var n g v) = u32 (n * u32 (height g)).
Proof. reflexivity. Qed.

(* A double-buffered commit that returns: the slot it filled, the slot it
   records, and what the controller has been told. *)
Lemma flip_double_shows cfg ok s bg bd bm px vm q s' :
  session_inv s bg bd bm px vm → double_buffered s = true →
  fbdev_flip cfg ok s = Ok q s' →
  ∃ px' vm',
    session_inv s' bg bd bm px' vm' ∧ length px' = length px ∧
    double_buffered s' = true ∧ gr_framebuffer s' = gr_framebuffer s ∧
    (displayed_buffer s = 0 ∨ displayed_buffer s = 1) ∧
    displayed_buffer s' = 1 - displayed_buffer s ∧
    front_pixels (displayed_buffer s') s' = draw_pixels s' ∧
    is_Some (draw_pixels s') ∧
    (if ok then scans_out s' (displayed_buffer s') else scanout s' = scanout s).
Proof.
  intros Hinv Hdb E.
  destruct (flip_double_after cfg ok s bg bd bm px vm q s' Hinv Hdb E)
    as (px' & _ & Hlen & Hshown & Hs' & Hinv').
  pose proof Hinv as [[_ _ _ _ _ Hsize _ _] Hframe Hroom _].
  specialize (Hroom Hdb). rewrite frame_size_frame in Hsize by done.
  set (t := 1 - displayed_buffer s) in *.
  set (n := frame (gr_framebuffer s).1) in *.
  assert (Ht : t = 0 ∨ t = 1) by (unfold t; lia).
  destruct (panned_buffers ok t (committed bd bm px' vm t s))
    as (F & D & _ & S & _).
  destruct (panned_display ok t (committed bd bm px' vm t s))
    as (V & Sc & _).
  rewrite <- Hs' in F, D, S, V, Sc.
  change (gr_framebuffer (committed bd bm px' vm t s)) with (gr_framebuffer s) in F, V.
  change (double_buffered (committed bd bm px' vm t s)) with (double_buffered s) in D.
  change (vi (committed bd bm px' vm t s)) with (vi s) in V.
  change (scanout (committed bd bm px' vm t s)) with (scanout s) in Sc.
  rewrite s32_small in S by lia.
  exists px'. eexists. split; [exact Hinv' |].
  split; [done |]. split; [congruence |]. split; [done |]. split; [done |].
  split; [done |]. rewrite S.
  rewrite (draw_pixels_inv s' bg bd bm px' _ Hinv').
  split; [| split; [done |]].
  - rewrite (front_pixels_inv s' bg bd bm px' _ t Hinv')
      by (rewrite D; destruct Ht; auto).
    rewrite F. fold n. f_equal.
    replace n with (Z.of_nat (length px')) at 2 by lia.
    apply slice_splice; destruct Ht as [-> | ->]; lia.
  - destruct ok; [| done]. exists (vi s'). split; [done |].
    rewrite V, pan_var_yoffset, F.
    pose proof (u32_range (height (gr_framebuffer s).1)).
    apply u32_small. nia.
Qed.

(** X15: a double-buffered commit never writes into the slot recorded in
    displayed_buffer: the bytes of that front buffer are after the commit
    what they were before.  When the page flip is accepted the controller
    scans out the newly recorded slot.  When it is refused the controller
    stays on the slot it showed while the record moves on, and the next
    commit copies the drawing surface into the slot the record has left: if
    the controller was showing the recorded slot, that commit writes the
    slot still on screen. *)
Theorem commit_spares_recorded_slot cfg p s ok q s' :
  session_of cfg p s → double_buffered s = true →
  fbdev_flip cfg ok s = Ok q s' →
  front_pixels (displayed_buffer s) s' = front_pixels (displayed_buffer s) s ∧
  is_Some (front_pixels (displayed_buffer s) s) ∧
  displayed_buffer s' = 1 - displayed_buffer s ∧
  (ok = true → scans_out s' (displayed_buffer s')) ∧
  (ok = false →
   (∀ t, scans_out s t → scans_out s' t) ∧
   ∀ ok2 q2 s2, fbdev_flip cfg ok2 s' = Ok q2 s2 →
     front_pixels (displayed_buffer s) s2 = draw_pixels s2 ∧
     is_Some (draw_pixels s2) ∧
     (∀ t, ok2 = false → scans_out s t → scans_out s2 t)).
Proof.
  intros Hs Hdb E.
  pose proof (session_of_inv cfg p s Hs) as (bg & bd & bm & px & vm & -> & Hinv).
  destruct (flip_double_after cfg ok s bg bd bm px vm q s' Hinv Hdb E)
    as (px' & _ & Hlen & Hshown & Hs' & Hinv').
  destruct (flip_double_shows cfg ok s bg bd bm px vm q s' Hinv Hdb E)
    as (px1 & vm1 & Hinv1 & _ & D1 & F1 & _ & S1 & _ & _ & Hsc).
  pose proof Hinv as [[_ _ _ _ _ Hsize _ _] Hframe Hroom _].
  specialize (Hroom Hdb). rewrite frame_size_frame in Hsize by done.
  split; [| split; [| split; [done |]]].
  - rewrite (front_pixels_inv s' bg bd bm px' _ (displayed_buffer s) Hinv')
      by (rewrite D1; destruct Hshown; auto).
    rewrite (front_pixels_inv s bg bd bm px vm (displayed_buffer s) Hinv)
      by (destruct Hshown; auto).
    rewrite F1. f_equal.
    set (n := frame (gr_framebuffer s).1) in *.
    apply slice_splice_other; destruct Hshown as [E0 | E0]; rewrite ?E0; lia.
  - rewrite (front_pixels_inv s bg bd bm px vm (displayed_buffer s) Hinv)
      by (destruct Hshown; auto). done.
  - split; [by intros -> |]. intros ->.
    assert (Hstay : ∀ t, scans_out s t → scans_out s' t).
    { intros t (v & Hv & Hy). exists v. by rewrite Hsc, F1. }
    split; [done |]. intros ok2 q2 s2 E2.
    destruct (flip_double_shows cfg ok2 s' bg bd bm px1 vm1 q2 s2 Hinv1 D1 E2)
      as (px2 & vm2 & _ & _ & _ & F2 & _ & S2 & Hfront & Hsome & Hsc2).
    assert (Eslot : displayed_buffer s2 = displayed_buffer s) by (rewrite S2, S1; lia).
    rewrite Eslot in Hfront. split; [done |]. split; [done |].
    intros t -> (v & Hv & Hy). exists v. by rewrite Hsc2, Hsc, F2, F1.
Qed.

Lemma commit_spares_recorded_slot_witness :
  ∃ q s', fbdev_flip plain_build false (painted plain_build 16) = Ok q s' ∧
          front_pixels 0 s' = front_pixels 0 (painted plain_build 16) ∧
          displayed_buffer s' = 1 ∧ scans_out s' 0.
Proof.
  destruct (fbdev_flip plain_build false (painted plain_build 16)) as [q s' |] eqn:E;
    [| vm_compute in E; discriminate E].
  destruct (commit_spares_recorded_slot plain_build (Ptr 1%nat 0)
              (painted plain_build 16) false q s') as (H1 & _ & H2 & _ & H3).
  - apply painted_session; [left | right]; reflexivity.
  - vm_compute. reflexivity.
  - exact E.
  - exists q, s'. split; [reflexivity |]. split; [exact H1 |]. split; [exact H2 |].
    apply (H3 eq_refl). eexists. split; vm_compute; reflexivity.
Defined.

(** X16: a single-buffered commit, in every build, returns the drawing
    handle after copying the drawing surface byte for byte into front
    buffer 0.  It leaves the drawing surface as it was, issues no ioctl and
    writes no report: the variable info, the panning, the displayed slot and
    the error stream are unchanged. *)
Theorem single_buffered_commit cfg p s ok :
  session_of cfg p s → double_buffered s = false →
  ∃ s', fbdev_flip cfg ok s = Ok p s' ∧
        front_pixels 0 s' = draw_pixels s ∧ draw_pixels s' = draw_pixels s ∧
        is_Some (draw_pixels s) ∧
        vi s' = vi s ∧ scanout s' = scanout s ∧ stderr s' = stderr s ∧
        displayed_buffer s' = displayed_buffer s.
Proof.
  intros Hs Hdb.
  pose proof (session_of_inv cfg p s Hs) as (bg & bd & bm & px & vm & -> & Hinv).
  pose proof (fbdev_flip_run cfg ok s bg bd bm px vm Hinv) as Hrun.
  rewrite Hdb in Hrun.
  pose proof Hinv as [[_ _ _ _ _ Hsize Hfits _] Hframe _ _].
  rewrite frame_size_frame in Hsize, Hfits by done.
  assert (Hinv' : session_inv (committed bd bm px vm 0 s) bg bd bm px
                    (splice (0 * frame (gr_framebuffer s).1) px vm))
    by (apply (committed_inv s bg bd bm px); auto).
  exists (committed bd bm px vm 0 s). split; [done |].
  rewrite (draw_pixels_inv s bg bd bm px vm Hinv).
  rewrite (draw_pixels_inv _ bg bd bm px _ Hinv').
  rewrite (front_pixels_inv _ bg bd bm px _ 0 Hinv') by auto.
  change (gr_framebuffer (committed bd bm px vm 0 s)) with (gr_framebuffer s).
  split; [| by repeat split].
  f_equal. rewrite <- Hsize. apply slice_splice; lia.
Qed.

Lemma single_buffered_commit_witness :
  ∃ s', fbdev_flip bgra_build true (painted bgra_build 8) = Ok (Ptr 1%nat 0) s' ∧
        front_pixels 0 s' = draw_pixels (painted bgra_build 8).
Proof.
  destruct (single_buffered_commit bgra_build (Ptr 1%nat 0) (painted bgra_build 8) true)
    as (s' & H1 & H2 & _).
  - apply painted_session; [right | left]; reflexivity.
  - vm_compute. reflexivity.
  - exists s'. split; [exact H1 | exact H2].
Defined.

(** X17: when a commit returns.  On every state of a session fbdev_flip
    returns the drawing handle, with one exception: built with
    RECOVERY_BGRA, double buffered, and with a frame size height * row_bytes
    that leaves a remainder of 1 or 2 modulo 4, the swap loop reads
    ucfb_vaddr[idx + 2] past the end of the drawing surface. *)
Theorem fbdev_flip_defined cfg p s ok :
  session_of cfg p s →
  (RECOVERY_BGRA cfg = true ∧ double_buffered s = true ∧
   (frame (gr_framebuffer s).1 mod 4 = 1 ∨ frame (gr_framebuffer s).1 mod 4 = 2) →
   fbdev_flip cfg ok s = Undefined OutOfBounds) ∧
  (¬ (RECOVERY_BGRA cfg = true ∧ double_buffered s = true ∧
      (frame (gr_framebuffer s).1 mod 4 = 1 ∨ frame (gr_framebuffer s).1 mod 4 = 2)) →
   ∃ s', fbdev_flip cfg ok s = Ok p s').
Proof.
  intros Hs.
  pose proof (session_of_inv cfg p s Hs) as (bg & bd & bm & px & vm & -> & Hinv).
  rewrite (fbdev_flip_run cfg ok s bg bd bm px vm Hinv).
  pose proof Hinv as [[_ _ _ _ _ Hsize _ _] Hframe _ _].
  rewrite frame_size_frame in Hsize by done. rewrite <- Hsize.
  pose proof (swap_rb_defined px) as Hdef.
  pose proof (Z.mod_pos_bound (Z.of_nat (length px)) 4 ltac:(lia)) as Hmod.
  split.
  - intros (-> & -> & Hrem).
    destruct (swap_rb px) as [px' |]; [| done].
    destruct (proj1 Hdef) as [E | E]; [eauto | lia ..].
  - intros Hsafe. destruct (double_buffered s); [| eauto].
    destruct (RECOVERY_BGRA cfg); [| eauto].
    destruct (swap_rb px) as [px' |]; [eauto |].
    exfalso. apply Hsafe. repeat split; try done.
    destruct (decide (Z.of_nat (length px) mod 4 = 0 ∨ Z.of_nat (length px) mod 4 = 3))
      as [Hok | Hno]; [| lia].
    apply Hdef in Hok. by destruct Hok.
Qed.

Lemma fbdev_flip_defined_witness :
  ∃ s', fbdev_flip bgra_build true (painted bgra_build 16) = Ok (Ptr 1%nat 0) s'.
Proof.
  destruct (fbdev_flip_defined bgra_build (Ptr 1%nat 0) (painted bgra_build 16) true)
    as [_ H].
  - apply painted_session; [right | right]; reflexivity.
  - apply H. intros (_ & _ & [E | E]); vm_compute in E; discriminate E.
Defined.

(* Consecutive commits whose page flips are all accepted keep the controller
   on the recorded slot, and that slot holds the drawing surface's bytes. *)
Lemma commits_accepted_scan cfg n : ∀ s bg bd bm px vm s',
  session_inv s bg bd bm px vm → double_buffered s = true →
  scans_out s (displayed_buffer s) →
  commits cfg (replicate n true) s = Ok tt s' →
  scans_out s' (displayed_buffer s') ∧
  (n ≠ 0%nat → front_pixels (displayed_buffer s') s' = draw_pixels s' ∧
                is_Some (draw_pixels s')).
Proof.
  induction n as [| n IH]; intros s bg bd bm px vm s' Hinv Hdb Hsc H;
    cbn [replicate commits] in H.
  - rewrite mret_run in H. injection H as <-. done.
  - rewrite bind_unfold in H.
    destruct (fbdev_flip cfg true s) as [q s1 | f] eqn:E; [| done].
    destruct (flip_double_shows cfg true s bg bd bm px vm q s1 Hinv Hdb E)
      as (px1 & vm1 & Hinv1 & _ & D1 & _ & _ & _ & Hfront & Hsome & Hsc1).
    destruct n as [| n].
    + cbn [replicate commits] in H. rewrite mret_run in H. injection H as <-. done.
    + destruct (IH s1 bg bd bm px1 vm1 s' Hinv1 D1 Hsc1 H) as [Hs' Hf].
      split; [done |]. intros _. by apply Hf.
Qed.

(* fbdev_init, having chosen double buffering with its page flip accepted,
   leaves the controller on slot 0. *)
Lemma init_scans_slot_0 cfg k s0 p s :
  fbdev_init cfg k s0 = Ok p s → p ≠ NULL →
  double_buffered s = true → pan_ok k = true → scans_out s 0.
Proof.
  intros Hinit Hp Hdb Hpan.
  destruct (fbdev_init_ok cfg k s0 p s Hinit Hp) as (fi & v & _ & _ & _ & -> & _).
  destruct (init_done_buffers cfg k fi v s0) as (F & D & _).
  destruct (init_done_display cfg k fi v s0) as (V & Sc & _).
  rewrite D in Hdb. rewrite Hdb in V. rewrite Hdb, Hpan in Sc.
  exists (vi (init_done cfg k fi v s0)). split; [exact Sc |].
  rewrite V, pan_var_yoffset, !Z.mul_0_l. reflexivity.
Qed.

(** X19: the slot on screen alternates.  After a fbdev_init that chose
    double buffering and whose page flip was accepted, the controller scans
    out slot 0 (y offset 0) and displayed_buffer is 0.  If the build has no
    RECOVERY_BGRA, or the frame size modulo 4 is 0 or 3, then n consecutive
    commits whose FBIOPUT_VSCREENINFO calls are all accepted return, and
    after them displayed_buffer is n mod 2 and the controller scans out that
    same slot, at y offset (n mod 2) * height: 1, 0, 1, 0, ... commit by
    commit.  After at least one commit the slot on screen holds the bytes of
    the drawing surface. *)
Theorem scanned_slot_alternates cfg k s0 p s (n : nat) :
  probe_wf k → pan_ok k = true →
  fbdev_init cfg k s0 = Ok p s → p ≠ NULL → double_buffered s = true →
  RECOVERY_BGRA cfg = false ∨
  frame (gr_framebuffer s).1 mod 4 = 0 ∨ frame (gr_framebuffer s).1 mod 4 = 3 →
  displayed_buffer s = 0 ∧ scans_out s 0 ∧
  ∃ s', commits cfg (replicate n true) s = Ok tt s' ∧
        displayed_buffer s' = Z.of_nat n mod 2 ∧
        scans_out s' (Z.of_nat n mod 2) ∧
        (n ≠ 0%nat → front_pixels (Z.of_nat n mod 2) s' = draw_pixels s' ∧
                      is_Some (draw_pixels s')).
Proof.
  intros Hwf Hpan Hinit Hp Hdb Hsafe.
  pose proof (init_scans_slot_0 cfg k s0 p s Hinit Hp Hdb Hpan) as Hsc.
  pose proof (fbdev_init_cases cfg k s0) as Hc. rewrite Hinit in Hc.
  destruct Hc as (_ & _ & Hc). destruct (Hc Hp) as (fi & v & Hfi & _ & Hi).
  destruct (initialised_session cfg fi v s0 p s)
    as (bg & bd & bm & px & vm & -> & Hinv & Hshown); [by apply Hwf | done |].
  specialize (Hshown Hdb). split; [done |]. split; [done |].
  pose proof (commits_alternate cfg (replicate n true) s bg bd bm px vm Hinv Hdb) as H.
  rewrite Hshown, Z.add_0_l, length_replicate in H.
  pose proof Hinv as [[_ _ _ _ _ Hsize _ _] Hframe _ _].
  rewrite frame_size_frame in Hsize by done. rewrite <- Hsize in Hsafe.
  destruct (commits cfg (replicate n true) s) as [[] s' | f] eqn:E.
  - exists s'. split; [done |]. split; [done |].
    destruct (commits_accepted_scan cfg n s bg bd bm px vm s' Hinv Hdb) as [Hs' Hf];
      [by rewrite Hshown | done |].
    by rewrite H in Hs', Hf.
  - destruct H as (_ & Hon & Hmod).
    destruct Hsafe as [Hoff | Hsafe]; [congruence | tauto].
Qed.

Lemma scanned_slot_alternates_witness :
  ∃ s', commits plain_build [true; true; true] demo_double = Ok tt s' ∧
        displayed_buffer s' = 1 ∧ scans_out s' 1 ∧
        front_pixels 1 s' = draw_pixels s'.
Proof.
  destruct (scanned_slot_alternates plain_build (panel 16) startup (Ptr 1%nat 0)
              demo_double 3) as (_ & _ & s' & H1 & H2 & H3 & H4).
  - apply panel_wf. unfold is_u32. lia.
  - reflexivity.
  - vm_compute. reflexivity.
  - discriminate.
  - vm_compute. reflexivity.
  - left. reflexivity.
  - exists s'. split; [exact H1 |]. split; [exact H2 |]. split; [exact H3 |].
    apply H4. discriminate.
Defined.

(** ** gr_draw after a failed fbdev_init *)

Lemma fbdev_exit_dangling s b :
  gr_draw s = Ptr b 0 → mem s !! b = None → fbdev_exit s = Undefined BadPointer.
Proof.
  intros Hdraw Hb. unfold fbdev_exit, sys_close.
  rewrite exec_gets, exec_modify, exec_modify, exec_gets.
  destruct s. state_simpl. subst.
  case_bool_decide; state_simpl; cbn [is_null];
    rewrite bind_unfold, bind_unfold; unfold read_surface; state_simpl;
    by rewrite Hb.
Qed.

(* All the calls before the second malloc succeed. *)
Definition reaches_second_malloc (k : probe) : Prop :=
  open_ok k = true ∧ is_Some (fscreeninfo k) ∧ is_Some (vscreeninfo k) ∧
  is_Some (vram k) ∧ surface_ok k = true.

(** X18: fbdev_exit after a failed fbdev_init, on a backend that held
    nothing before.  If the call that failed is the second malloc, the
    surface header has been freed but gr_draw still holds its address: the
    header is no longer a live object, and fbdev_exit reads it
    (gr_draw->data).  After any other failure gr_draw is NULL and fbdev_exit
    returns without changing anything. *)
Theorem failed_init_then_exit cfg k s0 s :
  gr_draw s0 = NULL → fb_fd s0 = -1 →
  (∀ b off, data (gr_framebuffer s0).1 = Ptr b off → mem s0 !! b = None) →
  fbdev_init cfg k s0 = Ok NULL s →
  (reaches_second_malloc k →
   ∃ b, gr_draw s = Ptr b 0 ∧ mem s !! b = None ∧
        fbdev_exit s = Undefined BadPointer) ∧
  (¬ reaches_second_malloc k → gr_draw s = NULL ∧ fbdev_exit s = Ok tt s).
Proof.
  intros Hnull Hfd Hidle. rewrite fbdev_init_run.
  unfold init_outcome, reaches_second_malloc. intros E.
  destruct (open_ok k);
    [| simplify_eq; split;
       [by intros (? & _) | intros _; split; [done | by apply fbdev_exit_nothing]]].
  destruct (fscreeninfo k) as [fi|];
    [| simplify_eq; split;
       [by intros (_ & [? ?] & _)
       | intros _; split; [done | by apply fbdev_exit_nothing]]].
  destruct (vscreeninfo k) as [v|];
    [| simplify_eq; split;
       [by intros (_ & _ & [? ?] & _)
       | intros _; split; [done | by apply fbdev_exit_nothing]]].
  destruct (vram k) as [vr|];
    [| simplify_eq; split;
       [by intros (_ & _ & _ & [? ?] & _)
       | intros _; split; [done | by apply fbdev_exit_nothing]]].
  cbv zeta in E. case_bool_decide; [| done].
  set (bm := fresh (dom (mem s0))) in *.
  assert (Hbm : mem s0 !! bm = None) by apply fresh_block_unused.
  destruct (surface_ok k).
  2:{ simplify_eq. split; [by intros (_ & _ & _ & _ & ?) |].
      intros _. split; [done |]. apply fbdev_exit_nothing; [done | done |].
      intros b off Hb. cbn in Hb. by injection Hb as <- _. }
  destruct (pixels k); simplify_eq.
  split; [| intros Hno; exfalso; apply Hno; eauto 10].
  intros _.
  set (m1 := <[bm:=Mapping (replicate (Z.to_nat (usize (fi_smem_len fi))) x00)]> (mem s0)).
  assert (Hbg : mem s0 !! fresh (dom m1) = None).
  { pose proof (fresh_block_unused m1) as Hf. unfold m1 in Hf at 1.
    apply lookup_insert_None in Hf. tauto. }
  exists (fresh (dom m1)). split; [done |]. split; [done |].
  by apply (fbdev_exit_dangling _ (fresh (dom m1))).
Qed.

Lemma failed_init_then_exit_witness :
  ∃ s b, fbdev_init plain_build starved_panel startup = Ok NULL s ∧
         gr_draw s = Ptr b 0 ∧ mem s !! b = None ∧
         fbdev_exit s = Undefined BadPointer.
Proof.
  destruct (fbdev_init plain_build starved_panel startup) as [p s |] eqn:E;
    [| vm_compute in E; discriminate E].
  assert (Hp : p = NULL).
  { pose proof E as E'. vm_compute in E'. by injection E' as <- _. }
  subst p.
  destruct (failed_init_then_exit plain_build starved_panel startup s
              eq_refl eq_refl) as [H _].
  - intros b off Hb. discriminate Hb.
  - exact E.
  - destruct H as (b & H1 & H2 & H3).
    + repeat split; try reflexivity; eexists; reflexivity.
    + exists s, b. repeat split; assumption.
Defined.
